(** * Demand paging and swap for xv6: a shallow embedding of [pageswap.c]

    The kernel state touched by [pageswap.c] is made explicit as a record
    that every operation takes and returns.  C [int]s and [uint]s are
    integers of [Z] with their 32-bit wrap-around written out, the slot
    array is a list updated by index, page directories live in a store
    keyed by their address, and kernel memory is byte addressed. *)

From Stdlib Require Import ZArith List Lia Bool.
From Stdlib Require Import Strings.Byte.
From stdpp Require Import base option list gmap.

Local Open Scope Z_scope.

(** ** Machine integers *)

(** Truncation to 32 bits: the low 32 bits read as an unsigned and as a
    two's complement number. *)
Definition to_uint (z : Z) : Z := Z.land z 0xFFFFFFFF.
Definition to_int (z : Z) : Z :=
  let u := to_uint z in
  if u <? 0x80000000 then u else u - 0x100000000.

(** ** Constants of the headers

    The flag masks and the kernel base are those of [mmu.h] and
    [memlayout.h]; they are kept as parameters, with what the proofs need
    of them.  The page and block sizes are the ones the design fixes
    (4096 and 512). *)

Class mmu_params := {
  PTE_P : Z;
  PTE_U : Z;
  PTE_A : Z;
  KERNBASE : Z
}.

Class mmu_params_ok (mp : mmu_params) : Prop := {
  PTE_P_low : 0 < PTE_P < 4096;
  PTE_A_not_P : Z.land PTE_A PTE_P = 0;
  PTE_A_not_U : Z.land PTE_A PTE_U = 0;
  KERNBASE_range : 0 <= KERNBASE <= 2 ^ 32 - 4096
}.

Definition PGSIZE : Z := 4096.
Definition BSIZE : Z := 512.

(** The values on x86: the present, user and accessed flags are bits 0, 2
    and 5 of an entry, and xv6 puts the kernel at 2 GiB.  The examples are
    run with them. *)
Definition xv6_x86 : mmu_params :=
  {| PTE_P := 0x001; PTE_U := 0x004; PTE_A := 0x020; KERNBASE := 0x80000000 |}.

(** ** Data *)

(** [struct swap_slot] *)
Record swap_slot := mk_slot {
  page_perm : Z;
  is_free : Z
}.

(** [enum procstate] of [proc.h] *)
Inductive procstate := UNUSED | EMBRYO | SLEEPING | RUNNABLE | RUNNING | ZOMBIE.

(** The fields of [struct proc] that [pageswap.c] reads or writes.
    [pgdir] is the address of the page directory, 0 for a null pointer. *)
Record proc := mk_proc {
  state : procstate;
  pid : Z;
  rss : Z;
  pgdir : Z
}.

(** What the kernel makes observable besides its memory: reloads of the
    page-directory base register and console lines. *)
Inductive event :=
| Lcr3 (pa : Z)
| PrintSwapInit
| PrintThreshold (thr n : Z).

(** The kernel state.  A page directory is the map from virtual page
    numbers to leaf entries; a page number without an entry is one for
    which no page table exists. *)
Record kstate := mk_kstate {
  slots : list swap_slot;          (* swap_area.slots *)
  threshold : Z;
  npages_to_swap : Z;
  alpha : Z;
  beta : Z;
  limit : Z;
  freelist : list Z;               (* kmem.freelist, kernel virtual addresses *)
  ptable : list proc;              (* ptable.proc *)
  cpu_proc : option nat;           (* myproc(), an index into ptable *)
  pgdirs : gmap Z (gmap Z Z);      (* page directories by address *)
  kmemory : Z -> byte;             (* kernel virtual memory *)
  disk : Z -> list byte;           (* blocks of device 0 *)
  trace : list event               (* latest first *)
}.

Definition with_slots (st : kstate) (v : list swap_slot) : kstate :=
  mk_kstate v (threshold st) (npages_to_swap st) (alpha st) (beta st) (limit st)
    (freelist st) (ptable st) (cpu_proc st) (pgdirs st) (kmemory st) (disk st) (trace st).
Definition with_threshold (st : kstate) (v : Z) : kstate :=
  mk_kstate (slots st) v (npages_to_swap st) (alpha st) (beta st) (limit st)
    (freelist st) (ptable st) (cpu_proc st) (pgdirs st) (kmemory st) (disk st) (trace st).
Definition with_npages_to_swap (st : kstate) (v : Z) : kstate :=
  mk_kstate (slots st) (threshold st) v (alpha st) (beta st) (limit st)
    (freelist st) (ptable st) (cpu_proc st) (pgdirs st) (kmemory st) (disk st) (trace st).
Definition with_freelist (st : kstate) (v : list Z) : kstate :=
  mk_kstate (slots st) (threshold st) (npages_to_swap st) (alpha st) (beta st) (limit st)
    v (ptable st) (cpu_proc st) (pgdirs st) (kmemory st) (disk st) (trace st).
Definition with_ptable (st : kstate) (v : list proc) : kstate :=
  mk_kstate (slots st) (threshold st) (npages_to_swap st) (alpha st) (beta st) (limit st)
    (freelist st) v (cpu_proc st) (pgdirs st) (kmemory st) (disk st) (trace st).
Definition with_pgdirs (st : kstate) (v : gmap Z (gmap Z Z)) : kstate :=
  mk_kstate (slots st) (threshold st) (npages_to_swap st) (alpha st) (beta st) (limit st)
    (freelist st) (ptable st) (cpu_proc st) v (kmemory st) (disk st) (trace st).
Definition with_kmemory (st : kstate) (v : Z -> byte) : kstate :=
  mk_kstate (slots st) (threshold st) (npages_to_swap st) (alpha st) (beta st) (limit st)
    (freelist st) (ptable st) (cpu_proc st) (pgdirs st) v (disk st) (trace st).
Definition with_disk (st : kstate) (v : Z -> list byte) : kstate :=
  mk_kstate (slots st) (threshold st) (npages_to_swap st) (alpha st) (beta st) (limit st)
    (freelist st) (ptable st) (cpu_proc st) (pgdirs st) (kmemory st) v (trace st).
Definition emit (st : kstate) (e : event) : kstate :=
  mk_kstate (slots st) (threshold st) (npages_to_swap st) (alpha st) (beta st) (limit st)
    (freelist st) (ptable st) (cpu_proc st) (pgdirs st) (kmemory st) (disk st) (e :: trace st).

(** ** The slot table *)

(** [swapInit]: the loop writes both fields of the 800 slots. *)
Fixpoint swapInit_loop (fuel : nat) (i : Z) (sl : list swap_slot) : list swap_slot :=
  match fuel with
  | O => sl
  | S fuel' =>
      if i <? 800
      then swapInit_loop fuel' (i + 1) (<[Z.to_nat i := mk_slot 0 1]> sl)
      else sl
  end.

Definition swapInit (st : kstate) : kstate :=
  emit (with_slots st (swapInit_loop 800 0 (slots st))) PrintSwapInit.

Definition mark_used (s : swap_slot) : swap_slot := mk_slot (page_perm s) 0.

Definition slot_is_free (sl : list swap_slot) (i : Z) : bool :=
  match sl !! Z.to_nat i with
  | Some s => negb (is_free s =? 0)
  | None => false
  end.

(** [findslot]: the first slot whose [is_free] is nonzero is marked used
    and its index returned.  (A read outside the list, which does not
    happen with the 800 entries of the array, finds nothing free.) *)
Fixpoint findslot_loop (fuel : nat) (i : Z) (sl : list swap_slot)
  : Z * list swap_slot :=
  match fuel with
  | O => (-1, sl)
  | S fuel' =>
      if i <? 800
      then if slot_is_free sl i
           then (i, alter mark_used (Z.to_nat i) sl)
           else findslot_loop fuel' (i + 1) sl
      else (-1, sl)
  end.

Definition findslot (st : kstate) : Z * kstate :=
  let '(r, sl) := findslot_loop 800 0 (slots st) in (r, with_slots st sl).

(** [freeslot] *)
Definition freeslot (st : kstate) (slot_index : Z) : kstate :=
  if (slot_index <? 0) || (slot_index >=? 800) then st
  else with_slots st (<[Z.to_nat slot_index := mk_slot 0 1]> (slots st)).

(** ** Collaborators of [pageswap.c]

    The frame allocator, the buffer cache, the page-table walker and
    [mappages] are defined in other files of the kernel. *)

Section Model.
Context {mp : mmu_params}.

(** Modelled from the spec: the address macros of memlayout.h and mmu.h
    are not in the sources.  A frame is seen by the kernel at its
    physical address plus [KERNBASE]; the bits from 12 up of an entry are
    its frame (or slot) number; an address is rounded down to its page. *)
Definition P2V (pa : Z) : Z := to_uint (pa + KERNBASE).
Definition V2P (a : Z) : Z := to_uint (a - KERNBASE).
Definition PTE_ADDR (pte : Z) : Z := Z.land pte (Z.lnot 0xFFF).
Definition PGROUNDDOWN (a : Z) : Z := Z.land a (Z.lnot (PGSIZE - 1)).

(** [memmove] out of and into kernel memory. *)
Definition memread (m : Z -> byte) (a : Z) (n : nat) : list byte :=
  map (fun k => m (a + Z.of_nat k)) (seq 0 n).

Definition memwrite (m : Z -> byte) (a : Z) (l : list byte) : Z -> byte :=
  fun x =>
    if (a <=? x) && (x <? a + Z.of_nat (length l))
    then nth (Z.to_nat (x - a)) l x00
    else m x.

(** Modelled from the spec: the buffer cache ([bread], [bwrite], [brelse]
    of bio.c) is not in the sources.  [bread] yields the 512 bytes of a
    block, [bwrite] stores them synchronously; the cache itself is not
    visible to the swap code. *)
Definition bread (st : kstate) (blockno : Z) : list byte :=
  resize (Z.to_nat BSIZE) x00 (disk st blockno).

Definition bwrite (st : kstate) (blockno : Z) (data : list byte) : kstate :=
  with_disk st (fun b => if b =? blockno then data else disk st b).

(** Modelled from the spec: [kalloc] (alloc_frame of kalloc.c) takes the
    head of the free list, or returns 0 when the list is empty. *)
Definition kalloc (st : kstate) : Z * kstate :=
  match freelist st with
  | [] => (0, st)
  | r :: rest => (r, with_freelist st rest)
  end.

(** Modelled from the spec: [kfree] (free_frame of kalloc.c) puts the
    frame at the head of the free list.  The allocator overwrites a freed
    page with junk, so nothing may rely on what a freed frame holds. *)
Definition kfree (st : kstate) (v : Z) : kstate :=
  with_freelist
    (with_kmemory st (memwrite (kmemory st) v (replicate (Z.to_nat PGSIZE) x01)))
    (v :: freelist st).

(** Modelled from the spec: [walkpgdir] (walk of vm.c) called with
    [alloc = 0] finds the leaf entry of the page of [va], or nothing.
    The result stands for the pointer together with the entry it points
    to; [set_pte] is the store through that pointer. *)
Definition walkpgdir (st : kstate) (pgdir va : Z) : option Z :=
  pt ← pgdirs st !! pgdir; pt !! Z.shiftr va 12.

Definition set_pte (st : kstate) (pgdir va v : Z) : kstate :=
  with_pgdirs st (alter (fun pt => <[Z.shiftr va 12 := v]> pt) pgdir (pgdirs st)).

Definition read_pte (st : kstate) (pgdir va : Z) : Z :=
  default 0 (walkpgdir st pgdir va).

(** Modelled from the spec: [mappages] (vm.c) for one page installs the
    mapping of [va] to the frame [pa] with [perm] and the present flag.
    It fails when no leaf entry can be had; vm.c would then allocate a
    page table, which [swappage_in] never needs, since it maps an address
    whose leaf it has just found. *)
Definition mappages (st : kstate) (pgdir va pa perm : Z) : Z * kstate :=
  match walkpgdir st pgdir va with
  | Some _ => (0, set_pte st pgdir va (Z.lor (Z.lor pa perm) PTE_P))
  | None => (-1, st)
  end.

(** ** [pageswap.c] *)

Definition slot_perm (sl : list swap_slot) (i : Z) : Z :=
  match sl !! Z.to_nat i with
  | Some s => page_perm s
  | None => 0
  end.

Definition set_slot_perm (st : kstate) (i v : Z) : kstate :=
  with_slots st (alter (fun s => mk_slot v (is_free s)) (Z.to_nat i) (slots st)).

(** [countpages] *)
Definition countpages (st : kstate) : Z :=
  to_int (Z.of_nat (length (freelist st))).

(** The loop of [swappageout] that writes the page to the 8 blocks. *)
Fixpoint write_page_loop (fuel : nat) (i : Z) (blockno pa : Z) (st : kstate) : kstate :=
  match fuel with
  | O => st
  | S fuel' =>
      if i <? 8
      then write_page_loop fuel' (i + 1) blockno pa
             (bwrite st (to_uint (blockno + i))
                (memread (kmemory st) (P2V pa + i * BSIZE) (Z.to_nat BSIZE)))
      else st
  end.

(** [swappageout] *)
Definition swappageout (st : kstate) (pgdir va pa : Z) : Z * kstate :=
  let '(slot_index, st) := findslot st in
  if slot_index <? 0 then (-1, st)
  else
    let blockno := to_uint (2 + slot_index * 8) in
    match walkpgdir st pgdir va with
    | None => (-1, st)
    | Some pte =>
        if Z.land pte PTE_P =? 0 then (-1, st)
        else
          let st := set_slot_perm st slot_index (Z.land pte 0xFFF) in
          let st := write_page_loop 8 0 blockno pa st in
          let st :=
            set_pte st pgdir va
              (to_uint (Z.lor (Z.shiftl slot_index 12)
                          (Z.land (Z.land (read_pte st pgdir va) (Z.lnot PTE_P)) 0xFFF))) in
          let st := emit st (Lcr3 (V2P pgdir)) in
          (0, st)
    end.

(** [findproc]: the victim is kept as its index in the table together
    with the entry it points to. *)
Definition procstate_eqb (a b : procstate) : bool :=
  match a, b with
  | UNUSED, UNUSED | EMBRYO, EMBRYO | SLEEPING, SLEEPING
  | RUNNABLE, RUNNABLE | RUNNING, RUNNING | ZOMBIE, ZOMBIE => true
  | _, _ => false
  end.

Fixpoint findproc_loop (ps : list proc) (i : nat)
    (victim : option (nat * proc)) (max_rss : Z) : option (nat * proc) :=
  match ps with
  | [] => victim
  | p :: ps' =>
      if procstate_eqb (state p) UNUSED || (pid p <? 1)
      then findproc_loop ps' (S i) victim max_rss
      else if (rss p >? max_rss)
              || ((rss p =? max_rss)
                  && match victim with
                     | Some (_, v) => pid p <? pid v
                     | None => false
                     end)
      then findproc_loop ps' (S i) (Some (i, p)) (rss p)
      else findproc_loop ps' (S i) victim max_rss
  end.

Definition findproc (st : kstate) : option nat :=
  fst <$> findproc_loop (ptable st) 0 None 0.

(** [findpage].  The three loops step through the user addresses; the
    fuel is the number of pages below [KERNBASE]. *)
Definition scan_fuel : nat := Z.to_nat (KERNBASE / PGSIZE + 1).

Definition user_present (pte : Z) : bool :=
  negb (Z.land pte PTE_P =? 0) && negb (Z.land pte PTE_U =? 0).

(** What one turn of the first loop finds at address [i]. *)
Definition findpage_first_body (st : kstate) (pgdir i : Z) : option (Z * Z) :=
  match walkpgdir st pgdir i with
  | Some pte =>
      if negb (user_present pte) then None
      else if Z.land pte PTE_A =? 0 then Some (PTE_ADDR pte, i)
      else None
  | None => None
  end.

Fixpoint findpage_first (fuel : nat) (i : Z) (st : kstate) (pgdir : Z)
  : option (Z * Z) :=
  match fuel with
  | O => None
  | S fuel' =>
      if i <? KERNBASE
      then match findpage_first_body st pgdir i with
           | Some r => Some r
           | None => findpage_first fuel' (to_uint (i + PGSIZE)) st pgdir
           end
      else None
  end.

(** One turn of the loop that resets the accessed bits. *)
Definition findpage_reset_body (st : kstate) (pgdir i : Z) : kstate :=
  match walkpgdir st pgdir i with
  | Some pte =>
      if negb (user_present pte) then st
      else set_pte st pgdir i (Z.land pte (Z.lnot PTE_A))
  | None => st
  end.

Fixpoint findpage_reset (fuel : nat) (i : Z) (st : kstate) (pgdir : Z) : kstate :=
  match fuel with
  | O => st
  | S fuel' =>
      if i <? KERNBASE
      then findpage_reset fuel' (to_uint (i + PGSIZE))
             (findpage_reset_body st pgdir i) pgdir
      else st
  end.

(** What one turn of the last loop finds at address [i]. *)
Definition findpage_second_body (st : kstate) (pgdir i : Z) : option (Z * Z) :=
  match walkpgdir st pgdir i with
  | Some pte =>
      if negb (user_present pte) then None
      else Some (PTE_ADDR pte, i)
  | None => None
  end.

Fixpoint findpage_second (fuel : nat) (i : Z) (st : kstate) (pgdir : Z)
  : option (Z * Z) :=
  match fuel with
  | O => None
  | S fuel' =>
      if i <? KERNBASE
      then match findpage_second_body st pgdir i with
           | Some r => Some r
           | None => findpage_second fuel' (to_uint (i + PGSIZE)) st pgdir
           end
      else None
  end.

(** The result is the returned physical address and what was stored
    through [va_out], if anything. *)
Definition findpage (st : kstate) (pgdir : Z) : (Z * option Z) * kstate :=
  match findpage_first scan_fuel 0 st pgdir with
  | Some (pa, va) => ((pa, Some va), st)
  | None =>
      let st := findpage_reset scan_fuel 0 st pgdir in
      let st := emit st (Lcr3 (V2P pgdir)) in
      match findpage_second scan_fuel 0 st pgdir with
      | Some (pa, va) => ((pa, Some va), st)
      | None => ((0, None), st)
      end
  end.

Definition set_rss (st : kstate) (i : nat) (v : Z) : kstate :=
  with_ptable st
    (alter (fun p => mk_proc (state p) (pid p) v (pgdir p)) i (ptable st)).

Definition proc_rss (st : kstate) (i : nat) : Z :=
  match ptable st !! i with Some p => rss p | None => 0 end.

Definition proc_pgdir (st : kstate) (i : nat) : Z :=
  match ptable st !! i with Some p => pgdir p | None => 0 end.

(** One turn of the [while] loop of [swapout]: whether the loop goes on
    (it does not after [break]), the new [swapped] and the new state. *)
Definition swapout_body (victim : nat) (swapped : Z) (st : kstate)
  : bool * Z * kstate :=
  let '((pa, va_out), st) := findpage st (proc_pgdir st victim) in
  if pa =? 0 then (false, swapped, st)
  else
    match va_out with
    | None => (false, swapped, st) (* [va] is always written when [pa] is not 0 *)
    | Some va =>
        let '(r, st) := swappageout st (proc_pgdir st victim) va pa in
        if r =? 0
        then
          let st := set_rss st victim (to_int (proc_rss st victim - 1)) in
          let st := kfree st (P2V pa) in
          (true, to_int (swapped + 1), st)
        else (true, swapped, st)
    end.

(** Every turn that does not leave the loop adds one to [attempts], so
    the bound on [attempts] is enough fuel. *)
Fixpoint swapout_loop (fuel : nat) (victim : nat) (swapped attempts : Z)
    (st : kstate) : kstate :=
  match fuel with
  | O => st
  | S fuel' =>
      if (swapped <? npages_to_swap st)
         && (attempts <? to_int (npages_to_swap st * 2))
      then
        match swapout_body victim swapped st with
        | (true, swapped, st) =>
            swapout_loop fuel' victim swapped (to_int (attempts + 1)) st
        | (false, _, st) => st
        end
      else st
  end.

(** [swapout] *)
Definition swapout (st : kstate) : kstate :=
  match findproc st with
  | None => st
  | Some victim =>
      swapout_loop (Z.to_nat (to_int (npages_to_swap st * 2))) victim 0 0 st
  end.

(** [checkAswap]; the division of C truncates. *)
Definition checkAswap (st : kstate) : kstate :=
  let free_pages := countpages st in
  if free_pages <=? threshold st
  then
    let st := emit st (PrintThreshold (threshold st) (npages_to_swap st)) in
    let st := swapout st in
    let st :=
      with_threshold st
        (to_int (threshold st - Z.quot (to_int (threshold st * beta st)) 100)) in
    let st := if threshold st <? 1 then with_threshold st 1 else st in
    let st :=
      with_npages_to_swap st
        (to_int (npages_to_swap st
                 + Z.quot (to_int (npages_to_swap st * alpha st)) 100)) in
    if npages_to_swap st >? limit st
    then with_npages_to_swap st (limit st)
    else st
  else st.

(** The loop of [swappage_in] that reads the 8 blocks into the frame. *)
Fixpoint read_page_loop (fuel : nat) (i : Z) (blockno mem : Z) (st : kstate) : kstate :=
  match fuel with
  | O => st
  | S fuel' =>
      if i <? 8
      then read_page_loop fuel' (i + 1) blockno mem
             (with_kmemory st
                (memwrite (kmemory st) (mem + i * BSIZE)
                   (bread st (to_uint (blockno + i)))))
      else st
  end.

(** [swappage_in] *)
Definition swappage_in (st : kstate) (pgdir va : Z) : Z * kstate :=
  let page_addr := PGROUNDDOWN (to_uint va) in
  match walkpgdir st pgdir page_addr with
  | None => (-1, st)
  | Some pte =>
      if negb (Z.land pte PTE_P =? 0) then (0, st)
      else
        let slot_index := to_int (Z.shiftr (PTE_ADDR pte) 12) in
        if (slot_index <? 0) || (slot_index >=? 800)
           || slot_is_free (slots st) slot_index
        then (-1, st)
        else
          let '(mem, st) := kalloc st in
          let '(mem, st) :=
            if mem =? 0 then kalloc (checkAswap st) else (mem, st) in
          if mem =? 0 then (-1, st)
          else
            let blockno := to_uint (2 + slot_index * 8) in
            let st := read_page_loop 8 0 blockno mem st in
            let perm := to_uint (slot_perm (slots st) slot_index) in
            let perm := Z.lor perm PTE_P in
            let '(r, st) := mappages st pgdir page_addr (V2P mem) perm in
            if r <? 0 then (-1, kfree st mem)
            else
              let st := freeslot st slot_index in
              let st :=
                match cpu_proc st with
                | Some p => set_rss st p (to_int (proc_rss st p + 1))
                | None => st
                end in
              (0, st)
  end.

(** [swapFree]; the process is given by its index, [None] for a null
    pointer. *)
Definition swapFree_body (st : kstate) (pgdir i : Z) : kstate :=
  match walkpgdir st pgdir i with
  | None => st
  | Some pte =>
      if (Z.land pte PTE_P =? 0) && negb (pte =? 0)
      then
        let slot_index := to_int (Z.shiftr (PTE_ADDR pte) 12) in
        if (slot_index >=? 0) && (slot_index <? 800)
        then freeslot st slot_index
        else st
      else st
  end.

Fixpoint swapFree_loop (fuel : nat) (i : Z) (st : kstate) (pgdir : Z) : kstate :=
  match fuel with
  | O => st
  | S fuel' =>
      if i <? KERNBASE
      then swapFree_loop fuel' (to_uint (i + PGSIZE)) (swapFree_body st pgdir i) pgdir
      else st
  end.

Definition swapFree (st : kstate) (p : option nat) : kstate :=
  match p with
  | None => st
  | Some i =>
      match ptable st !! i with
      | None => st
      | Some pr =>
          if pgdir pr =? 0 then st
          else swapFree_loop scan_fuel 0 st (pgdir pr)
      end
  end.

(** The block copy of [duplicateslot]. *)
Fixpoint copy_slot_loop (fuel : nat) (i : Z) (parent_blockno child_blockno : Z)
    (st : kstate) : kstate :=
  match fuel with
  | O => st
  | S fuel' =>
      if i <? 8
      then copy_slot_loop fuel' (i + 1) parent_blockno child_blockno
             (bwrite st (to_uint (child_blockno + i))
                (bread st (to_uint (parent_blockno + i))))
      else st
  end.

(** [duplicateslot] *)
Definition duplicateslot (st : kstate) (parent_slot : Z) : Z * kstate :=
  if (parent_slot <? 0) || (parent_slot >=? 800)
     || slot_is_free (slots st) parent_slot
  then (-1, st)
  else
    let '(child_slot, st) := findslot st in
    let '(child_slot, st) :=
      if child_slot <? 0
      then
        let '(child_slot, st) := findslot (checkAswap st) in
        if child_slot <? 0 then findslot (checkAswap st) else (child_slot, st)
      else (child_slot, st) in
    if child_slot <? 0 then (-1, st)
    else
      let st := set_slot_perm st child_slot (slot_perm (slots st) parent_slot) in
      let parent_blockno := to_uint (2 + parent_slot * 8) in
      let child_blockno := to_uint (2 + child_slot * 8) in
      let st := copy_slot_loop 8 0 parent_blockno child_blockno st in
      (child_slot, st).

End Model.

(** * Notions used in the statements *)

(** A process that [findproc] does not skip. *)
Definition eligible (p : proc) : Prop := state p <> UNUSED /\ 1 <= pid p.

(** [v] is a process of the listed ones that [findproc] may keep: eligible,
    with positive [rss], no eligible process has more, and none with the
    same [rss] has a smaller pid. *)
Definition best_of (ps : list proc) (v : proc) : Prop :=
  eligible v /\ 0 < rss v /\
  forall p, p ∈ ps -> eligible p ->
    rss p <= rss v /\ (rss p = rss v -> pid v <= pid p).

Definition findproc_inv (pre : list proc) (victim : option (nat * proc))
    (max_rss : Z) : Prop :=
  match victim with
  | None => max_rss = 0 /\ forall p, p ∈ pre -> eligible p -> rss p <= 0
  | Some (k, v) => max_rss = rss v /\ pre !! k = Some v /\ best_of pre v
  end.

(** The two shapes of the loops over the user addresses: a search that
    stops at the first hit, and a sweep that updates the state. *)
Section Scans.
Context {mp : mmu_params}.

Fixpoint scan_find (body : Z -> option (Z * Z)) (fuel : nat) (i : Z)
  : option (Z * Z) :=
  match fuel with
  | O => None
  | S fuel' =>
      if i <? KERNBASE
      then match body i with
           | Some r => Some r
           | None => scan_find body fuel' (to_uint (i + PGSIZE))
           end
      else None
  end.

Fixpoint scan_fold (body : kstate -> Z -> kstate) (fuel : nat) (i : Z)
    (st : kstate) : kstate :=
  match fuel with
  | O => st
  | S fuel' =>
      if i <? KERNBASE
      then scan_fold body fuel' (to_uint (i + PGSIZE)) (body st i)
      else st
  end.

(** The virtual page numbers the loops visit. *)
Definition user_vpn (k : Z) : Prop := 0 <= k /\ 4096 * k < KERNBASE.

(** Page [k] is the lowest user page whose entry satisfies [Q]. *)
Definition first_vpn (Q : Z -> bool) (st : kstate) (pgdir k pte : Z) : Prop :=
  user_vpn k /\ walkpgdir st pgdir (4096 * k) = Some pte /\ Q pte = true /\
  forall j pte', 0 <= j < k ->
    walkpgdir st pgdir (4096 * j) = Some pte' -> Q pte' = false.

(** The candidates of the first loop of [findpage]. *)
Definition unreferenced (pte : Z) : bool :=
  user_present pte && (Z.land pte PTE_A =? 0).

(** What the reset loop of [findpage] makes of an entry. *)
Definition clear_accessed (pte : Z) : Z :=
  if user_present pte then Z.land pte (Z.lnot PTE_A) else pte.

(** The slot index read from the upper bits of an entry, as
    [swappage_in] and [swapFree] compute it. *)
Definition slot_of (pte : Z) : Z := to_int (Z.shiftr (PTE_ADDR pte) 12).

(** An entry that names a swap slot. *)
Definition swapped_entry (pte : Z) : Prop := Z.land pte PTE_P = 0 /\ pte <> 0.

(** The state of the sweep of [swapFree] before page [k]: only the slot
    table differs from the initial state [st0]; the slots named by the
    swapped entries of the pages below [k] are free with no permissions;
    every other slot is as it was. *)
Definition swapFree_inv (st0 : kstate) (pgdir : Z) (k : Z) (st : kstate) : Prop :=
  st = with_slots st0 (slots st) /\
  length (slots st) = length (slots st0) /\
  (forall j pte, 0 <= j < k ->
     walkpgdir st0 pgdir (4096 * j) = Some pte -> swapped_entry pte ->
     0 <= slot_of pte < 800 ->
     slots st !! Z.to_nat (slot_of pte) = Some (mk_slot 0 1)) /\
  (forall n, slots st !! n = slots st0 !! n \/
     (slots st !! n = Some (mk_slot 0 1) /\
      exists j pte, 0 <= j < k /\ 4096 * j < KERNBASE /\
        walkpgdir st0 pgdir (4096 * j) = Some pte /\
        swapped_entry pte /\ 0 <= slot_of pte < 800 /\ n = Z.to_nat (slot_of pte))).

(** The state of the reset loop of [findpage] before page [k]: only the
    page directories differ from the initial state [st0]; the entries of
    the pages of [pgdir] below [k] have been through [clear_accessed];
    every other entry is as it was. *)
Definition reset_inv (st0 : kstate) (pgdir : Z) (k : Z) (st : kstate) : Prop :=
  st = with_pgdirs st0 (pgdirs st) /\
  (forall a, 0 <= Z.shiftr a 12 < k -> 4096 * Z.shiftr a 12 < KERNBASE ->
     walkpgdir st pgdir a = clear_accessed <$> walkpgdir st0 pgdir a) /\
  (forall pgdir' a,
     pgdir' <> pgdir \/ ~ (0 <= Z.shiftr a 12 < k /\ 4096 * Z.shiftr a 12 < KERNBASE) ->
     walkpgdir st pgdir' a = walkpgdir st0 pgdir' a).

End Scans.

(** The invariant of the slot table: a free slot records no
    permissions. *)
Definition slot_inv (sl : list swap_slot) : Prop :=
  forall i s, sl !! i = Some s -> is_free s <> 0 -> page_perm s = 0.

(** How the slot table evolves while pages are only evicted: a slot is as
    it was, or it was free and is now in use. *)
Definition alloc_evolution (sl sl' : list swap_slot) : Prop :=
  length sl' = length sl /\
  forall i s, sl !! i = Some s ->
    sl' !! i = Some s \/
    (is_free s <> 0 /\ exists s', sl' !! i = Some s' /\ is_free s' = 0).

Section Frames.
Context {mp : mmu_params}.

(** A frame of the allocator: a 32-bit kernel address whose physical
    address is page aligned. *)
Definition frame_ok (a : Z) : Prop :=
  0 <= a < 2 ^ 32 /\ Z.land (V2P a) 0xFFF = 0.

(** What an eviction leaves alone: the slots in use and their blocks on
    disk, the entries that are not present, the current process, and the
    free list being a list of frames. *)
Definition evict_frame (st st' : kstate) : Prop :=
  alloc_evolution (slots st) (slots st') /\
  (forall s i, 0 <= s < 800 -> 0 <= i < 8 ->
     slot_is_free (slots st) s = false ->
     disk st' (2 + s * 8 + i) = disk st (2 + s * 8 + i)) /\
  (forall pgdir a pte, walkpgdir st pgdir a = Some pte -> Z.land pte PTE_P = 0 ->
     walkpgdir st' pgdir a = Some pte) /\
  cpu_proc st' = cpu_proc st /\
  (Forall frame_ok (freelist st) -> Forall frame_ok (freelist st')).

End Frames.

(** The controller's tunables. *)
Definition tunables (st : kstate) : Z * Z * Z * Z * Z :=
  (threshold st, npages_to_swap st, alpha st, beta st, limit st).

(** ** States used as examples *)

(** The state after boot: the initial values of the globals, every slot
    free, no frame on the free list yet and no process. *)
Definition boot : kstate :=
  mk_kstate (replicate 800 (mk_slot 0 1)) 100 4 25 10 100
    [] [] None ∅ (fun _ => x00) (fun _ => []) [].

(** A page directory at some kernel address. *)
Definition example_pgdir : Z := 0x8dfbf000.

(** One page directory whose only leaf, that of page 0, is zero. *)
Definition unmapped_state : kstate :=
  with_pgdirs boot {[ example_pgdir := {[ 0 := 0 ]} ]}.

(** One page directory with page 5 mapped to the frame at 0x123000,
    present, writable, user, accessed and dirty. *)
Definition mapped_state : kstate :=
  with_pgdirs boot {[ example_pgdir := {[ 5 := 0x123067 ]} ]}.

(** A process about to exit: pages 2, 3 and 7 of its address space are
    swapped out to the slots 10, 11 and 12 (flags W, U, A and D), and those
    three slots are in use. *)
Definition exiting_state : kstate :=
  with_ptable
    (with_pgdirs
       (with_slots boot
          (<[10%nat := mk_slot 0x067 0]>
             (<[11%nat := mk_slot 0x067 0]>
                (<[12%nat := mk_slot 0x067 0]> (slots boot)))))
       {[ example_pgdir := {[ 2 := 0xA066; 3 := 0xB066; 7 := 0xC066 ]} ]})
    [mk_proc RUNNING 3 5 example_pgdir].

(** A process with 10 user pages, pages 0 to 9 on the frames 0x100 to
    0x109, all present, writable, user and accessed. *)
Definition ten_pages : gmap Z Z :=
  list_to_map (map (fun k => (k, Z.lor (Z.shiftl (0x100 + k) 12) 0x027)) (seqZ 0 10)).

Definition ten_pages_state : kstate :=
  with_pgdirs boot {[ example_pgdir := ten_pages ]}.

(** [mapped_state] with one frame on the free list and a pattern of bytes
    in memory. *)
Definition roundtrip_state : kstate :=
  with_freelist
    (with_kmemory mapped_state
       (fun a => if Z.odd (a / 3) then "Z"%byte else "q"%byte))
    [0x8dffe000].

(** The number of slots in use. *)
Definition used_slots (sl : list swap_slot) : Z :=
  Z.of_nat (length (filter (fun s => is_free s = 0) sl)).

(** [ten_pages_state] with one process, of 10 resident pages, that owns the
    page directory. *)
Definition evicting_state : kstate :=
  with_ptable ten_pages_state [mk_proc RUNNING 3 10 example_pgdir].

(** [exiting_state] with one frame on the free list. *)
Definition faulting_state : kstate :=
  with_freelist exiting_state [0x8dffe000].

(** * Properties *)

(** ** Machine integers *)

Lemma to_uint_mod z : to_uint z = z mod 2 ^ 32.
Proof.
  unfold to_uint. change 0xFFFFFFFF with (Z.ones 32).
  apply Z.land_ones. lia.
Qed.

Lemma to_uint_id z : 0 <= z < 2 ^ 32 -> to_uint z = z.
Proof. intros H. rewrite to_uint_mod. apply Z.mod_small. exact H. Qed.

Lemma to_uint_range z : 0 <= to_uint z < 2 ^ 32.
Proof. rewrite to_uint_mod. apply Z.mod_pos_bound. lia. Qed.

Lemma to_int_id z : - 2 ^ 31 <= z < 2 ^ 31 -> to_int z = z.
Proof.
  intros H. unfold to_int. rewrite to_uint_mod.
  destruct (Z.ltb_spec (z mod 2 ^ 32) 0x80000000) as [Hlt | Hge].
  - destruct (Z.le_gt_cases 0 z) as [Hz | Hz].
    + apply Z.mod_small. lia.
    + replace z with (z + 2 ^ 32 - 1 * 2 ^ 32) in Hlt by lia.
      unfold Z.sub at 1 in Hlt. rewrite <- Z.mul_opp_l, Z.mod_add in Hlt by lia.
      rewrite Z.mod_small in Hlt; lia.
  - destruct (Z.le_gt_cases 0 z) as [Hz | Hz].
    + rewrite Z.mod_small in Hge; lia.
    + replace z with (z + 2 ^ 32 - 1 * 2 ^ 32) at 1 by lia.
      unfold Z.sub at 2. rewrite <- Z.mul_opp_l, Z.mod_add by lia.
      rewrite Z.mod_small; lia.
Qed.

Lemma to_int_range z : - 2 ^ 31 <= to_int z < 2 ^ 31.
Proof.
  unfold to_int. pose proof (to_uint_range z).
  destruct (Z.ltb_spec (to_uint z) 0x80000000); lia.
Qed.

(** ** Reading a field after an update *)

Lemma slots_with_slots st v : slots (with_slots st v) = v.
Proof. reflexivity. Qed.
Lemma freelist_with_slots st v : freelist (with_slots st v) = freelist st.
Proof. reflexivity. Qed.
Lemma cpu_proc_with_slots st v : cpu_proc (with_slots st v) = cpu_proc st.
Proof. reflexivity. Qed.
Lemma pgdirs_with_slots st v : pgdirs (with_slots st v) = pgdirs st.
Proof. reflexivity. Qed.
Lemma kmemory_with_slots st v : kmemory (with_slots st v) = kmemory st.
Proof. reflexivity. Qed.
Lemma disk_with_slots st v : disk (with_slots st v) = disk st.
Proof. reflexivity. Qed.
Lemma tunables_with_slots st v : tunables (with_slots st v) = tunables st.
Proof. reflexivity. Qed.
Lemma threshold_with_threshold st v : threshold (with_threshold st v) = v.
Proof. reflexivity. Qed.
Lemma npages_to_swap_with_threshold st v : npages_to_swap (with_threshold st v) = npages_to_swap st.
Proof. reflexivity. Qed.
Lemma alpha_with_threshold st v : alpha (with_threshold st v) = alpha st.
Proof. reflexivity. Qed.
Lemma beta_with_threshold st v : beta (with_threshold st v) = beta st.
Proof. reflexivity. Qed.
Lemma limit_with_threshold st v : limit (with_threshold st v) = limit st.
Proof. reflexivity. Qed.
Lemma threshold_with_npages_to_swap st v : threshold (with_npages_to_swap st v) = threshold st.
Proof. reflexivity. Qed.
Lemma npages_to_swap_with_npages_to_swap st v : npages_to_swap (with_npages_to_swap st v) = v.
Proof. reflexivity. Qed.
Lemma alpha_with_npages_to_swap st v : alpha (with_npages_to_swap st v) = alpha st.
Proof. reflexivity. Qed.
Lemma beta_with_npages_to_swap st v : beta (with_npages_to_swap st v) = beta st.
Proof. reflexivity. Qed.
Lemma limit_with_npages_to_swap st v : limit (with_npages_to_swap st v) = limit st.
Proof. reflexivity. Qed.
Lemma slots_with_freelist st v : slots (with_freelist st v) = slots st.
Proof. reflexivity. Qed.
Lemma freelist_with_freelist st v : freelist (with_freelist st v) = v.
Proof. reflexivity. Qed.
Lemma tunables_with_freelist st v : tunables (with_freelist st v) = tunables st.
Proof. reflexivity. Qed.
Lemma slots_with_ptable st v : slots (with_ptable st v) = slots st.
Proof. reflexivity. Qed.
Lemma freelist_with_ptable st v : freelist (with_ptable st v) = freelist st.
Proof. reflexivity. Qed.
Lemma tunables_with_ptable st v : tunables (with_ptable st v) = tunables st.
Proof. reflexivity. Qed.
Lemma slots_with_pgdirs st v : slots (with_pgdirs st v) = slots st.
Proof. reflexivity. Qed.
Lemma freelist_with_pgdirs st v : freelist (with_pgdirs st v) = freelist st.
Proof. reflexivity. Qed.
Lemma cpu_proc_with_pgdirs st v : cpu_proc (with_pgdirs st v) = cpu_proc st.
Proof. reflexivity. Qed.
Lemma pgdirs_with_pgdirs st v : pgdirs (with_pgdirs st v) = v.
Proof. reflexivity. Qed.
Lemma kmemory_with_pgdirs st v : kmemory (with_pgdirs st v) = kmemory st.
Proof. reflexivity. Qed.
Lemma disk_with_pgdirs st v : disk (with_pgdirs st v) = disk st.
Proof. reflexivity. Qed.
Lemma tunables_with_pgdirs st v : tunables (with_pgdirs st v) = tunables st.
Proof. reflexivity. Qed.
Lemma slots_with_kmemory st v : slots (with_kmemory st v) = slots st.
Proof. reflexivity. Qed.
Lemma pgdirs_with_kmemory st v : pgdirs (with_kmemory st v) = pgdirs st.
Proof. reflexivity. Qed.
Lemma kmemory_with_kmemory st v : kmemory (with_kmemory st v) = v.
Proof. reflexivity. Qed.
Lemma disk_with_kmemory st v : disk (with_kmemory st v) = disk st.
Proof. reflexivity. Qed.
Lemma tunables_with_kmemory st v : tunables (with_kmemory st v) = tunables st.
Proof. reflexivity. Qed.
Lemma slots_with_disk st v : slots (with_disk st v) = slots st.
Proof. reflexivity. Qed.
Lemma freelist_with_disk st v : freelist (with_disk st v) = freelist st.
Proof. reflexivity. Qed.
Lemma cpu_proc_with_disk st v : cpu_proc (with_disk st v) = cpu_proc st.
Proof. reflexivity. Qed.
Lemma pgdirs_with_disk st v : pgdirs (with_disk st v) = pgdirs st.
Proof. reflexivity. Qed.
Lemma kmemory_with_disk st v : kmemory (with_disk st v) = kmemory st.
Proof. reflexivity. Qed.
Lemma disk_with_disk st v : disk (with_disk st v) = v.
Proof. reflexivity. Qed.
Lemma tunables_with_disk st v : tunables (with_disk st v) = tunables st.
Proof. reflexivity. Qed.
Lemma slots_emit st e : slots (emit st e) = slots st.
Proof. reflexivity. Qed.
Lemma threshold_emit st e : threshold (emit st e) = threshold st.
Proof. reflexivity. Qed.
Lemma npages_to_swap_emit st e : npages_to_swap (emit st e) = npages_to_swap st.
Proof. reflexivity. Qed.
Lemma alpha_emit st e : alpha (emit st e) = alpha st.
Proof. reflexivity. Qed.
Lemma beta_emit st e : beta (emit st e) = beta st.
Proof. reflexivity. Qed.
Lemma limit_emit st e : limit (emit st e) = limit st.
Proof. reflexivity. Qed.
Lemma freelist_emit st e : freelist (emit st e) = freelist st.
Proof. reflexivity. Qed.
Lemma cpu_proc_emit st e : cpu_proc (emit st e) = cpu_proc st.
Proof. reflexivity. Qed.
Lemma pgdirs_emit st e : pgdirs (emit st e) = pgdirs st.
Proof. reflexivity. Qed.
Lemma disk_emit st e : disk (emit st e) = disk st.
Proof. reflexivity. Qed.
Lemma tunables_emit st e : tunables (emit st e) = tunables st.
Proof. reflexivity. Qed.

(** ** The slot table *)

Lemma with_slots_same st : with_slots st (slots st) = st.
Proof. destruct st; reflexivity. Qed.

Lemma slot_is_free_alter_used sl i :
  slot_is_free (alter mark_used (Z.to_nat i) sl) i = false.
Proof.
  unfold slot_is_free. rewrite list_lookup_alter_eq.
  destruct (sl !! Z.to_nat i) as [s |]; reflexivity.
Qed.

(** What the scan from index [i] returns: either nothing is free from [i]
    on and the table is unchanged, or the result is the first free index
    and only its [is_free] has been cleared. *)
Lemma findslot_loop_spec fuel : forall i sl,
  0 <= i -> i + Z.of_nat fuel = 800 ->
  (findslot_loop fuel i sl = (-1, sl) /\
   forall j, i <= j < 800 -> slot_is_free sl j = false)
  \/
  (exists r, findslot_loop fuel i sl = (r, alter mark_used (Z.to_nat r) sl) /\
   i <= r < 800 /\ slot_is_free sl r = true /\
   forall j, i <= j < r -> slot_is_free sl j = false).
Proof.
  induction fuel as [| fuel IH]; intros i sl Hi Hsum.
  - left. split; [reflexivity |]. intros j Hj. lia.
  - cbn [findslot_loop].
    destruct (Z.ltb_spec i 800) as [Hlt | Hge]; [| lia].
    destruct (slot_is_free sl i) eqn:Hfree.
    + right. exists i. split; [reflexivity |]. split; [lia |].
      split; [exact Hfree |]. intros j Hj. lia.
    + destruct (IH (i + 1) sl) as [(Hr & Hall) | (r & Hr & Hrng & Hfr & Hbefore)];
        [lia | lia | left | right].
      * split; [exact Hr |].
        intros j Hj. destruct (Z.eq_dec j i) as [-> | Hne]; [exact Hfree |].
        apply Hall. lia.
      * exists r. split; [exact Hr |]. split; [lia |]. split; [exact Hfr |].
        intros j Hj. destruct (Z.eq_dec j i) as [-> | Hne]; [exact Hfree |].
        apply Hbefore. lia.
Qed.

Lemma findslot_cases st :
  (findslot st = (-1, st) /\
   forall j, 0 <= j < 800 -> slot_is_free (slots st) j = false)
  \/
  (exists r,
   findslot st = (r, with_slots st (alter mark_used (Z.to_nat r) (slots st))) /\
   0 <= r < 800 /\ slot_is_free (slots st) r = true /\
   forall j, 0 <= j < r -> slot_is_free (slots st) j = false).
Proof.
  unfold findslot.
  destruct (findslot_loop_spec 800 0 (slots st)) as
    [(Hr & Hall) | (r & Hr & Hrng & Hfr & Hbefore)]; [lia | lia | |];
    rewrite Hr.
  - left. split; [| exact Hall]. rewrite with_slots_same. reflexivity.
  - right. exists r. split; [reflexivity |]. split; [exact Hrng |].
    split; [exact Hfr | exact Hbefore].
Qed.

(** C6.  For every state of the slot table, [findslot] returns the
    lowest-indexed free slot and has marked it used (and nothing else has
    changed) when it returns; it returns -1 exactly when no slot is free,
    and then leaves the state as it was.  The result is a function of the
    table, so the first-fit order is deterministic. *)
Theorem findslot_first_fit (st : kstate) :
  let r := fst (findslot st) in
  let st' := snd (findslot st) in
  (r = -1 <-> forall j, 0 <= j < 800 -> slot_is_free (slots st) j = false) /\
  (r = -1 -> st' = st) /\
  (r <> -1 ->
   0 <= r < 800 /\
   slot_is_free (slots st) r = true /\
   (forall j, 0 <= j < r -> slot_is_free (slots st) j = false) /\
   st' = with_slots st (alter mark_used (Z.to_nat r) (slots st)) /\
   slot_is_free (slots st') r = false).
Proof.
  cbv zeta.
  destruct (findslot_cases st) as
    [(Hfs & Hall) | (r & Hfs & Hrng & Hfr & Hbefore)]; rewrite Hfs.
  - unfold fst, snd. split; [tauto |]. split; [reflexivity |].
    intros Hne. elim Hne. reflexivity.
  - unfold fst, snd. split; [| split].
    + split; [intros ->; lia |].
      intros Hall. rewrite Hall in Hfr by lia. discriminate.
    + intros ->. lia.
    + intros _. split; [exact Hrng |]. split; [exact Hfr |].
      split; [exact Hbefore |]. split; [reflexivity |].
      rewrite slots_with_slots. apply slot_is_free_alter_used.
Qed.

(** ** Choosing the victim process *)

Lemma eligible_test p :
  procstate_eqb (state p) UNUSED || (pid p <? 1) = false <-> eligible p.
Proof.
  unfold eligible.
  destruct (Z.ltb_spec (pid p) 1); destruct (state p); simpl;
    split; try discriminate; try (intros [? ?]; congruence || lia);
    intros; split; (discriminate || lia).
Qed.

Lemma findproc_loop_inv ps : forall pre victim max_rss,
  findproc_inv pre victim max_rss ->
  exists m, findproc_inv (pre ++ ps) (findproc_loop ps (length pre) victim max_rss) m.
Proof.
  induction ps as [| p ps IH]; intros pre victim max_rss Hinv.
  - exists max_rss. rewrite app_nil_r. exact Hinv.
  - cbn [findproc_loop].
    replace (pre ++ p :: ps) with ((pre ++ [p]) ++ ps) by (rewrite <- app_assoc; reflexivity).
    replace (S (length pre)) with (length (pre ++ [p])) by (rewrite length_app; simpl; lia).
    destruct (procstate_eqb (state p) UNUSED || (pid p <? 1)) eqn:Hel.
    { apply IH. assert (Hne : ~ eligible p).
      { rewrite <- eligible_test, Hel. discriminate. }
      destruct victim as [[k v] |]; cbn [findproc_inv] in *.
      - destruct Hinv as (Hm & Hk & Hv & Hpos & Hbest). split; [exact Hm |].
        split; [apply lookup_app_l_Some; exact Hk |].
        split; [exact Hv |]. split; [exact Hpos |].
        intros q Hq Heq. apply elem_of_app in Hq as [Hq | Hq]; [auto |].
        apply list_elem_of_singleton in Hq. subst q. contradiction.
      - destruct Hinv as (Hm & Hall). split; [exact Hm |].
        intros q Hq Heq. apply elem_of_app in Hq as [Hq | Hq]; [auto |].
        apply list_elem_of_singleton in Hq. subst q. contradiction. }
    apply eligible_test in Hel.
    destruct ((rss p >? max_rss)
              || ((rss p =? max_rss)
                  && match victim with
                     | Some (_, v) => pid p <? pid v
                     | None => false
                     end)) eqn:Hcmp.
    + apply IH. cbn [findproc_inv]. split; [reflexivity |].
      split; [apply list_lookup_middle; reflexivity |].
      destruct victim as [[k v] |]; cbn [findproc_inv] in Hinv.
      * destruct Hinv as (Hm & Hk & Hv & Hpos & Hbest). subst max_rss.
        assert (Hrel : rss v < rss p \/ (rss p = rss v /\ pid p < pid v)).
        { apply orb_true_iff in Hcmp as [H | H]; [left; lia |].
          apply andb_true_iff in H as [H1 H2]. right. lia. }
        split; [exact Hel |]. split; [lia |].
        intros q Hq Heq. apply elem_of_app in Hq as [Hq | Hq].
        -- destruct (Hbest q Hq Heq) as [Hle Htie]. lia.
        -- apply list_elem_of_singleton in Hq. subst q. lia.
      * destruct Hinv as (Hm & Hall). subst max_rss.
        assert (Hpos : 0 < rss p).
        { apply orb_true_iff in Hcmp as [H | H]; [lia |].
          rewrite andb_false_r in H. discriminate. }
        split; [exact Hel |]. split; [exact Hpos |].
        intros q Hq Heq. apply elem_of_app in Hq as [Hq | Hq].
        -- specialize (Hall q Hq Heq). lia.
        -- apply list_elem_of_singleton in Hq. subst q. lia.
    + apply IH. apply orb_false_iff in Hcmp as [Hgt Htie].
      destruct victim as [[k v] |]; cbn [findproc_inv] in *.
      * destruct Hinv as (Hm & Hk & Hv & Hpos & Hbest). subst max_rss.
        split; [reflexivity |]. split; [apply lookup_app_l_Some; exact Hk |].
        split; [exact Hv |]. split; [exact Hpos |].
        intros q Hq Heq. apply elem_of_app in Hq as [Hq | Hq]; [auto |].
        apply list_elem_of_singleton in Hq. subst q.
        apply andb_false_iff in Htie. split; [lia |]. intros Hsame.
        destruct Htie as [H | H]; lia.
      * destruct Hinv as (Hm & Hall). subst max_rss. split; [reflexivity |].
        intros q Hq Heq. apply elem_of_app in Hq as [Hq | Hq]; [auto |].
        apply list_elem_of_singleton in Hq. subst q. lia.
Qed.

(** C7.  For every process table, [findproc] skips the entries that are
    UNUSED or have a pid below 1; it returns no victim exactly when no
    eligible process has a positive rss; otherwise the victim is an
    eligible process with the largest rss, and among those with that rss
    one with the smallest pid.  Two eligible processes with rss 50 and
    pids 7 and 12, in either order, give the victim with pid 7.  A process
    with rss 0 is never the victim: the tie-break of the comparison only
    applies once a candidate is recorded. *)
Theorem findproc_victim (st : kstate) :
  (findproc st = None <->
   forall p, p ∈ ptable st -> eligible p -> rss p <= 0) /\
  (forall k, findproc st = Some k ->
   exists v, ptable st !! k = Some v /\ best_of (ptable st) v) /\
  (forall a b,
   eligible a -> eligible b -> rss a = 50 -> rss b = 50 ->
   pid a = 7 -> pid b = 12 ->
   ptable st = [a; b] \/ ptable st = [b; a] ->
   exists k v, findproc st = Some k /\ ptable st !! k = Some v /\ pid v = 7).
Proof.
  assert (Hinv : exists m,
    findproc_inv (ptable st) (findproc_loop (ptable st) 0 None 0) m).
  { apply (findproc_loop_inv (ptable st) [] None 0). split; [reflexivity |].
    intros p Hp. apply elem_of_nil in Hp. contradiction. }
  destruct Hinv as [m Hinv]. unfold findproc.
  assert (Hsome : forall k, fst <$> findproc_loop (ptable st) 0 None 0 = Some k ->
    exists v, ptable st !! k = Some v /\ best_of (ptable st) v).
  { intros k Hk. destruct (findproc_loop (ptable st) 0 None 0) as [[k' v] |];
      [| discriminate].
    injection Hk as <-. destruct Hinv as (_ & Hlk & Hbest). eauto. }
  assert (Hnone : fst <$> findproc_loop (ptable st) 0 None 0 = None <->
    forall p, p ∈ ptable st -> eligible p -> rss p <= 0).
  { split.
    - intros Hn. destruct (findproc_loop (ptable st) 0 None 0) as [[k' v] |];
        [discriminate |]. apply Hinv.
    - intros Hall.
      destruct (fst <$> findproc_loop (ptable st) 0 None 0) as [k |] eqn:Hk;
        [| reflexivity].
      destruct (Hsome k eq_refl) as (v & Hlk & Hel & Hpos & _).
      apply list_elem_of_lookup_2 in Hlk. specialize (Hall v Hlk Hel). lia. }
  split; [exact Hnone |]. split; [exact Hsome |].
  intros a b Ha Hb Hra Hrb Hpa Hpb Htab.
  assert (Hin : a ∈ ptable st /\ b ∈ ptable st).
  { destruct Htab as [-> | ->]; split;
      repeat (apply list_elem_of_here || apply list_elem_of_further). }
  destruct Hin as [Hina Hinb].
  destruct (fst <$> findproc_loop (ptable st) 0 None 0) as [k |] eqn:Hk.
  - destruct (Hsome k eq_refl) as (v & Hlk & Hel & Hpos & Hbest).
    exists k, v. split; [reflexivity |]. split; [exact Hlk |].
    assert (Hv : v = a \/ v = b).
    { apply list_elem_of_lookup_2 in Hlk.
      destruct Htab as [E | E]; rewrite E in Hlk;
        apply elem_of_cons in Hlk as [-> | Hlk]; auto;
        apply list_elem_of_singleton in Hlk; auto. }
    destruct Hv as [-> | ->]; [exact Hpa |].
    destruct (Hbest a Hina Ha) as [_ Htie]. specialize (Htie ltac:(lia)). lia.
  - destruct Hnone as [Hn _]. specialize (Hn eq_refl a Hina Ha). lia.
Qed.


(** ** The replacement controller *)

Section Controller.
Context {mp : mmu_params}.

Lemma findslot_tunables st : tunables (snd (findslot st)) = tunables st.
Proof.
  destruct (findslot_cases st) as [(-> & _) | (r & -> & _)];
    [reflexivity | apply tunables_with_slots].
Qed.

Lemma write_page_loop_tunables fuel : forall i blockno pa st,
  tunables (write_page_loop fuel i blockno pa st) = tunables st.
Proof.
  induction fuel as [| fuel IH]; intros i blockno pa st; [reflexivity |].
  cbn [write_page_loop]. destruct (i <? 8); [| reflexivity].
  rewrite IH. unfold bwrite. apply tunables_with_disk.
Qed.

Lemma swappageout_tunables st pgdir va pa :
  tunables (snd (swappageout st pgdir va pa)) = tunables st.
Proof.
  unfold swappageout. pose proof (findslot_tunables st) as Hfs.
  destruct (findslot st) as [r st1]. unfold snd in Hfs.
  destruct (r <? 0); [exact Hfs |].
  destruct (walkpgdir st1 pgdir va) as [pte |]; [| exact Hfs].
  destruct (Z.land pte PTE_P =? 0); [exact Hfs |].
  unfold snd, set_pte. rewrite tunables_emit, tunables_with_pgdirs.
  rewrite write_page_loop_tunables. unfold set_slot_perm.
  rewrite tunables_with_slots. exact Hfs.
Qed.

Lemma findpage_reset_tunables fuel : forall i st pgdir,
  tunables (findpage_reset fuel i st pgdir) = tunables st.
Proof.
  induction fuel as [| fuel IH]; intros i st pgdir; [reflexivity |].
  cbn [findpage_reset]. destruct (i <? KERNBASE); [| reflexivity].
  rewrite IH. unfold findpage_reset_body.
  destruct (walkpgdir st pgdir i) as [pte |]; [| reflexivity].
  destruct (negb (user_present pte)); [reflexivity |].
  unfold set_pte. apply tunables_with_pgdirs.
Qed.

Lemma findpage_tunables st pgdir :
  tunables (snd (findpage st pgdir)) = tunables st.
Proof.
  unfold findpage.
  destruct (findpage_first scan_fuel 0 st pgdir) as [[pa va] |]; [reflexivity |].
  match goal with
  | |- context [findpage_second ?f ?i ?s ?p] =>
      destruct (findpage_second f i s p) as [[pa va] |]
  end; unfold snd; rewrite tunables_emit; apply findpage_reset_tunables.
Qed.

Lemma swapout_body_tunables victim swapped st :
  tunables (snd (swapout_body victim swapped st)) = tunables st.
Proof.
  unfold swapout_body.
  pose proof (findpage_tunables st (proc_pgdir st victim)) as Hfp.
  destruct (findpage st (proc_pgdir st victim)) as [[pa va_out] st1].
  unfold snd in Hfp.
  destruct (pa =? 0); [exact Hfp |].
  destruct va_out as [va |]; [| exact Hfp].
  pose proof (swappageout_tunables st1 (proc_pgdir st1 victim) va pa) as Hso.
  destruct (swappageout st1 (proc_pgdir st1 victim) va pa) as [r st2].
  unfold snd in Hso. rewrite Hfp in Hso.
  destruct (r =? 0); [| exact Hso].
  unfold snd, kfree, set_rss.
  rewrite tunables_with_freelist, tunables_with_kmemory, tunables_with_ptable.
  exact Hso.
Qed.

Lemma swapout_loop_tunables fuel : forall victim swapped attempts st,
  tunables (swapout_loop fuel victim swapped attempts st) = tunables st.
Proof.
  induction fuel as [| fuel IH]; intros victim swapped attempts st; [reflexivity |].
  cbn [swapout_loop].
  destruct ((swapped <? npages_to_swap st)
            && (attempts <? to_int (npages_to_swap st * 2))); [| reflexivity].
  pose proof (swapout_body_tunables victim swapped st) as Hb.
  destruct (swapout_body victim swapped st) as [[go swapped'] st1].
  unfold snd in Hb. destruct go; [| exact Hb].
  rewrite IH. exact Hb.
Qed.

Lemma swapout_tunables st : tunables (swapout st) = tunables st.
Proof.
  unfold swapout. destruct (findproc st); [| reflexivity].
  apply swapout_loop_tunables.
Qed.

Lemma tunables_inv st st' :
  tunables st' = tunables st ->
  threshold st' = threshold st /\ npages_to_swap st' = npages_to_swap st /\
  alpha st' = alpha st /\ beta st' = beta st /\ limit st' = limit st.
Proof. unfold tunables. intros [= -> -> -> -> ->]. repeat split. Qed.

(** The adaptation, whatever [swapout] did: the new values are those of
    the two assignments and the two clamps, on the tunables as they were
    before the call. *)
Lemma checkAswap_triggered st :
  countpages st <= threshold st ->
  let t := to_int (threshold st - Z.quot (to_int (threshold st * beta st)) 100) in
  let n := to_int (npages_to_swap st
                   + Z.quot (to_int (npages_to_swap st * alpha st)) 100) in
  threshold (checkAswap st) = (if t <? 1 then 1 else t) /\
  npages_to_swap (checkAswap st) = (if n >? limit st then limit st else n) /\
  alpha (checkAswap st) = alpha st /\ beta (checkAswap st) = beta st /\
  limit (checkAswap st) = limit st.
Proof.
  intros Htrig. cbv zeta. unfold checkAswap.
  destruct (Z.leb_spec (countpages st) (threshold st)) as [_ | Hgt]; [| lia].
  pose proof (swapout_tunables
                (emit st (PrintThreshold (threshold st) (npages_to_swap st)))) as Hso.
  apply tunables_inv in Hso.
  rewrite threshold_emit, npages_to_swap_emit, alpha_emit, beta_emit, limit_emit in Hso.
  destruct Hso as (Ht & Hn & Ha & Hb & Hl).
  generalize dependent (swapout (emit st (PrintThreshold (threshold st) (npages_to_swap st)))).
  intros st1 Ht Hn Ha Hb Hl.
  rewrite threshold_with_threshold, Ht, Hb.
  generalize (to_int (threshold st - Z.quot (to_int (threshold st * beta st)) 100)).
  intros t.
  assert (Hst2 : forall st2 : kstate,
    npages_to_swap st2 = npages_to_swap st -> alpha st2 = alpha st ->
    beta st2 = beta st -> limit st2 = limit st ->
    let n := to_int (npages_to_swap st
                     + Z.quot (to_int (npages_to_swap st * alpha st)) 100) in
    let st3 := with_npages_to_swap st2
                 (to_int (npages_to_swap st2
                          + Z.quot (to_int (npages_to_swap st2 * alpha st2)) 100)) in
    threshold (if npages_to_swap st3 >? limit st3
               then with_npages_to_swap st3 (limit st3) else st3) = threshold st2 /\
    npages_to_swap (if npages_to_swap st3 >? limit st3
                    then with_npages_to_swap st3 (limit st3) else st3)
      = (if n >? limit st then limit st else n) /\
    alpha (if npages_to_swap st3 >? limit st3
           then with_npages_to_swap st3 (limit st3) else st3) = alpha st /\
    beta (if npages_to_swap st3 >? limit st3
          then with_npages_to_swap st3 (limit st3) else st3) = beta st /\
    limit (if npages_to_swap st3 >? limit st3
           then with_npages_to_swap st3 (limit st3) else st3) = limit st).
  { intros st2 En Ea Eb El. cbv zeta.
    rewrite npages_to_swap_with_npages_to_swap, limit_with_npages_to_swap.
    rewrite En, Ea, El.
    generalize (to_int (npages_to_swap st
                        + Z.quot (to_int (npages_to_swap st * alpha st)) 100)).
    intros n. destruct (n >? limit st).
    - rewrite threshold_with_npages_to_swap, npages_to_swap_with_npages_to_swap,
        alpha_with_npages_to_swap, beta_with_npages_to_swap, limit_with_npages_to_swap.
      rewrite threshold_with_npages_to_swap, alpha_with_npages_to_swap,
        beta_with_npages_to_swap, limit_with_npages_to_swap.
      repeat split; assumption.
    - rewrite threshold_with_npages_to_swap, npages_to_swap_with_npages_to_swap,
        alpha_with_npages_to_swap, beta_with_npages_to_swap, limit_with_npages_to_swap.
      repeat split; assumption. }
  destruct (t <? 1).
  - destruct (Hst2 (with_threshold (with_threshold st1 t) 1)) as (H1 & H2 & H3 & H4 & H5);
      try (rewrite ?npages_to_swap_with_threshold, ?alpha_with_threshold,
             ?beta_with_threshold, ?limit_with_threshold; assumption).
    cbv zeta in *. rewrite H1, H2, H3, H4, H5.
    rewrite threshold_with_threshold. repeat split.
  - destruct (Hst2 (with_threshold st1 t)) as (H1 & H2 & H3 & H4 & H5);
      try (rewrite ?npages_to_swap_with_threshold, ?alpha_with_threshold,
             ?beta_with_threshold, ?limit_with_threshold; assumption).
    cbv zeta in *. rewrite H1, H2, H3, H4, H5.
    rewrite threshold_with_threshold. repeat split.
Qed.

End Controller.

Section ControllerClaims.
Context {mp : mmu_params}.

(** C1 (amended).  A call of [checkAswap] in which the free-frame count
    is at or below [threshold] applies, whatever the eviction achieved,
    threshold := max(1, threshold - floor(threshold*beta/100)) and
    npages_to_swap := min(limit, npages_to_swap +
    floor(npages_to_swap*alpha/100)).  [threshold] never grows, and it
    shrinks exactly when it is above 1 and threshold*beta reaches 100;
    [npages_to_swap] never shrinks, and it grows exactly when it is below
    [limit] and npages_to_swap*alpha reaches 100. *)
Theorem checkAswap_adaptation (st : kstate) :
  countpages st <= threshold st ->
  1 <= threshold st -> 0 <= beta st ->
  threshold st * (beta st + 1) < 2 ^ 31 ->
  0 <= npages_to_swap st <= limit st -> 0 <= alpha st ->
  npages_to_swap st * (alpha st + 1) < 2 ^ 31 ->
  let st' := checkAswap st in
  threshold st' = Z.max 1 (threshold st - threshold st * beta st / 100) /\
  npages_to_swap st' =
    Z.min (limit st) (npages_to_swap st + npages_to_swap st * alpha st / 100) /\
  threshold st' <= threshold st /\
  (threshold st' < threshold st <->
   1 < threshold st /\ 100 <= threshold st * beta st) /\
  npages_to_swap st <= npages_to_swap st' /\
  (npages_to_swap st < npages_to_swap st' <->
   npages_to_swap st < limit st /\ 100 <= npages_to_swap st * alpha st).
Proof.
  intros Htrig Ht Hb Htb Hn Ha Hna. cbv zeta.
  destruct (checkAswap_triggered st Htrig) as (Hthr & Hnp & _).
  rewrite Hthr, Hnp. clear Hthr Hnp Htrig.
  set (T := threshold st) in *. set (N := npages_to_swap st) in *.
  set (B := beta st) in *. set (A := alpha st) in *. set (L := limit st) in *.
  clearbody T N B A L.
  assert (HTB : 0 <= T * B < 2 ^ 31) by nia.
  assert (HNA : 0 <= N * A < 2 ^ 31) by nia.
  rewrite (to_int_id (T * B)) by lia.
  rewrite (to_int_id (N * A)) by lia.
  rewrite !Z.quot_div_nonneg by lia.
  assert (Hq : 0 <= T * B / 100 /\ 100 * (T * B / 100) <= T * B
               /\ T * B < 100 * (T * B / 100) + 100).
  { pose proof (Z.div_mod (T * B) 100 ltac:(lia)).
    pose proof (Z.mod_pos_bound (T * B) 100 ltac:(lia)).
    pose proof (Z.div_pos (T * B) 100 ltac:(lia) ltac:(lia)). lia. }
  assert (Hr : 0 <= N * A / 100 /\ 100 * (N * A / 100) <= N * A
               /\ N * A < 100 * (N * A / 100) + 100).
  { pose proof (Z.div_mod (N * A) 100 ltac:(lia)).
    pose proof (Z.mod_pos_bound (N * A) 100 ltac:(lia)).
    pose proof (Z.div_pos (N * A) 100 ltac:(lia) ltac:(lia)). lia. }
  set (q := T * B / 100) in *. set (r := N * A / 100) in *. clearbody q r.
  assert (HTq : T * B <= T * (B + 1) - 1) by nia.
  assert (HNr : N * A <= N * (A + 1) - N) by nia.
  rewrite (to_int_id (T - q)) by lia.
  rewrite (to_int_id (N + r)) by lia.
  destruct (Z.ltb_spec (T - q) 1); destruct (Z.gtb_spec (N + r) L); lia.
Qed.

End ControllerClaims.

(** Under the default [beta] of 10 the threshold reached after 27
    triggered calls is 9, and the next triggered call leaves it there. *)
Lemma checkAswap_threshold_stalls :
  let st := Nat.iter 27 (checkAswap (mp := xv6_x86)) boot in
  threshold st = 9 /\ beta st = 10 /\
  countpages st <= threshold st /\ 1 < threshold st /\
  ~ threshold (checkAswap (mp := xv6_x86) st) < threshold st.
Proof. vm_compute. repeat split; discriminate. Qed.

Lemma checkAswap_adaptation_witness :
  threshold (checkAswap (mp := xv6_x86) boot) = 90 /\
  npages_to_swap (checkAswap (mp := xv6_x86) boot) = 5.
Proof.
  destruct (checkAswap_adaptation (mp := xv6_x86) boot) as (Ht & Hn & _);
    try (vm_compute; first [reflexivity | discriminate | split; discriminate]).
  rewrite Ht, Hn. split; reflexivity.
Defined.

(** ** Bits of a page-table entry *)

Lemma low12_range x : 0 <= Z.land x 0xFFF < 4096.
Proof.
  change 0xFFF with (Z.ones 12). rewrite Z.land_ones by lia.
  apply Z.mod_pos_bound. lia.
Qed.

Lemma testbit_low12 b n : 0 <= b < 4096 -> 12 <= n -> Z.testbit b n = false.
Proof.
  intros Hb Hn. rewrite <- (Z.mod_small b (2 ^ 12)) by lia.
  apply Z.mod_pow2_bits_high. lia.
Qed.

Lemma shiftl12_land_low r b : 0 <= b < 4096 -> Z.land (Z.shiftl r 12) b = 0.
Proof.
  intros Hb. apply Z.bits_inj'. intros n Hn.
  rewrite Z.land_spec, Z.bits_0.
  destruct (Z.lt_ge_cases n 12) as [Hlt | Hge].
  - rewrite Z.shiftl_spec_low by lia. reflexivity.
  - rewrite (testbit_low12 b n) by lia. apply andb_false_r.
Qed.

Lemma shiftl12_lor_low r b :
  0 <= b < 4096 -> Z.lor (Z.shiftl r 12) b = r * 4096 + b.
Proof.
  intros Hb. rewrite <- Z.add_nocarry_lor by (apply shiftl12_land_low; lia).
  rewrite Z.shiftl_mul_pow2 by lia. reflexivity.
Qed.

Lemma shiftr12_PTE_ADDR x : Z.shiftr (Z.land x (Z.lnot 0xFFF)) 12 = Z.shiftr x 12.
Proof.
  rewrite Z.shiftr_land. change (Z.shiftr (Z.lnot 0xFFF) 12) with (-1).
  apply Z.land_m1_r.
Qed.

Lemma shiftr12_slot r b : 0 <= b < 4096 -> Z.shiftr (r * 4096 + b) 12 = r.
Proof.
  intros Hb. rewrite Z.shiftr_div_pow2 by lia. change (2 ^ 12) with 4096.
  rewrite Z.add_comm, Z.div_add by lia. rewrite Z.div_small by lia. lia.
Qed.

Lemma low12_slot r b : 0 <= b < 4096 -> Z.land (r * 4096 + b) 0xFFF = b.
Proof.
  intros Hb. change 0xFFF with (Z.ones 12). rewrite Z.land_ones by lia.
  change (2 ^ 12) with 4096. rewrite Z.add_comm, Z.mod_add by lia.
  apply Z.mod_small. lia.
Qed.

Lemma land_low_mask x m : 0 <= m < 4096 -> Z.land x m = Z.land (Z.land x 0xFFF) m.
Proof.
  intros Hm. rewrite <- Z.land_assoc. f_equal.
  apply Z.bits_inj'. intros n Hn. rewrite Z.land_spec.
  change 0xFFF with (Z.ones 12).
  destruct (Z.lt_ge_cases n 12) as [Hlt | Hge].
  - rewrite Z.ones_spec_low by lia. reflexivity.
  - rewrite (testbit_low12 m n) by lia. rewrite andb_false_r. reflexivity.
Qed.

(** ** Page directories *)

Section PageTables.
Context {mp : mmu_params}.

Lemma walkpgdir_ext st st' pgdir va :
  pgdirs st' = pgdirs st -> walkpgdir st' pgdir va = walkpgdir st pgdir va.
Proof. unfold walkpgdir. intros ->. reflexivity. Qed.

Lemma walkpgdir_set_pte_same st pgdir va v :
  is_Some (walkpgdir st pgdir va) ->
  walkpgdir (set_pte st pgdir va v) pgdir va = Some v.
Proof.
  unfold walkpgdir, set_pte. rewrite pgdirs_with_pgdirs, lookup_alter_eq.
  destruct (pgdirs st !! pgdir) as [pt |]; cbn; [| intros [? [=]]].
  intros _. apply lookup_insert_eq.
Qed.

Lemma walkpgdir_set_pte_other st pgdir va v pgdir' va' :
  pgdir' <> pgdir \/ Z.shiftr va' 12 <> Z.shiftr va 12 ->
  walkpgdir (set_pte st pgdir va v) pgdir' va' = walkpgdir st pgdir' va'.
Proof.
  intros Hne. unfold walkpgdir, set_pte. rewrite pgdirs_with_pgdirs.
  destruct (decide (pgdir' = pgdir)) as [-> | Hp].
  - rewrite lookup_alter_eq. destruct (pgdirs st !! pgdir) as [pt |]; cbn; [| reflexivity].
    apply lookup_insert_ne. destruct Hne; congruence.
  - rewrite lookup_alter_ne by congruence. reflexivity.
Qed.

Lemma walkpgdir_set_pte_is_Some st pgdir va v pgdir' va' :
  is_Some (walkpgdir st pgdir' va') ->
  is_Some (walkpgdir (set_pte st pgdir va v) pgdir' va').
Proof.
  intros Hs.
  destruct (decide (pgdir' = pgdir /\ Z.shiftr va' 12 = Z.shiftr va 12)) as [[-> E] | Hne].
  - unfold walkpgdir in *. rewrite E in *. fold (walkpgdir st pgdir va) in Hs.
    fold (walkpgdir (set_pte st pgdir va v) pgdir va).
    rewrite walkpgdir_set_pte_same by exact Hs. eauto.
  - rewrite walkpgdir_set_pte_other; [exact Hs |].
    destruct (decide (pgdir' = pgdir)); [right | left]; tauto.
Qed.

Lemma write_page_loop_pgdirs fuel : forall i blockno pa st,
  pgdirs (write_page_loop fuel i blockno pa st) = pgdirs st.
Proof.
  induction fuel as [| fuel IH]; intros i blockno pa st; [reflexivity |].
  cbn [write_page_loop]. destruct (i <? 8); [| reflexivity].
  rewrite IH. unfold bwrite. apply pgdirs_with_disk.
Qed.

(** The three ways through [swappageout], with the state each leaves. *)
Lemma swappageout_cases st pgdir va pa :
  (findslot st = (-1, st) /\ swappageout st pgdir va pa = (-1, st))
  \/
  (exists r st1, findslot st = (r, st1) /\ 0 <= r < 800 /\
   st1 = with_slots st (alter mark_used (Z.to_nat r) (slots st)) /\
   (walkpgdir st pgdir va = None \/
    exists pte, walkpgdir st pgdir va = Some pte /\ Z.land pte PTE_P = 0) /\
   swappageout st pgdir va pa = (-1, st1))
  \/
  (exists r st1 pte, findslot st = (r, st1) /\ 0 <= r < 800 /\
   st1 = with_slots st (alter mark_used (Z.to_nat r) (slots st)) /\
   walkpgdir st pgdir va = Some pte /\ Z.land pte PTE_P <> 0 /\
   swappageout st pgdir va pa =
     (0, emit
           (set_pte
              (write_page_loop 8 0 (to_uint (2 + r * 8)) pa
                 (set_slot_perm st1 r (Z.land pte 0xFFF)))
              pgdir va
              (Z.lor (Z.shiftl r 12) (Z.land (Z.land pte 0xFFF) (Z.lnot PTE_P))))
           (Lcr3 (V2P pgdir)))).
Proof.
  unfold swappageout.
  destruct (findslot_cases st) as [(Hfs & _) | (r & Hfs & Hrng & _ & _)];
    rewrite Hfs.
  - left. split; reflexivity.
  - right. set (st1 := with_slots st (alter mark_used (Z.to_nat r) (slots st))).
    assert (Hpg : pgdirs st1 = pgdirs st) by apply pgdirs_with_slots.
    destruct (Z.ltb_spec r 0) as [Hneg | _]; [lia |].
    rewrite (walkpgdir_ext st st1) by exact Hpg.
    destruct (walkpgdir st pgdir va) as [pte |] eqn:Hw.
    + destruct (Z.eqb_spec (Z.land pte PTE_P) 0) as [HP | HP].
      * left. exists r, st1. split; [reflexivity |]. split; [exact Hrng |].
        split; [reflexivity |]. split; [right; eauto | reflexivity].
      * right. exists r, st1, pte. split; [reflexivity |]. split; [exact Hrng |].
        split; [reflexivity |]. split; [reflexivity |]. split; [exact HP |].
        assert (Hrd : read_pte
                        (write_page_loop 8 0 (to_uint (2 + r * 8)) pa
                           (set_slot_perm st1 r (Z.land pte 0xFFF))) pgdir va = pte).
        { unfold read_pte. rewrite (walkpgdir_ext st).
          - rewrite Hw. reflexivity.
          - rewrite write_page_loop_pgdirs. unfold set_slot_perm.
            rewrite pgdirs_with_slots. exact Hpg. }
        rewrite Hrd.
        assert (Hflags : Z.land (Z.land pte (Z.lnot PTE_P)) 0xFFF
                         = Z.land (Z.land pte 0xFFF) (Z.lnot PTE_P)).
        { rewrite <- !Z.land_assoc. f_equal. apply Z.land_comm. }
        rewrite Hflags.
        pose proof (low12_range (Z.land pte (Z.lnot PTE_P))) as Hlow.
        rewrite Hflags in Hlow.
        rewrite (to_uint_id (Z.lor (Z.shiftl r 12)
                               (Z.land (Z.land pte 0xFFF) (Z.lnot PTE_P))));
          [reflexivity |].
        rewrite shiftl12_lor_low by exact Hlow. lia.
    + left. exists r, st1. split; [reflexivity |]. split; [exact Hrng |].
      split; [reflexivity |]. split; [left; reflexivity | reflexivity].
Qed.

End PageTables.

(** ** Eviction of one page *)

Section Eviction.
Context {mp : mmu_params}.

(** When the leaf is missing or not present [swappageout] returns -1 from
    the state in which the slot is already taken. *)
Lemma swappageout_missing_pte st pgdir va pa r :
  fst (findslot st) = r -> r <> -1 ->
  (walkpgdir st pgdir va = None \/
   exists pte, walkpgdir st pgdir va = Some pte /\ Z.land pte PTE_P = 0) ->
  swappageout st pgdir va pa = (-1, snd (findslot st)) /\
  slot_is_free (slots st) r = true /\
  slot_is_free (slots (snd (findslot st))) r = false.
Proof.
  intros Hr Hslot Hpte.
  destruct (swappageout_cases st pgdir va pa) as
    [(Hfs & _) | [(r' & st1 & Hfs & _ & Hst1 & _ & Hout)
                 | (r' & st1 & pte & _ & _ & _ & Hw & HP & _)]].
  - rewrite Hfs in Hr. unfold fst in Hr. subst r. elim Hslot. reflexivity.
  - rewrite Hout, Hfs in *. unfold fst in Hr. unfold snd. subst r'.
    split; [reflexivity |].
    destruct (findslot_cases st) as [(Hfs' & _) | (r2 & Hfs' & _ & Hfree & _)];
      rewrite Hfs' in Hfs; injection Hfs as Er Est.
    + subst r. elim Hslot. reflexivity.
    + subst r2. split; [exact Hfree |]. rewrite Hst1, slots_with_slots.
      apply slot_is_free_alter_used.
  - destruct Hpte as [Hn | (pte' & Hw' & HP')].
    + rewrite Hn in Hw. discriminate.
    + rewrite Hw' in Hw. injection Hw as ->. contradiction.
Qed.

(** C4.  After a successful [swappageout] of a page whose leaf entry held
    the flags F in its low 12 bits, the entry is
    (slot_index << 12) | (F & ~PTE_P), where slot_index is the slot that
    [findslot] handed out: shifting the entry right by 12 gives the slot
    index, and its low 12 bits are F without the present bit. *)
Theorem swappageout_pte_encoding (st : kstate) (pgdir va pa pte : Z) :
  walkpgdir st pgdir va = Some pte ->
  fst (swappageout st pgdir va pa) = 0 ->
  let slot_index := fst (findslot st) in
  let F := Z.land pte 0xFFF in
  let pte' := Z.lor (Z.shiftl slot_index 12) (Z.land F (Z.lnot PTE_P)) in
  0 <= slot_index < 800 /\
  slot_is_free (slots st) slot_index = true /\
  walkpgdir (snd (swappageout st pgdir va pa)) pgdir va = Some pte' /\
  Z.shiftr pte' 12 = slot_index /\
  Z.land pte' 0xFFF = Z.land F (Z.lnot PTE_P).
Proof.
  intros Hw Hok. cbv zeta.
  destruct (swappageout_cases st pgdir va pa) as
    [(_ & Hout) | [(r & st1 & _ & _ & _ & _ & Hout)
                  | (r & st1 & pte0 & Hfs & Hrng & Hst1 & Hw0 & HP & Hout)]];
    try (rewrite Hout in Hok; discriminate).
  rewrite Hw in Hw0. injection Hw0 as <-. rewrite Hout, Hfs. unfold fst, snd.
  assert (Hlow : 0 <= Z.land (Z.land pte 0xFFF) (Z.lnot PTE_P) < 4096).
  { rewrite <- Z.land_assoc, (Z.land_comm 0xFFF), Z.land_assoc. apply low12_range. }
  split; [exact Hrng |]. split; [| split; [| split]].
  - destruct (findslot_cases st) as [(Hfs' & _) | (r2 & Hfs' & _ & Hfree & _)];
      rewrite Hfs' in Hfs; injection Hfs as Er Est.
    + lia.
    + subst r2. exact Hfree.
  - rewrite (walkpgdir_ext _ _ pgdir va (pgdirs_emit _ _)).
    apply walkpgdir_set_pte_same.
    rewrite (walkpgdir_ext st).
    + rewrite Hw. eauto.
    + rewrite write_page_loop_pgdirs. unfold set_slot_perm. rewrite pgdirs_with_slots.
      rewrite Hst1. apply pgdirs_with_slots.
  - rewrite shiftl12_lor_low by exact Hlow. apply shiftr12_slot. exact Hlow.
  - rewrite shiftl12_lor_low by exact Hlow. apply low12_slot. exact Hlow.
Qed.

End Eviction.

(** C2.  With every slot free and the leaf of page 0 zero, [swappageout]
    fails and slot 0, which it took, stays marked used. *)
Lemma swappageout_failure_keeps_slot :
  walkpgdir unmapped_state example_pgdir 0 = Some 0 /\
  fst (swappageout (mp := xv6_x86) unmapped_state example_pgdir 0 0x3000) = -1 /\
  slot_is_free (slots unmapped_state) 0 = true /\
  slot_is_free
    (slots (snd (swappageout (mp := xv6_x86) unmapped_state example_pgdir 0 0x3000)))
    0 = false.
Proof. vm_compute. repeat split. Qed.

Lemma swappageout_pte_encoding_witness :
  walkpgdir (snd (swappageout (mp := xv6_x86) mapped_state example_pgdir 0x5000 0x123000))
    example_pgdir 0x5000 = Some 0x066.
Proof.
  destruct (swappageout_pte_encoding (mp := xv6_x86) mapped_state example_pgdir
              0x5000 0x123000 0x123067) as (_ & _ & H & _);
    [vm_compute; reflexivity | vm_compute; reflexivity |].
  rewrite H. vm_compute. reflexivity.
Defined.

(** ** Fault-in: the paths that change nothing *)

Section FaultInEarly.
Context {mp : mmu_params}.

Lemma walkpgdir_PGROUNDDOWN st pgdir a :
  walkpgdir st pgdir (PGROUNDDOWN a) = walkpgdir st pgdir a.
Proof.
  unfold walkpgdir, PGROUNDDOWN. change (PGSIZE - 1) with 0xFFF.
  rewrite shiftr12_PTE_ADDR. reflexivity.
Qed.

(** The slot index that [swappage_in] and [swapFree] read from an entry
    is the entry shifted right by 12. *)
Lemma decode_slot_index pte :
  0 <= pte < 2 ^ 32 ->
  to_int (Z.shiftr (PTE_ADDR pte) 12) = Z.shiftr pte 12 /\
  0 <= Z.shiftr pte 12 < 2 ^ 20.
Proof.
  intros Hpte. unfold PTE_ADDR. rewrite shiftr12_PTE_ADDR.
  assert (Hr : 0 <= Z.shiftr pte 12 < 2 ^ 20).
  { rewrite Z.shiftr_div_pow2 by lia. split.
    - apply Z.div_pos; lia.
    - apply Z.div_lt_upper_bound; lia. }
  split; [apply to_int_id; lia | exact Hr].
Qed.

(** C9.  In [swappage_in], when the leaf entry of the faulting address
    already has the present flag the call returns 0 and the state is the
    one it was given; when the flag is clear and the slot index in the
    upper bits of the entry is outside [0, 800) or names a free slot, the
    call returns -1 and the state is the one it was given. *)
Theorem swappage_in_early_returns (st : kstate) (pgdir va pte : Z) :
  0 <= va < 2 ^ 32 -> 0 <= pte < 2 ^ 32 ->
  walkpgdir st pgdir va = Some pte ->
  (Z.land pte PTE_P <> 0 -> swappage_in st pgdir va = (0, st)) /\
  (Z.land pte PTE_P = 0 ->
   ~ (0 <= Z.shiftr pte 12 < 800) \/ slot_is_free (slots st) (Z.shiftr pte 12) = true ->
   swappage_in st pgdir va = (-1, st)).
Proof.
  intros Hva Hpte Hw.
  destruct (decode_slot_index pte Hpte) as [Hdec Hrng].
  unfold swappage_in. rewrite (to_uint_id va) by exact Hva.
  rewrite walkpgdir_PGROUNDDOWN, Hw, Hdec.
  split.
  - intros HP. destruct (Z.eqb_spec (Z.land pte PTE_P) 0) as [E | _];
      [contradiction | reflexivity].
  - intros HP Hbad. rewrite HP. cbn [Z.eqb negb].
    destruct (Z.ltb_spec (Z.shiftr pte 12) 0) as [Hneg | Hnn]; [reflexivity |].
    destruct (Z.geb_spec (Z.shiftr pte 12) 800) as [Hge | Hlt]; [reflexivity |].
    destruct Hbad as [Hout | Hfree]; [lia |].
    rewrite Hfree. reflexivity.
Qed.

End FaultInEarly.

Lemma swappage_in_early_returns_witness :
  swappage_in (mp := xv6_x86) mapped_state example_pgdir 0x5abc = (0, mapped_state) /\
  swappage_in (mp := xv6_x86) unmapped_state example_pgdir 0xabc = (-1, unmapped_state).
Proof.
  split.
  - apply (swappage_in_early_returns (mp := xv6_x86) mapped_state example_pgdir
             0x5abc 0x123067); [lia | lia | reflexivity | vm_compute; discriminate].
  - apply (swappage_in_early_returns (mp := xv6_x86) unmapped_state example_pgdir
             0xabc 0); [lia | lia | reflexivity | reflexivity |].
    right. reflexivity.
Defined.

(** ** Loops over the user addresses *)

Section ScanLemmas.
Context {mp : mmu_params} {mp_ok : mmu_params_ok mp}.

Lemma next_page k : 4096 * k < KERNBASE -> 0 <= k ->
  to_uint (4096 * k + PGSIZE) = 4096 * (k + 1).
Proof.
  intros Hk H0. pose proof KERNBASE_range as Hkb. unfold PGSIZE.
  change (2 ^ 32) with 4294967296 in Hkb.
  rewrite to_uint_id; [lia |]. change (2 ^ 32) with 4294967296. lia.
Qed.

Lemma shiftr12_page k : Z.shiftr (4096 * k) 12 = k.
Proof.
  rewrite Z.shiftr_div_pow2 by lia. change (2 ^ 12) with 4096.
  rewrite Z.mul_comm. apply Z.div_mul. lia.
Qed.

Lemma scan_fuel_enough : KERNBASE <= 4096 * (0 + Z.of_nat scan_fuel).
Proof.
  unfold scan_fuel, PGSIZE. pose proof KERNBASE_range as Hkb.
  pose proof (Z.div_mod KERNBASE 4096 ltac:(lia)) as Hdm.
  pose proof (Z.mod_pos_bound KERNBASE 4096 ltac:(lia)) as Hmod.
  assert (Hdiv : 0 <= KERNBASE / 4096) by (apply Z.div_pos; lia).
  rewrite Z2Nat.id by lia. lia.
Qed.

Lemma findpage_first_scan st pgdir fuel : forall i,
  findpage_first fuel i st pgdir = scan_find (findpage_first_body st pgdir) fuel i.
Proof.
  induction fuel as [| fuel IH]; intros i; [reflexivity |].
  cbn [findpage_first scan_find]. rewrite IH. reflexivity.
Qed.

Lemma findpage_second_scan st pgdir fuel : forall i,
  findpage_second fuel i st pgdir = scan_find (findpage_second_body st pgdir) fuel i.
Proof.
  induction fuel as [| fuel IH]; intros i; [reflexivity |].
  cbn [findpage_second scan_find]. rewrite IH. reflexivity.
Qed.

Lemma findpage_reset_scan pgdir fuel : forall i st,
  findpage_reset fuel i st pgdir
  = scan_fold (fun st i => findpage_reset_body st pgdir i) fuel i st.
Proof.
  induction fuel as [| fuel IH]; intros i st; [reflexivity |].
  cbn [findpage_reset scan_fold]. rewrite IH. reflexivity.
Qed.

Lemma swapFree_loop_scan pgdir fuel : forall i st,
  swapFree_loop fuel i st pgdir
  = scan_fold (fun st i => swapFree_body st pgdir i) fuel i st.
Proof.
  induction fuel as [| fuel IH]; intros i st; [reflexivity |].
  cbn [swapFree_loop scan_fold]. rewrite IH. reflexivity.
Qed.

(** A search returns the hit of the lowest page that has one. *)
Lemma scan_find_spec body fuel : forall k0,
  0 <= k0 -> KERNBASE <= 4096 * (k0 + Z.of_nat fuel) ->
  match scan_find body fuel (4096 * k0) with
  | Some r =>
      exists k, k0 <= k /\ 4096 * k < KERNBASE /\ body (4096 * k) = Some r /\
      forall j, k0 <= j < k -> body (4096 * j) = None
  | None =>
      forall j, k0 <= j -> 4096 * j < KERNBASE -> body (4096 * j) = None
  end.
Proof.
  induction fuel as [| fuel IH]; intros k0 Hk0 Hfuel.
  - cbn [scan_find]. intros j Hj Hlt. lia.
  - cbn [scan_find].
    destruct (Z.ltb_spec (4096 * k0) KERNBASE) as [Hlt | Hge].
    + destruct (body (4096 * k0)) as [r |] eqn:Hb.
      * exists k0. split; [lia |]. split; [exact Hlt |]. split; [exact Hb |].
        intros j Hj. lia.
      * rewrite next_page by assumption.
        specialize (IH (k0 + 1) ltac:(lia) ltac:(lia)).
        destruct (scan_find body fuel (4096 * (k0 + 1))) as [r |].
        -- destruct IH as (k & Hk & Hklt & Hbk & Hbefore).
           exists k. split; [lia |]. split; [exact Hklt |]. split; [exact Hbk |].
           intros j Hj. destruct (Z.eq_dec j k0) as [-> | Hne]; [exact Hb |].
           apply Hbefore. lia.
        -- intros j Hj Hjlt. destruct (Z.eq_dec j k0) as [-> | Hne]; [exact Hb |].
           apply IH; lia.
    + intros j Hj Hjlt. lia.
Qed.

(** A sweep carries an invariant indexed by the next page to visit up to
    the first page that is not a user page. *)
Lemma scan_fold_inv (I : Z -> kstate -> Prop) body :
  (forall k st, 0 <= k -> 4096 * k < KERNBASE -> I k st -> I (k + 1) (body st (4096 * k))) ->
  forall fuel k0 st,
  0 <= k0 -> KERNBASE <= 4096 * (k0 + Z.of_nat fuel) -> I k0 st ->
  exists kend, k0 <= kend /\ KERNBASE <= 4096 * kend /\
    I kend (scan_fold body fuel (4096 * k0) st).
Proof.
  intros Hstep. induction fuel as [| fuel IH]; intros k0 st Hk0 Hfuel HI.
  - cbn [scan_fold]. exists k0. split; [lia |]. split; [lia | exact HI].
  - cbn [scan_fold].
    destruct (Z.ltb_spec (4096 * k0) KERNBASE) as [Hlt | Hge].
    + rewrite next_page by assumption.
      destruct (IH (k0 + 1) (body st (4096 * k0))) as (kend & Hk & Hend & HIend);
        [lia | lia | apply Hstep; assumption |].
      exists kend. split; [lia |]. split; [exact Hend | exact HIend].
    + exists k0. split; [lia |]. split; [lia | exact HI].
Qed.

End ScanLemmas.

(** ** Exit cleanup *)

Section ExitCleanup.
Context {mp : mmu_params} {mp_ok : mmu_params_ok mp}.

Lemma with_slots_with_slots st a b : with_slots (with_slots st a) b = with_slots st b.
Proof. reflexivity. Qed.

Lemma freeslot_in_range st i :
  0 <= i < 800 ->
  freeslot st i = with_slots st (<[Z.to_nat i := mk_slot 0 1]> (slots st)).
Proof.
  intros Hi. unfold freeslot.
  destruct (Z.ltb_spec i 0); [lia |]. destruct (Z.geb_spec i 800); [lia |].
  reflexivity.
Qed.

Lemma swapFree_body_inv st0 pgdir k st :
  length (slots st0) = 800%nat ->
  0 <= k -> 4096 * k < KERNBASE ->
  swapFree_inv st0 pgdir k st ->
  swapFree_inv st0 pgdir (k + 1) (swapFree_body st pgdir (4096 * k)).
Proof.
  intros Hlen Hk Hlt (Hshape & Hl & Hdone & Hframe).
  assert (Hkeep : swapFree_inv st0 pgdir k st ->
    (forall pte, walkpgdir st0 pgdir (4096 * k) = Some pte -> swapped_entry pte ->
       0 <= slot_of pte < 800 -> False) ->
    swapFree_inv st0 pgdir (k + 1) st).
  { intros _ Hno. split; [exact Hshape |]. split; [exact Hl |]. split.
    - intros j pte Hj Hw Hsw Hrng. destruct (Z.eq_dec j k) as [-> | Hne].
      + elim (Hno pte Hw Hsw Hrng).
      + apply (Hdone j pte); [lia | assumption ..].
    - intros n. destruct (Hframe n) as [He | (He & j & pte & Hj & Hrest)];
        [left; exact He | right].
      split; [exact He |]. exists j, pte. split; [lia | exact Hrest]. }
  unfold swapFree_body.
  rewrite (walkpgdir_ext st0 st) by (rewrite Hshape; apply pgdirs_with_slots).
  destruct (walkpgdir st0 pgdir (4096 * k)) as [pte |] eqn:Hw.
  2:{ apply Hkeep; [repeat split; assumption |]. intros pte' [=]. }
  destruct (Z.eqb_spec (Z.land pte PTE_P) 0) as [HP | HP].
  2:{ apply Hkeep; [repeat split; assumption |].
      intros pte' [= <-] [HP' _]. contradiction. }
  destruct (Z.eqb_spec pte 0) as [Hz | Hnz]; cbn [negb andb].
  { apply Hkeep; [repeat split; assumption |].
    intros pte' [= <-] [_ Hnz]. contradiction. }
  fold (slot_of pte).
  destruct (Z.geb_spec (slot_of pte) 0) as [Hge | Hneg]; cbn [andb].
  2:{ apply Hkeep; [repeat split; assumption |]. intros pte' [= <-] _ Hr. lia. }
  destruct (Z.ltb_spec (slot_of pte) 800) as [Hlt800 | Hge800].
  2:{ apply Hkeep; [repeat split; assumption |]. intros pte' [= <-] _ Hr. lia. }
  rewrite freeslot_in_range by lia.
  assert (Hin : (Z.to_nat (slot_of pte) < length (slots st))%nat) by lia.
  split; [| split; [| split]].
  - rewrite slots_with_slots. rewrite Hshape at 1.
    rewrite with_slots_with_slots. reflexivity.
  - rewrite slots_with_slots, length_insert. exact Hl.
  - rewrite slots_with_slots. intros j pte' Hj Hw' Hsw Hrng.
    destruct (decide (Z.to_nat (slot_of pte') = Z.to_nat (slot_of pte))) as [E | Hne].
    + rewrite E. apply list_lookup_insert_eq. exact Hin.
    + rewrite list_lookup_insert_ne by congruence.
      destruct (Z.eq_dec j k) as [-> | Hjk].
      * rewrite Hw in Hw'. injection Hw' as <-. elim Hne. reflexivity.
      * apply (Hdone j pte'); [lia | assumption ..].
  - rewrite slots_with_slots. intros n.
    destruct (decide (n = Z.to_nat (slot_of pte))) as [-> | Hne].
    + right. split; [apply list_lookup_insert_eq; exact Hin |].
      exists k, pte. split; [lia |]. split; [exact Hlt |]. split; [exact Hw |].
      split; [split; assumption |]. split; [lia | reflexivity].
    + rewrite list_lookup_insert_ne by congruence.
      destruct (Hframe n) as [He | (He & j & pte' & Hj & Hrest)];
        [left; exact He | right].
      split; [exact He |]. exists j, pte'. split; [lia | exact Hrest].
Qed.

Lemma swapFree_loop_spec st0 pgdir :
  length (slots st0) = 800%nat ->
  exists kend, KERNBASE <= 4096 * kend /\
    swapFree_inv st0 pgdir kend (swapFree_loop scan_fuel 0 st0 pgdir).
Proof.
  intros Hlen. rewrite swapFree_loop_scan.
  destruct (scan_fold_inv (swapFree_inv st0 pgdir)
              (fun st i => swapFree_body st pgdir i)
              (fun k st Hk Hlt HI => swapFree_body_inv st0 pgdir k st Hlen Hk Hlt HI)
              scan_fuel 0 st0) as (kend & _ & Hend & HI).
  - lia.
  - apply scan_fuel_enough.
  - split; [symmetry; apply with_slots_same |]. split; [reflexivity |].
    split; [intros j pte Hj; lia |]. intros n. left. reflexivity.
  - exists kend. split; [exact Hend |]. change (4096 * 0) with 0 in HI. exact HI.
Qed.

(** C3 (amended).  [swapFree] changes nothing but the slot table: every
    page-table entry, swapped ones included, is left as it was.  Each
    swapped (nonzero, non-present) leaf entry below [KERNBASE] whose slot
    index is below 800 has its slot released: free, with no permissions.
    A slot that is not named by such an entry is as it was.  So a process
    that holds swapped entries in slots 10, 11 and 12 leaves all three
    free. *)
Theorem swapFree_releases (st : kstate) (p : nat) (pr : proc) :
  length (slots st) = 800%nat ->
  ptable st !! p = Some pr -> pgdir pr <> 0 ->
  let st' := swapFree st (Some p) in
  st' = with_slots st (slots st') /\
  (forall k pte, user_vpn k ->
     walkpgdir st (pgdir pr) (4096 * k) = Some pte -> 0 <= pte < 2 ^ 32 ->
     swapped_entry pte -> Z.shiftr pte 12 < 800 ->
     slots st' !! Z.to_nat (Z.shiftr pte 12) = Some (mk_slot 0 1)) /\
  (forall n, slots st' !! n <> slots st !! n ->
     slots st' !! n = Some (mk_slot 0 1) /\
     exists k pte, user_vpn k /\ walkpgdir st (pgdir pr) (4096 * k) = Some pte /\
       swapped_entry pte /\ n = Z.to_nat (slot_of pte)) /\
  (forall k10 k11 k12 f10 f11 f12,
     user_vpn k10 -> user_vpn k11 -> user_vpn k12 ->
     0 <= f10 < 4096 -> 0 <= f11 < 4096 -> 0 <= f12 < 4096 ->
     Z.land f10 PTE_P = 0 -> Z.land f11 PTE_P = 0 -> Z.land f12 PTE_P = 0 ->
     walkpgdir st (pgdir pr) (4096 * k10) = Some (10 * 4096 + f10) ->
     walkpgdir st (pgdir pr) (4096 * k11) = Some (11 * 4096 + f11) ->
     walkpgdir st (pgdir pr) (4096 * k12) = Some (12 * 4096 + f12) ->
     slot_is_free (slots st') 10 = true /\ slot_is_free (slots st') 11 = true /\
     slot_is_free (slots st') 12 = true).
Proof.
  intros Hlen Hp Hpg. cbv zeta. unfold swapFree. rewrite Hp.
  destruct (Z.eqb_spec (pgdir pr) 0) as [E | _]; [contradiction |].
  destruct (swapFree_loop_spec st (pgdir pr) Hlen)
    as (kend & Hend & Hshape & Hl & Hdone & Hframe).
  set (st' := swapFree_loop scan_fuel 0 st (pgdir pr)) in *. clearbody st'.
  assert (Hrel : forall k pte, user_vpn k ->
     walkpgdir st (pgdir pr) (4096 * k) = Some pte -> 0 <= pte < 2 ^ 32 ->
     swapped_entry pte -> Z.shiftr pte 12 < 800 ->
     slots st' !! Z.to_nat (Z.shiftr pte 12) = Some (mk_slot 0 1)).
  { intros k pte [Hk Hklt] Hw Hpte Hsw Hslot.
    destruct (decode_slot_index pte Hpte) as [Hdec Hrng].
    rewrite <- Hdec. apply (Hdone k pte); [lia | assumption .. |].
    unfold slot_of. rewrite Hdec. lia. }
  split; [exact Hshape |]. split; [exact Hrel |]. split.
  - intros n Hne.
    destruct (Hframe n) as [He | (He & j & pte & Hj & Hjlt & Hw & Hsw & _ & Hn)];
      [contradiction |].
    split; [exact He |]. exists j, pte.
    split; [split; lia |]. split; [exact Hw |]. split; [exact Hsw | exact Hn].
  - intros k10 k11 k12 f10 f11 f12 Hk10 Hk11 Hk12 Hf10 Hf11 Hf12 HP10 HP11 HP12
      Hw10 Hw11 Hw12.
    assert (Hone : forall s k f, user_vpn k -> 0 <= f < 4096 -> Z.land f PTE_P = 0 ->
      0 < s < 800 -> walkpgdir st (pgdir pr) (4096 * k) = Some (s * 4096 + f) ->
      slot_is_free (slots st') s = true).
    { intros s k f Hk Hf HP Hs Hw. unfold slot_is_free.
      rewrite <- (shiftr12_slot s f Hf).
      rewrite (Hrel k (s * 4096 + f) Hk Hw); [reflexivity | lia | | ].
      - split; [| lia]. pose proof PTE_P_low as HPl.
        rewrite <- shiftl12_lor_low by exact Hf.
        rewrite Z.land_lor_distr_l, HP, Z.lor_0_r.
        apply shiftl12_land_low. lia.
      - rewrite shiftr12_slot by exact Hf. lia. }
    split; [| split];
      [apply (Hone 10 k10 f10) | apply (Hone 11 k11 f11) | apply (Hone 12 k12 f12)];
      assumption || lia.
Qed.

End ExitCleanup.

Lemma xv6_x86_ok : mmu_params_ok xv6_x86.
Proof. split; cbn; first [reflexivity | lia]. Qed.

(** With the x86 constants: the process of [exiting_state] has its three
    slots released by [swapFree], and its three swapped entries are still
    what they were, not zero. *)
Lemma swapFree_leaves_entries :
  let st' := swapFree (mp := xv6_x86) exiting_state (Some 0%nat) in
  slot_is_free (slots exiting_state) 10 = false /\
  slot_is_free (slots st') 10 = true /\
  slot_is_free (slots st') 11 = true /\
  slot_is_free (slots st') 12 = true /\
  walkpgdir st' example_pgdir 0x2000 = Some 0xA066 /\
  walkpgdir st' example_pgdir 0x3000 = Some 0xB066 /\
  walkpgdir st' example_pgdir 0x7000 = Some 0xC066 /\
  ~ (walkpgdir st' example_pgdir 0x2000 = Some 0).
Proof. vm_compute. repeat split. discriminate. Qed.

Lemma swapFree_releases_witness :
  let st' := swapFree (mp := xv6_x86) exiting_state (Some 0%nat) in
  slot_is_free (slots st') 10 = true /\
  slot_is_free (slots st') 11 = true /\
  slot_is_free (slots st') 12 = true.
Proof.
  destruct (swapFree_releases (mp := xv6_x86) (mp_ok := xv6_x86_ok) exiting_state 0%nat
              (mk_proc RUNNING 3 5 example_pgdir))
    as (_ & _ & _ & H); [reflexivity | reflexivity | discriminate |].
  apply (H 2 3 7 0x066 0x066 0x066);
    try reflexivity; try (split; [lia | reflexivity]); lia.
Defined.

(** ** Choosing the victim page *)

Section VictimPage.
Context {mp : mmu_params} {mp_ok : mmu_params_ok mp}.

Lemma land_lnot_disjoint a p : Z.land a p = 0 -> Z.land (Z.lnot a) p = p.
Proof.
  intros H. apply Z.bits_inj'. intros n Hn.
  rewrite Z.land_spec, Z.lnot_spec by exact Hn.
  assert (Hb : Z.testbit a n && Z.testbit p n = false).
  { rewrite <- Z.land_spec, H. apply Z.bits_0. }
  destruct (Z.testbit a n), (Z.testbit p n); try reflexivity; discriminate.
Qed.

Lemma user_present_clear pte :
  user_present (Z.land pte (Z.lnot PTE_A)) = user_present pte.
Proof.
  unfold user_present.
  rewrite <- !Z.land_assoc.
  rewrite (land_lnot_disjoint PTE_A PTE_P PTE_A_not_P).
  rewrite (land_lnot_disjoint PTE_A PTE_U PTE_A_not_U).
  reflexivity.
Qed.

Lemma accessed_clear pte : Z.land (Z.land pte (Z.lnot PTE_A)) PTE_A = 0.
Proof.
  rewrite <- Z.land_assoc, (Z.land_comm (Z.lnot PTE_A)), Z.land_lnot_diag.
  apply Z.land_0_r.
Qed.

Lemma user_present_clear_accessed pte :
  user_present (clear_accessed pte) = user_present pte.
Proof.
  unfold clear_accessed. destruct (user_present pte) eqn:E; [| exact E].
  rewrite user_present_clear. exact E.
Qed.

Lemma findpage_first_body_spec st pgdir i :
  findpage_first_body st pgdir i =
  match walkpgdir st pgdir i with
  | Some pte => if unreferenced pte then Some (PTE_ADDR pte, i) else None
  | None => None
  end.
Proof.
  unfold findpage_first_body, unreferenced.
  destruct (walkpgdir st pgdir i) as [pte |]; [| reflexivity].
  destruct (user_present pte); [| reflexivity].
  cbn [negb andb]. reflexivity.
Qed.

Lemma findpage_second_body_spec st pgdir i :
  findpage_second_body st pgdir i =
  match walkpgdir st pgdir i with
  | Some pte => if user_present pte then Some (PTE_ADDR pte, i) else None
  | None => None
  end.
Proof.
  unfold findpage_second_body.
  destruct (walkpgdir st pgdir i) as [pte |]; [| reflexivity].
  destruct (user_present pte); reflexivity.
Qed.

(** A search for the entries that satisfy [Q] finds the first of them. *)
Lemma scan_find_first (Q : Z -> bool) st pgdir body k pte :
  (forall i, body i = match walkpgdir st pgdir i with
                      | Some pte => if Q pte then Some (PTE_ADDR pte, i) else None
                      | None => None
                      end) ->
  first_vpn Q st pgdir k pte ->
  scan_find body scan_fuel 0 = Some (PTE_ADDR pte, 4096 * k).
Proof.
  intros Hbody ((Hk0 & Hklt) & Hw & HQ & Hbefore).
  pose proof (scan_find_spec body scan_fuel 0 ltac:(lia) scan_fuel_enough) as Hspec.
  change (4096 * 0) with 0 in Hspec.
  destruct (scan_find body scan_fuel 0) as [r |].
  - destruct Hspec as (k' & Hk' & Hk'lt & Hb & Hnone).
    destruct (Z.lt_trichotomy k' k) as [Hlt | [-> | Hgt]].
    + rewrite Hbody in Hb.
      destruct (walkpgdir st pgdir (4096 * k')) as [pte' |] eqn:Hw'; [| discriminate].
      rewrite (Hbefore k' pte') in Hb; [discriminate | lia | exact Hw'].
    + rewrite Hbody, Hw, HQ in Hb. symmetry. exact Hb.
    + specialize (Hnone k ltac:(lia)). rewrite Hbody, Hw, HQ in Hnone. discriminate.
  - specialize (Hspec k Hk0 Hklt). rewrite Hbody, Hw, HQ in Hspec. discriminate.
Qed.

Lemma scan_find_none (Q : Z -> bool) st pgdir body :
  (forall i, body i = match walkpgdir st pgdir i with
                      | Some pte => if Q pte then Some (PTE_ADDR pte, i) else None
                      | None => None
                      end) ->
  (forall k pte, user_vpn k -> walkpgdir st pgdir (4096 * k) = Some pte -> Q pte = false) ->
  scan_find body scan_fuel 0 = None.
Proof.
  intros Hbody Hnone.
  pose proof (scan_find_spec body scan_fuel 0 ltac:(lia) scan_fuel_enough) as Hspec.
  change (4096 * 0) with 0 in Hspec.
  destruct (scan_find body scan_fuel 0) as [r |]; [| reflexivity].
  destruct Hspec as (k' & Hk' & Hk'lt & Hb & _).
  rewrite Hbody in Hb.
  destruct (walkpgdir st pgdir (4096 * k')) as [pte' |] eqn:Hw'; [| discriminate].
  rewrite (Hnone k' pte') in Hb; [discriminate | split; lia | exact Hw'].
Qed.

End VictimPage.

Section VictimPageReset.
Context {mp : mmu_params} {mp_ok : mmu_params_ok mp}.

Lemma walkpgdir_vpn st pgdir a b :
  Z.shiftr a 12 = Z.shiftr b 12 -> walkpgdir st pgdir a = walkpgdir st pgdir b.
Proof. unfold walkpgdir. intros ->. reflexivity. Qed.

Lemma findpage_reset_body_inv st0 pgdir k st :
  0 <= k -> 4096 * k < KERNBASE ->
  reset_inv st0 pgdir k st ->
  reset_inv st0 pgdir (k + 1) (findpage_reset_body st pgdir (4096 * k)).
Proof.
  intros Hk Hlt (Hshape & Hdone & Hrest).
  assert (Hcur : walkpgdir st pgdir (4096 * k) = walkpgdir st0 pgdir (4096 * k)).
  { apply Hrest. right. rewrite shiftr12_page. lia. }
  assert (Hat : forall a, Z.shiftr a 12 = k ->
            walkpgdir st pgdir a = walkpgdir st0 pgdir (4096 * k)).
  { intros a Ha. rewrite <- Hcur. apply walkpgdir_vpn. rewrite shiftr12_page. exact Ha. }
  unfold findpage_reset_body. rewrite Hcur.
  destruct (walkpgdir st0 pgdir (4096 * k)) as [pte |] eqn:Hw.
  - destruct (user_present pte) eqn:Hup; cbn [negb].
    + (* the entry is rewritten *)
      assert (Hsome : is_Some (walkpgdir st pgdir (4096 * k))).
      { rewrite Hcur. eauto. }
      split; [| split].
      * unfold set_pte. rewrite pgdirs_with_pgdirs. rewrite Hshape at 1. reflexivity.
      * intros a Ha Hakb. destruct (Z.eq_dec (Z.shiftr a 12) k) as [E | Hne].
        -- rewrite (walkpgdir_vpn _ pgdir a (4096 * k)) by (rewrite shiftr12_page; exact E).
           rewrite walkpgdir_set_pte_same by exact Hsome.
           rewrite (walkpgdir_vpn st0 pgdir a (4096 * k)) by (rewrite shiftr12_page; exact E).
           rewrite Hw. cbn [fmap option_fmap option_map]. unfold clear_accessed.
           rewrite Hup. reflexivity.
        -- rewrite walkpgdir_set_pte_other by (right; rewrite shiftr12_page; exact Hne).
           apply Hdone; [lia | exact Hakb].
      * intros pgdir' a Hor.
        rewrite walkpgdir_set_pte_other.
        -- apply Hrest. destruct Hor as [Hp | Hr]; [left; exact Hp | right; lia].
        -- destruct Hor as [Hp | Hr]; [left; exact Hp |].
           right. rewrite shiftr12_page. lia.
    + (* the entry is not a present user page *)
      split; [exact Hshape |]. split.
      * intros a Ha Hakb. destruct (Z.eq_dec (Z.shiftr a 12) k) as [E | Hne].
        -- rewrite (Hat a E).
           rewrite (walkpgdir_vpn st0 pgdir a (4096 * k)) by (rewrite shiftr12_page; exact E).
           rewrite Hw. cbn [fmap option_fmap option_map]. unfold clear_accessed.
           rewrite Hup. reflexivity.
        -- apply Hdone; [lia | exact Hakb].
      * intros pgdir' a Hor. apply Hrest.
        destruct Hor as [Hp | Hr]; [left; exact Hp | right; lia].
  - split; [exact Hshape |]. split.
    + intros a Ha Hakb. destruct (Z.eq_dec (Z.shiftr a 12) k) as [E | Hne].
      * rewrite (Hat a E).
        rewrite (walkpgdir_vpn st0 pgdir a (4096 * k)) by (rewrite shiftr12_page; exact E).
        rewrite Hw. reflexivity.
      * apply Hdone; [lia | exact Hakb].
    + intros pgdir' a Hor. apply Hrest.
      destruct Hor as [Hp | Hr]; [left; exact Hp | right; lia].
Qed.

(** After the reset loop. *)
Lemma findpage_reset_spec st pgdir :
  let st' := findpage_reset scan_fuel 0 st pgdir in
  st' = with_pgdirs st (pgdirs st') /\
  (forall a, user_vpn (Z.shiftr a 12) ->
     walkpgdir st' pgdir a = clear_accessed <$> walkpgdir st pgdir a) /\
  (forall pgdir' a, pgdir' <> pgdir \/ ~ user_vpn (Z.shiftr a 12) ->
     walkpgdir st' pgdir' a = walkpgdir st pgdir' a).
Proof.
  cbv zeta. rewrite findpage_reset_scan.
  destruct (scan_fold_inv (reset_inv st pgdir)
              (fun st i => findpage_reset_body st pgdir i)
              (fun k st' Hk Hlt HI => findpage_reset_body_inv st pgdir k st' Hk Hlt HI)
              scan_fuel 0 st) as (kend & _ & Hend & Hshape & Hdone & Hrest).
  - lia.
  - apply scan_fuel_enough.
  - split; [destruct st; reflexivity |]. split.
    + intros a Ha. lia.
    + intros pgdir' a _. reflexivity.
  - change (4096 * 0) with 0 in *.
    set (st' := scan_fold _ scan_fuel 0 st) in *. clearbody st'.
    split; [exact Hshape |]. split.
    + intros a [Ha Halt]. apply Hdone; [lia | exact Halt].
    + intros pgdir' a Hor. apply Hrest.
      destruct Hor as [Hp | Hr]; [left; exact Hp |].
      right. unfold user_vpn in Hr. lia.
Qed.

(** [findpage] when the first loop finds nothing. *)
Lemma findpage_after_reset st pgdir :
  (forall k pte, user_vpn k ->
     walkpgdir st pgdir (4096 * k) = Some pte -> unreferenced pte = false) ->
  let st2 := emit (findpage_reset scan_fuel 0 st pgdir) (Lcr3 (V2P pgdir)) in
  findpage st pgdir =
    (match scan_find (findpage_second_body st2 pgdir) scan_fuel 0 with
     | Some (pa, va) => (pa, Some va)
     | None => (0, None)
     end, st2).
Proof.
  intros Hnone. cbv zeta. unfold findpage.
  rewrite findpage_first_scan.
  rewrite (scan_find_none unreferenced st pgdir _ (findpage_first_body_spec st pgdir) Hnone).
  rewrite findpage_second_scan.
  destruct (scan_find _ scan_fuel 0) as [[pa va] |]; reflexivity.
Qed.

End VictimPageReset.

Section VictimPageClaim.
Context {mp : mmu_params} {mp_ok : mmu_params_ok mp}.

(** C8.  [findpage] looks at the user pages in ascending order.  If some
    present user page has its accessed bit clear, the lowest such page is
    returned and nothing changes.  If none has, then the accessed bit is
    cleared on every present user entry below [KERNBASE] and the page
    directory base is reloaded; no entry at or above [KERNBASE], of another
    page directory or lacking the present or user flag is touched; the
    lowest present user page is returned, or 0 with no address when there
    is none; afterwards every present user page has its accessed bit
    clear.  (So with 10 user pages that all have the bit set, the lowest
    is returned and all 10 have it clear afterwards.) *)
Theorem findpage_second_chance (st : kstate) (pgdir : Z) :
  (forall k pte, first_vpn unreferenced st pgdir k pte ->
     findpage st pgdir = ((PTE_ADDR pte, Some (4096 * k)), st)) /\
  ((forall k pte, user_vpn k ->
      walkpgdir st pgdir (4096 * k) = Some pte -> unreferenced pte = false) ->
   let st' := snd (findpage st pgdir) in
   st' = emit (with_pgdirs st (pgdirs st')) (Lcr3 (V2P pgdir)) /\
   (forall a, user_vpn (Z.shiftr a 12) ->
      walkpgdir st' pgdir a = clear_accessed <$> walkpgdir st pgdir a) /\
   (forall pgdir' a, pgdir' <> pgdir \/ ~ user_vpn (Z.shiftr a 12) ->
      walkpgdir st' pgdir' a = walkpgdir st pgdir' a) /\
   (forall k pte, first_vpn user_present st pgdir k pte ->
      fst (findpage st pgdir) = (PTE_ADDR (clear_accessed pte), Some (4096 * k))) /\
   ((forall k pte, user_vpn k ->
       walkpgdir st pgdir (4096 * k) = Some pte -> user_present pte = false) ->
    fst (findpage st pgdir) = (0, None)) /\
   (forall k pte, user_vpn k ->
      walkpgdir st' pgdir (4096 * k) = Some pte -> user_present pte = true ->
      Z.land pte PTE_A = 0)).
Proof.
  split.
  - intros k pte Hfirst. unfold findpage. rewrite findpage_first_scan.
    rewrite (scan_find_first unreferenced st pgdir _ k pte
               (findpage_first_body_spec st pgdir) Hfirst).
    reflexivity.
  - intros Hnone. cbv zeta.
    rewrite (findpage_after_reset st pgdir Hnone). unfold fst, snd.
    destruct (findpage_reset_spec st pgdir) as (Hshape & Hdone & Hrest).
    set (st1 := findpage_reset scan_fuel 0 st pgdir) in *. clearbody st1.
    set (st2 := emit st1 (Lcr3 (V2P pgdir))).
    assert (Hw2 : forall pgdir' a, walkpgdir st2 pgdir' a = walkpgdir st1 pgdir' a).
    { intros pgdir' a. apply walkpgdir_ext. apply pgdirs_emit. }
    assert (Hpage : forall k, user_vpn k ->
              walkpgdir st2 pgdir (4096 * k)
              = clear_accessed <$> walkpgdir st pgdir (4096 * k)).
    { intros k Hk. rewrite Hw2. apply Hdone. rewrite shiftr12_page. exact Hk. }
    split; [| split; [| split; [| split; [| split]]]].
    + unfold st2. rewrite pgdirs_emit, <- Hshape. reflexivity.
    + intros a Ha. rewrite Hw2. apply Hdone. exact Ha.
    + intros pgdir' a Hor. rewrite Hw2. apply Hrest. exact Hor.
    + intros k pte ((Hk0 & Hklt) & Hw & HQ & Hbefore).
      rewrite (scan_find_first user_present st2 pgdir _ k (clear_accessed pte)
                 (findpage_second_body_spec st2 pgdir)); [reflexivity |].
      split; [split; assumption |]. split; [| split].
      * rewrite Hpage by (split; assumption). rewrite Hw. reflexivity.
      * rewrite user_present_clear_accessed. exact HQ.
      * intros j pte' Hj Hwj. rewrite Hpage in Hwj by (split; lia).
        destruct (walkpgdir st pgdir (4096 * j)) as [pte0 |] eqn:Hw0; [| discriminate].
        injection Hwj as <-. rewrite user_present_clear_accessed.
        apply (Hbefore j pte0 Hj Hw0).
    + intros Hno.
      rewrite (scan_find_none user_present st2 pgdir _
                 (findpage_second_body_spec st2 pgdir)); [reflexivity |].
      intros k pte' Hk Hwk. rewrite Hpage in Hwk by exact Hk.
      destruct (walkpgdir st pgdir (4096 * k)) as [pte0 |] eqn:Hw0; [| discriminate].
      injection Hwk as <-. rewrite user_present_clear_accessed.
      apply (Hno k pte0 Hk Hw0).
    + intros k pte' Hk Hwk Hup. rewrite Hpage in Hwk by exact Hk.
      destruct (walkpgdir st pgdir (4096 * k)) as [pte0 |] eqn:Hw0; [| discriminate].
      injection Hwk as <-. rewrite user_present_clear_accessed in Hup.
      unfold clear_accessed. rewrite Hup. apply accessed_clear.
Qed.

End VictimPageClaim.

(** The same scenario run on the code: with the x86 constants and the 10
    pages of [ten_pages_state], [findpage] returns the frame and the
    address of page 0, and afterwards the 10 entries have lost the
    accessed bit (0x027 has become 0x007). *)
Example findpage_ten_pages :
  fst (findpage (mp := xv6_x86) ten_pages_state example_pgdir) = (0x100000, Some 0) /\
  pgdirs (snd (findpage (mp := xv6_x86) ten_pages_state example_pgdir))
  = {[ example_pgdir :=
         list_to_map (map (fun k => (k, Z.lor (Z.shiftl (0x100 + k) 12) 0x007))
                        (seqZ 0 10)) ]}.
Proof. vm_compute. split; reflexivity. Qed.

Lemma findpage_second_chance_witness :
  let st' := snd (findpage (mp := xv6_x86) ten_pages_state example_pgdir) in
  fst (findpage (mp := xv6_x86) ten_pages_state example_pgdir) = (0x100000, Some 0) /\
  forall k pte, user_vpn (mp := xv6_x86) k ->
    walkpgdir st' example_pgdir (4096 * k) = Some pte ->
    user_present (mp := xv6_x86) pte = true -> Z.land pte 0x020 = 0.
Proof.
  destruct (findpage_second_chance (mp := xv6_x86) (mp_ok := xv6_x86_ok)
              ten_pages_state example_pgdir) as [_ H].
  assert (Hall : forall k pte, ten_pages !! k = Some pte ->
                   unreferenced (mp := xv6_x86) pte = false).
  { intros k pte Hk. unfold ten_pages in Hk. apply elem_of_list_to_map_2 in Hk.
    set (l := map _ _) in Hk. vm_compute in l. subst l.
    repeat (apply elem_of_cons in Hk as [Hk | Hk];
            [injection Hk as -> ->; reflexivity |]).
    apply elem_of_nil in Hk. contradiction. }
  destruct H as (_ & _ & _ & Hfirst & _ & Hclear).
  { intros k pte _ Hw. apply (Hall k pte).
    unfold walkpgdir in Hw. rewrite shiftr12_page in Hw. exact Hw. }
  split; [| exact Hclear].
  apply (Hfirst 0 0x100027). split; [split; [lia | reflexivity] |].
  split; [reflexivity |]. split; [reflexivity |]. intros j pte' Hj. lia.
Defined.

(** ** What eviction leaves alone *)

Lemma alloc_evolution_refl sl : alloc_evolution sl sl.
Proof. split; [reflexivity |]. intros i s Hs. left. exact Hs. Qed.

Lemma alloc_evolution_trans sl1 sl2 sl3 :
  alloc_evolution sl1 sl2 -> alloc_evolution sl2 sl3 -> alloc_evolution sl1 sl3.
Proof.
  intros [Hl12 H12] [Hl23 H23]. split; [congruence |].
  intros i s Hs. destruct (H12 i s Hs) as [H2 | (Hfree & s2 & H2 & Hused)].
  - destruct (H23 i s H2) as [H3 | (Hfree & s3 & H3 & Hused)];
      [left; exact H3 | right; eauto].
  - right. split; [exact Hfree |].
    destruct (H23 i s2 H2) as [H3 | (Hfree2 & _)]; [eauto | contradiction].
Qed.

Lemma alloc_evolution_used sl sl' s :
  alloc_evolution sl sl' -> slot_is_free sl s = false -> slot_is_free sl' s = false.
Proof.
  intros [Hlen Hev] Hs. unfold slot_is_free in *.
  destruct (sl !! Z.to_nat s) as [x |] eqn:Hx.
  - destruct (Hev _ x Hx) as [-> | (Hfree & _)]; [exact Hs |].
    destruct (Z.eqb_spec (is_free x) 0); [contradiction | discriminate].
  - apply lookup_ge_None in Hx. rewrite <- Hlen in Hx.
    apply lookup_ge_None in Hx. rewrite Hx. reflexivity.
Qed.

Lemma alloc_evolution_perm sl sl' s :
  alloc_evolution sl sl' -> slot_is_free sl s = false ->
  sl' !! Z.to_nat s = sl !! Z.to_nat s.
Proof.
  intros [Hlen Hev] Hs. unfold slot_is_free in *.
  destruct (sl !! Z.to_nat s) as [x |] eqn:Hx.
  - destruct (Hev _ x Hx) as [-> | (Hfree & _)]; [reflexivity |].
    destruct (Z.eqb_spec (is_free x) 0); [contradiction | discriminate].
  - apply lookup_ge_None in Hx. rewrite <- Hlen in Hx.
    apply lookup_ge_None in Hx. exact Hx.
Qed.

Lemma slot_inv_evolution sl sl' :
  alloc_evolution sl sl' -> slot_inv sl -> slot_inv sl'.
Proof.
  intros [Hlen Hev] Hinv i s' Hs' Hfree.
  assert (Hi : (i < length sl)%nat).
  { rewrite <- Hlen. apply lookup_lt_Some in Hs'. exact Hs'. }
  destruct (lookup_lt_is_Some_2 sl i Hi) as [s Hs].
  destruct (Hev i s Hs) as [H | (_ & s2 & H & Hused)];
    rewrite H in Hs'; injection Hs' as <-.
  - apply (Hinv i s Hs Hfree).
  - contradiction.
Qed.

(** Taking a free slot, with or without recording permissions in it. *)
Lemma alloc_evolution_take sl r (f : swap_slot -> swap_slot) :
  slot_is_free sl r = true ->
  (forall s, is_free (f s) = 0) ->
  alloc_evolution sl (alter f (Z.to_nat r) sl).
Proof.
  intros Hfree Hf. split; [apply length_alter |].
  intros i s Hs. destruct (decide (i = Z.to_nat r)) as [-> | Hne].
  - right. unfold slot_is_free in Hfree. rewrite Hs in Hfree.
    split; [destruct (Z.eqb_spec (is_free s) 0); [discriminate | assumption] |].
    exists (f s). split; [| apply Hf].
    rewrite list_lookup_alter_eq, Hs. reflexivity.
  - left. rewrite list_lookup_alter_ne by congruence. exact Hs.
Qed.

Lemma slot_inv_insert_free sl n : slot_inv sl -> slot_inv (<[n := mk_slot 0 1]> sl).
Proof.
  intros Hinv i s Hs Hfree. destruct (decide (i = n)) as [-> | Hne].
  - apply list_lookup_insert_Some in Hs as [(_ & <- & _) | (Hne & _)];
      [reflexivity | contradiction].
  - rewrite list_lookup_insert_ne in Hs by congruence. apply (Hinv i s Hs Hfree).
Qed.

Lemma slot_inv_freeslot st i : slot_inv (slots st) -> slot_inv (slots (freeslot st i)).
Proof.
  intros Hinv. unfold freeslot.
  destruct ((i <? 0) || (i >=? 800)); [exact Hinv |].
  rewrite slots_with_slots. apply slot_inv_insert_free. exact Hinv.
Qed.
Section EvictFrame.
Context {mp : mmu_params}.

Lemma evict_frame_refl st : evict_frame st st.
Proof.
  split; [apply alloc_evolution_refl |]. split; [reflexivity |].
  split; [intros pgdir a pte H _; exact H |]. split; [reflexivity | tauto].
Qed.

Lemma evict_frame_trans st1 st2 st3 :
  evict_frame st1 st2 -> evict_frame st2 st3 -> evict_frame st1 st3.
Proof.
  intros (Hs12 & Hd12 & Hp12 & Hc12 & Hf12) (Hs23 & Hd23 & Hp23 & Hc23 & Hf23).
  split; [eapply alloc_evolution_trans; eassumption |]. split; [| split; [| split]].
  - intros s i Hs Hi Hused. rewrite Hd23, Hd12; try assumption; [reflexivity |].
    eapply alloc_evolution_used; eassumption.
  - intros pgdir a pte Hw HP. apply Hp23; [| exact HP]. apply Hp12; assumption.
  - congruence.
  - tauto.
Qed.

(** A step that touches neither slots, disk, page directories nor the
    current process, and keeps the free list a list of frames. *)
Lemma evict_frame_other st st' :
  slots st' = slots st -> disk st' = disk st -> pgdirs st' = pgdirs st ->
  cpu_proc st' = cpu_proc st ->
  (Forall frame_ok (freelist st) -> Forall frame_ok (freelist st')) ->
  evict_frame st st'.
Proof.
  intros Hs Hd Hp Hc Hf. split; [rewrite Hs; apply alloc_evolution_refl |].
  split; [intros s i _ _ _; rewrite Hd; reflexivity |].
  split; [| split; [exact Hc | exact Hf]].
  intros pgdir a pte Hw _. rewrite (walkpgdir_ext st st') by exact Hp. exact Hw.
Qed.

Lemma evict_frame_same st st' :
  slots st' = slots st -> disk st' = disk st -> pgdirs st' = pgdirs st ->
  cpu_proc st' = cpu_proc st -> freelist st' = freelist st -> evict_frame st st'.
Proof.
  intros Hs Hd Hp Hc Hf. apply evict_frame_other; try assumption.
  rewrite Hf. tauto.
Qed.

Lemma user_present_P pte : user_present pte = true -> Z.land pte PTE_P <> 0.
Proof.
  unfold user_present. intros H. apply andb_true_iff in H as [H _].
  destruct (Z.eqb_spec (Z.land pte PTE_P) 0); [discriminate | assumption].
Qed.

(** Rewriting an entry that is present. *)
Lemma evict_frame_set_pte st pgdir va v pte :
  walkpgdir st pgdir va = Some pte -> Z.land pte PTE_P <> 0 ->
  evict_frame st (set_pte st pgdir va v).
Proof.
  intros Hw HP. unfold set_pte.
  split; [rewrite slots_with_pgdirs; apply alloc_evolution_refl |].
  split; [intros s i _ _ _; rewrite disk_with_pgdirs; reflexivity |].
  split; [| split; [apply cpu_proc_with_pgdirs | rewrite freelist_with_pgdirs; tauto]].
  intros pgdir' a pte' Hw' HP'. fold (set_pte st pgdir va v).
  rewrite walkpgdir_set_pte_other; [exact Hw' |].
  destruct (decide (pgdir' = pgdir)) as [-> | Hne]; [right | left; exact Hne].
  intros E. rewrite (walkpgdir_vpn st pgdir a va E), Hw in Hw'.
  injection Hw' as <-. contradiction.
Qed.

Lemma findpage_reset_body_frame st pgdir i :
  evict_frame st (findpage_reset_body st pgdir i).
Proof.
  unfold findpage_reset_body.
  destruct (walkpgdir st pgdir i) as [pte |] eqn:Hw; [| apply evict_frame_refl].
  destruct (user_present pte) eqn:Hup; cbn [negb]; [| apply evict_frame_refl].
  apply (evict_frame_set_pte st pgdir i _ pte Hw). apply user_present_P. exact Hup.
Qed.

Lemma findpage_reset_frame pgdir fuel : forall i st,
  evict_frame st (findpage_reset fuel i st pgdir).
Proof.
  induction fuel as [| fuel IH]; intros i st; [apply evict_frame_refl |].
  cbn [findpage_reset]. destruct (i <? KERNBASE); [| apply evict_frame_refl].
  eapply evict_frame_trans; [apply findpage_reset_body_frame | apply IH].
Qed.

Lemma findpage_cases st pgdir :
  (exists pa va, findpage st pgdir = ((pa, Some va), st)) \/
  (exists res, findpage st pgdir
     = (res, emit (findpage_reset scan_fuel 0 st pgdir) (Lcr3 (V2P pgdir)))).
Proof.
  unfold findpage.
  destruct (findpage_first scan_fuel 0 st pgdir) as [[pa va] |]; [left; eauto |].
  right.
  match goal with
  | |- context [findpage_second ?f ?i ?s ?p] =>
      destruct (findpage_second f i s p) as [[pa va] |]
  end; eauto.
Qed.

Lemma findpage_first_pa st pgdir fuel : forall i pa va,
  findpage_first fuel i st pgdir = Some (pa, va) -> exists pte, pa = PTE_ADDR pte.
Proof.
  induction fuel as [| fuel IH]; intros i pa va; [discriminate |].
  cbn [findpage_first]. destruct (i <? KERNBASE); [| discriminate].
  destruct (findpage_first_body st pgdir i) as [r |] eqn:Hb; [| apply IH].
  intros [= ->]. unfold findpage_first_body in Hb.
  destruct (walkpgdir st pgdir i) as [pte |]; [| discriminate].
  destruct (negb (user_present pte)); [discriminate |].
  destruct (Z.land pte PTE_A =? 0); [| discriminate].
  injection Hb as <- _. eauto.
Qed.

Lemma findpage_second_pa st pgdir fuel : forall i pa va,
  findpage_second fuel i st pgdir = Some (pa, va) -> exists pte, pa = PTE_ADDR pte.
Proof.
  induction fuel as [| fuel IH]; intros i pa va; [discriminate |].
  cbn [findpage_second]. destruct (i <? KERNBASE); [| discriminate].
  destruct (findpage_second_body st pgdir i) as [r |] eqn:Hb; [| apply IH].
  intros [= ->]. unfold findpage_second_body in Hb.
  destruct (walkpgdir st pgdir i) as [pte |]; [| discriminate].
  destruct (negb (user_present pte)); [discriminate |].
  injection Hb as <- _. eauto.
Qed.

(** The physical address that [findpage] returns is 0 or the frame
    address of an entry. *)
Lemma findpage_pa st pgdir :
  fst (fst (findpage st pgdir)) = 0 \/
  exists pte, fst (fst (findpage st pgdir)) = PTE_ADDR pte.
Proof.
  unfold findpage.
  destruct (findpage_first scan_fuel 0 st pgdir) as [[pa va] |] eqn:H1.
  - right. apply (findpage_first_pa st pgdir scan_fuel 0 pa va H1).
  - match goal with
    | |- context [findpage_second ?f ?i ?s ?p] =>
        destruct (findpage_second f i s p) as [[pa va] |] eqn:H2
    end; [right | left; reflexivity].
    apply (findpage_second_pa _ pgdir scan_fuel 0 pa va H2).
Qed.

Lemma frame_ok_P2V pte : frame_ok (P2V (PTE_ADDR pte)).
Proof.
  unfold frame_ok, P2V, V2P. split; [apply to_uint_range |].
  rewrite !to_uint_mod.
  rewrite Zminus_mod_idemp_l.
  replace (PTE_ADDR pte + KERNBASE - KERNBASE) with (PTE_ADDR pte) by lia.
  rewrite <- to_uint_mod. unfold to_uint, PTE_ADDR.
  rewrite <- (Z.land_assoc _ 0xFFFFFFFF 0xFFF).
  change (Z.land 0xFFFFFFFF 0xFFF) with 0xFFF.
  rewrite <- (Z.land_assoc pte (Z.lnot 0xFFF) 0xFFF).
  change (Z.land (Z.lnot 0xFFF) 0xFFF) with 0. apply Z.land_0_r.
Qed.

Lemma findpage_frame st pgdir : evict_frame st (snd (findpage st pgdir)).
Proof.
  destruct (findpage_cases st pgdir) as [(pa & va & ->) | (res & ->)]; unfold snd.
  - apply evict_frame_refl.
  - eapply evict_frame_trans; [apply findpage_reset_frame |].
    apply evict_frame_same; reflexivity.
Qed.

(** The blocks that [write_page_loop] writes, and what it writes. *)
Lemma write_page_loop_shape fuel : forall i blockno pa st,
  write_page_loop fuel i blockno pa st
  = with_disk st (disk (write_page_loop fuel i blockno pa st)).
Proof.
  induction fuel as [| fuel IH]; intros i blockno pa st.
  - destruct st; reflexivity.
  - cbn [write_page_loop]. destruct (i <? 8); [| destruct st; reflexivity].
    rewrite IH at 1. reflexivity.
Qed.

Lemma write_page_loop_disk fuel blockno pa : forall i st b,
  0 <= blockno -> blockno + 8 <= 2 ^ 32 ->
  0 <= i -> i + Z.of_nat fuel = 8 ->
  disk (write_page_loop fuel i blockno pa st) b
  = if (blockno + i <=? b) && (b <? blockno + 8)
    then memread (kmemory st) (P2V pa + (b - blockno) * BSIZE) (Z.to_nat BSIZE)
    else disk st b.
Proof.
  induction fuel as [| fuel IH]; intros i st b Hb0 Hb8 Hi Hsum.
  - cbn [write_page_loop].
    destruct (Z.leb_spec (blockno + i) b); destruct (Z.ltb_spec b (blockno + 8));
      cbn [andb]; try reflexivity. lia.
  - cbn [write_page_loop]. destruct (Z.ltb_spec i 8) as [Hlt | Hge]; [| lia].
    rewrite IH by lia. unfold bwrite. rewrite kmemory_with_disk, disk_with_disk.
    rewrite (to_uint_id (blockno + i)) by lia.
    destruct (Z.leb_spec (blockno + (i + 1)) b); destruct (Z.ltb_spec b (blockno + 8));
      destruct (Z.leb_spec (blockno + i) b); destruct (Z.eqb_spec b (blockno + i));
      cbn [andb]; try reflexivity; try lia.
    subst b. replace (blockno + i - blockno) with i by lia. reflexivity.
Qed.

Lemma swappageout_frame st pgdir va pa :
  evict_frame st (snd (swappageout st pgdir va pa)).
Proof.
  destruct (swappageout_cases st pgdir va pa) as
    [(_ & ->) | [(r & st1 & Hfs & Hrng & Hst1 & _ & ->)
                | (r & st1 & pte & Hfs & Hrng & Hst1 & Hw & HP & ->)]];
    unfold snd.
  - apply evict_frame_refl.
  - assert (Hfree : slot_is_free (slots st) r = true).
    { destruct (findslot_cases st) as [(E & _) | (r' & E & _ & Hf & _)];
        rewrite E in Hfs; injection Hfs as <- _; [lia | exact Hf]. }
    subst st1. split; [| split; [| split; [| split]]].
    + rewrite slots_with_slots. apply alloc_evolution_take; [exact Hfree | reflexivity].
    + intros s i _ _ _. rewrite disk_with_slots. reflexivity.
    + intros pgdir' a pte Hw _. rewrite (walkpgdir_ext st); [exact Hw |].
      apply pgdirs_with_slots.
    + apply cpu_proc_with_slots.
    + rewrite freelist_with_slots. tauto.
  - assert (Hfree : slot_is_free (slots st) r = true).
    { destruct (findslot_cases st) as [(E & _) | (r' & E & _ & Hf & _)];
        rewrite E in Hfs; injection Hfs as <- _; [lia | exact Hf]. }
    set (st2 := set_slot_perm st1 r (Z.land pte 0xFFF)).
    set (st3 := write_page_loop 8 0 (to_uint (2 + r * 8)) pa st2).
    assert (Hsl2 : slots st2
      = alter ((fun s => mk_slot (Z.land pte 0xFFF) (is_free s)) ∘ mark_used)
          (Z.to_nat r) (slots st)).
    { unfold st2, set_slot_perm. rewrite slots_with_slots, Hst1, slots_with_slots.
      apply list_alter_alter_eq. }
    assert (Hst3 : st3 = with_disk st2 (disk st3)) by apply write_page_loop_shape.
    split; [| split; [| split; [| split]]].
    + rewrite slots_emit. unfold set_pte. rewrite slots_with_pgdirs.
      rewrite Hst3, slots_with_disk, Hsl2.
      apply alloc_evolution_take; [exact Hfree | reflexivity].
    + intros s i Hs Hi Hused. rewrite disk_emit. unfold set_pte.
      rewrite disk_with_pgdirs. unfold st3.
      rewrite (to_uint_id (2 + r * 8)) by lia.
      rewrite write_page_loop_disk by lia.
      assert (Hsr : s <> r) by (intros ->; rewrite Hfree in Hused; discriminate).
      destruct (Z.leb_spec (2 + r * 8 + 0) (2 + s * 8 + i));
        destruct (Z.ltb_spec (2 + s * 8 + i) (2 + r * 8 + 8)); cbn [andb]; try lia;
        unfold st2, set_slot_perm; rewrite disk_with_slots, Hst1, disk_with_slots;
        reflexivity.
    + intros pgdir' a pte' Hw' HP'.
      rewrite (walkpgdir_ext _ _ pgdir' a (pgdirs_emit _ _)).
      assert (Hpg3 : pgdirs st3 = pgdirs st).
      { rewrite Hst3, pgdirs_with_disk. unfold st2, set_slot_perm.
        rewrite pgdirs_with_slots, Hst1. apply pgdirs_with_slots. }
      rewrite walkpgdir_set_pte_other.
      * rewrite (walkpgdir_ext st st3) by exact Hpg3. exact Hw'.
      * destruct (decide (pgdir' = pgdir)) as [-> | Hne]; [right | left; exact Hne].
        intros E. rewrite (walkpgdir_vpn st pgdir a va E), Hw in Hw'.
        injection Hw' as <-. contradiction.
    + rewrite cpu_proc_emit. unfold set_pte. rewrite cpu_proc_with_pgdirs.
      rewrite Hst3, cpu_proc_with_disk. unfold st2, set_slot_perm.
      rewrite cpu_proc_with_slots, Hst1. apply cpu_proc_with_slots.
    + rewrite freelist_emit. unfold set_pte. rewrite freelist_with_pgdirs.
      rewrite Hst3, freelist_with_disk. unfold st2, set_slot_perm.
      rewrite freelist_with_slots, Hst1, freelist_with_slots. tauto.
Qed.

Lemma swapout_body_frame victim swapped st :
  evict_frame st (snd (swapout_body victim swapped st)).
Proof.
  unfold swapout_body.
  pose proof (findpage_frame st (proc_pgdir st victim)) as Hfp.
  pose proof (findpage_pa st (proc_pgdir st victim)) as Hpa.
  destruct (findpage st (proc_pgdir st victim)) as [[pa va_out] st1].
  unfold snd in Hfp. unfold fst in Hpa.
  destruct (Z.eqb_spec pa 0) as [Hz | Hnz]; [exact Hfp |].
  destruct va_out as [va |]; [| exact Hfp].
  pose proof (swappageout_frame st1 (proc_pgdir st1 victim) va pa) as Hso.
  destruct (swappageout st1 (proc_pgdir st1 victim) va pa) as [r st2].
  unfold snd in Hso.
  assert (H12 : evict_frame st st2) by (eapply evict_frame_trans; eassumption).
  destruct (r =? 0); [| exact H12]. unfold snd.
  eapply evict_frame_trans; [exact H12 |].
  apply evict_frame_other; try reflexivity.
  unfold kfree, set_rss.
  rewrite freelist_with_freelist, freelist_with_ptable. intros Hfl.
  apply Forall_cons. split; [| exact Hfl].
  destruct Hpa as [Hz | (pte & ->)]; [contradiction | apply frame_ok_P2V].
Qed.

Lemma swapout_loop_frame fuel : forall victim swapped attempts st,
  evict_frame st (swapout_loop fuel victim swapped attempts st).
Proof.
  induction fuel as [| fuel IH]; intros victim swapped attempts st;
    [apply evict_frame_refl |].
  cbn [swapout_loop].
  destruct ((swapped <? npages_to_swap st)
            && (attempts <? to_int (npages_to_swap st * 2)));
    [| apply evict_frame_refl].
  pose proof (swapout_body_frame victim swapped st) as Hb.
  destruct (swapout_body victim swapped st) as [[go swapped'] st1].
  unfold snd in Hb. destruct go; [| exact Hb].
  eapply evict_frame_trans; [exact Hb | apply IH].
Qed.

Lemma swapout_frame st : evict_frame st (swapout st).
Proof.
  unfold swapout. destruct (findproc st); [| apply evict_frame_refl].
  apply swapout_loop_frame.
Qed.

Lemma checkAswap_frame st : evict_frame st (checkAswap st).
Proof.
  unfold checkAswap.
  destruct (countpages st <=? threshold st); [| apply evict_frame_refl].
  set (st1 := emit st (PrintThreshold (threshold st) (npages_to_swap st))).
  apply (evict_frame_trans st st1); [apply evict_frame_same; reflexivity |].
  apply (evict_frame_trans st1 (swapout st1)); [apply swapout_frame |].
  generalize (swapout st1). intros st2.
  match goal with
  | |- evict_frame _ (if ?c then _ else _) => destruct c
  end;
    match goal with
    | |- context [if ?c then _ else _] => destruct c
    end; apply evict_frame_same; reflexivity.
Qed.

End EvictFrame.

(** ** The invariant of the slot table *)

Section SlotInvariant.
Context {mp : mmu_params}.

Lemma swapInit_loop_spec fuel : forall i sl,
  0 <= i -> i + Z.of_nat fuel = 800 ->
  length (swapInit_loop fuel i sl) = length sl /\
  forall n s, swapInit_loop fuel i sl !! n = Some s ->
    (Z.of_nat n < i /\ sl !! n = Some s) \/ (i <= Z.of_nat n < 800 /\ s = mk_slot 0 1)
    \/ (800 <= Z.of_nat n /\ sl !! n = Some s).
Proof.
  induction fuel as [| fuel IH]; intros i sl Hi Hsum.
  - cbn [swapInit_loop]. split; [reflexivity |]. intros n s Hs.
    destruct (Z.lt_ge_cases (Z.of_nat n) i); [left; auto | right; right; split; [lia | auto]].
  - cbn [swapInit_loop]. destruct (Z.ltb_spec i 800) as [Hlt | Hge]; [| lia].
    destruct (IH (i + 1) (<[Z.to_nat i := mk_slot 0 1]> sl)) as [Hlen Hall]; [lia | lia |].
    split; [rewrite Hlen; apply length_insert |].
    intros n s Hs. destruct (Hall n s Hs) as [(Hn & Hl) | [(Hn & ->) | (Hn & Hl)]].
    + destruct (decide (n = Z.to_nat i)) as [-> | Hne].
      * apply list_lookup_insert_Some in Hl as [(_ & <- & _) | (Hne & _)];
          [| contradiction]. right. left. split; [lia | reflexivity].
      * rewrite list_lookup_insert_ne in Hl by congruence. left. split; [lia | exact Hl].
    + right. left. split; [lia | reflexivity].
    + rewrite list_lookup_insert_ne in Hl by lia. right. right. auto.
Qed.

Lemma swapInit_slot_inv st :
  length (slots st) = 800%nat -> slot_inv (slots (swapInit st)).
Proof.
  intros Hlen. unfold swapInit. rewrite slots_emit, slots_with_slots.
  destruct (swapInit_loop_spec 800 0 (slots st)) as [Hl Hall]; [lia | lia |].
  intros n s Hs Hfree.
  destruct (Hall n s Hs) as [(Hn & _) | [(_ & ->) | (Hn & Hsl)]];
    [lia | reflexivity |].
  apply lookup_lt_Some in Hsl. lia.
Qed.

Lemma findslot_slot_inv st :
  slot_inv (slots st) ->
  slot_inv (slots (snd (findslot st))) /\
  ((fst (findslot st) <? 0) = false ->
   slot_is_free (slots (snd (findslot st))) (fst (findslot st)) = false).
Proof.
  intros Hinv.
  destruct (findslot_cases st) as [(-> & _) | (r & -> & Hrng & Hfree & _)];
    unfold fst, snd.
  - split; [exact Hinv |]. intros H. discriminate.
  - rewrite slots_with_slots. split.
    + eapply slot_inv_evolution; [| exact Hinv].
      apply alloc_evolution_take; [exact Hfree | reflexivity].
    + intros _. apply slot_is_free_alter_used.
Qed.

Lemma slot_inv_set_perm sl i v :
  slot_is_free sl i = false -> slot_inv sl ->
  slot_inv (alter (fun s => mk_slot v (is_free s)) (Z.to_nat i) sl).
Proof.
  intros Hused Hinv n s Hs Hfree.
  destruct (decide (n = Z.to_nat i)) as [-> | Hne].
  - rewrite list_lookup_alter_eq in Hs. unfold slot_is_free in Hused.
    destruct (sl !! Z.to_nat i) as [s0 |]; [| discriminate].
    injection Hs as <-. cbn [is_free] in Hfree.
    destruct (Z.eqb_spec (is_free s0) 0); [contradiction | discriminate].
  - rewrite list_lookup_alter_ne in Hs by congruence. apply (Hinv n s Hs Hfree).
Qed.

Lemma checkAswap_slot_inv st : slot_inv (slots st) -> slot_inv (slots (checkAswap st)).
Proof.
  apply slot_inv_evolution. apply checkAswap_frame.
Qed.

Lemma kalloc_shape st : snd (kalloc st) = with_freelist st (freelist (snd (kalloc st))).
Proof. unfold kalloc. destruct st as [? ? ? ? ? ? [| r rest] ? ? ? ? ? ?]; reflexivity. Qed.

Lemma kalloc_slots st : slots (snd (kalloc st)) = slots st.
Proof. rewrite kalloc_shape. apply slots_with_freelist. Qed.

Lemma read_page_loop_shape fuel : forall i blockno mem st,
  read_page_loop fuel i blockno mem st
  = with_kmemory st (kmemory (read_page_loop fuel i blockno mem st)).
Proof.
  induction fuel as [| fuel IH]; intros i blockno mem st.
  - destruct st; reflexivity.
  - cbn [read_page_loop]. destruct (i <? 8); [| destruct st; reflexivity].
    rewrite IH at 1. reflexivity.
Qed.

Lemma copy_slot_loop_shape fuel : forall i pb cb st,
  copy_slot_loop fuel i pb cb st
  = with_disk st (disk (copy_slot_loop fuel i pb cb st)).
Proof.
  induction fuel as [| fuel IH]; intros i pb cb st.
  - destruct st; reflexivity.
  - cbn [copy_slot_loop]. destruct (i <? 8); [| destruct st; reflexivity].
    rewrite IH at 1. reflexivity.
Qed.

Lemma mappages_cases st pgdir va pa perm :
  (mappages st pgdir va pa perm = (-1, st) /\ walkpgdir st pgdir va = None) \/
  (mappages st pgdir va pa perm
   = (0, set_pte st pgdir va (Z.lor (Z.lor pa perm) PTE_P)) /\
   is_Some (walkpgdir st pgdir va)).
Proof.
  unfold mappages. destruct (walkpgdir st pgdir va); [right | left]; eauto.
Qed.

Lemma swappage_in_slot_inv st pgdir va :
  slot_inv (slots st) -> slot_inv (slots (snd (swappage_in st pgdir va))).
Proof.
  intros Hinv. unfold swappage_in.
  destruct (walkpgdir st pgdir (PGROUNDDOWN (to_uint va))) as [pte |]; [| exact Hinv].
  destruct (negb (Z.land pte PTE_P =? 0)); [exact Hinv |].
  destruct ((to_int (Z.shiftr (PTE_ADDR pte) 12) <? 0)
            || (to_int (Z.shiftr (PTE_ADDR pte) 12) >=? 800)
            || slot_is_free (slots st) (to_int (Z.shiftr (PTE_ADDR pte) 12)));
    [exact Hinv |].
  pose proof (kalloc_slots st) as Hk1.
  destruct (kalloc st) as [mem1 st1]. unfold snd in Hk1.
  assert (Hinv1 : slot_inv (slots st1)) by (rewrite Hk1; exact Hinv).
  assert (Hinv2 : slot_inv (slots (snd (if mem1 =? 0 then kalloc (checkAswap st1)
                                        else (mem1, st1))))).
  { destruct (mem1 =? 0); [| exact Hinv1].
    rewrite kalloc_slots. apply checkAswap_slot_inv. exact Hinv1. }
  destruct (if mem1 =? 0 then kalloc (checkAswap st1) else (mem1, st1)) as [mem st2].
  unfold snd in Hinv2.
  destruct (mem =? 0); [exact Hinv2 |].
  set (st3 := read_page_loop 8 0 _ mem st2).
  assert (Hinv3 : slot_inv (slots st3)).
  { unfold st3. rewrite read_page_loop_shape, slots_with_kmemory. exact Hinv2. }
  clearbody st3.
  destruct (mappages_cases st3 pgdir (PGROUNDDOWN (to_uint va)) (V2P mem)
              (Z.lor (to_uint (slot_perm (slots st3)
                                 (to_int (Z.shiftr (PTE_ADDR pte) 12)))) PTE_P))
    as [(-> & _) | (-> & _)].
  - cbn [Z.ltb Z.compare snd]. unfold kfree.
    rewrite slots_with_freelist, slots_with_kmemory. exact Hinv3.
  - cbn [Z.ltb Z.compare].
    set (st4 := set_pte st3 _ _ _).
    assert (Hinv4 : slot_inv (slots st4)).
    { unfold st4, set_pte. rewrite slots_with_pgdirs. exact Hinv3. }
    clearbody st4.
    pose proof (slot_inv_freeslot st4 (to_int (Z.shiftr (PTE_ADDR pte) 12)) Hinv4) as Hinv5.
    set (st5 := freeslot st4 _) in *. clearbody st5.
    destruct (cpu_proc st5); unfold snd; [| exact Hinv5].
    unfold set_rss. rewrite slots_with_ptable. exact Hinv5.
Qed.

Lemma swapFree_body_slot_inv st pgdir i :
  slot_inv (slots st) -> slot_inv (slots (swapFree_body st pgdir i)).
Proof.
  intros Hinv. unfold swapFree_body.
  destruct (walkpgdir st pgdir i) as [pte |]; [| exact Hinv].
  destruct ((Z.land pte PTE_P =? 0) && negb (pte =? 0)); [| exact Hinv].
  destruct ((to_int (Z.shiftr (PTE_ADDR pte) 12) >=? 0)
            && (to_int (Z.shiftr (PTE_ADDR pte) 12) <? 800)); [| exact Hinv].
  apply slot_inv_freeslot. exact Hinv.
Qed.

Lemma swapFree_loop_slot_inv pgdir fuel : forall i st,
  slot_inv (slots st) -> slot_inv (slots (swapFree_loop fuel i st pgdir)).
Proof.
  induction fuel as [| fuel IH]; intros i st Hinv; [exact Hinv |].
  cbn [swapFree_loop]. destruct (i <? KERNBASE); [| exact Hinv].
  apply IH. apply swapFree_body_slot_inv. exact Hinv.
Qed.

Lemma swapFree_slot_inv st p :
  slot_inv (slots st) -> slot_inv (slots (swapFree st p)).
Proof.
  intros Hinv. unfold swapFree. destruct p as [i |]; [| exact Hinv].
  destruct (ptable st !! i) as [pr |]; [| exact Hinv].
  destruct (pgdir pr =? 0); [exact Hinv |].
  apply swapFree_loop_slot_inv. exact Hinv.
Qed.

(** The slot that [duplicateslot] ends up with, if any, is in use. *)
Lemma duplicateslot_slot_inv st parent_slot :
  slot_inv (slots st) -> slot_inv (slots (snd (duplicateslot st parent_slot))).
Proof.
  intros Hinv. unfold duplicateslot.
  destruct ((parent_slot <? 0) || (parent_slot >=? 800)
            || slot_is_free (slots st) parent_slot); [exact Hinv |].
  assert (Hchild : forall cs : Z * kstate,
    slot_inv (slots (snd cs)) ->
    ((fst cs <? 0) = false -> slot_is_free (slots (snd cs)) (fst cs) = false) ->
    slot_inv (slots (snd
      (let '(child_slot, st0) := cs in
       if child_slot <? 0 then (-1, st0)
       else
         let st1 := set_slot_perm st0 child_slot (slot_perm (slots st0) parent_slot) in
         (child_slot,
          copy_slot_loop 8 0 (to_uint (2 + parent_slot * 8))
            (to_uint (2 + child_slot * 8)) st1))))).
  { intros [c st0]. unfold fst, snd. intros Hi Hu.
    destruct (c <? 0); [exact Hi |].
    rewrite copy_slot_loop_shape, slots_with_disk. unfold set_slot_perm.
    rewrite slots_with_slots. apply slot_inv_set_perm; [apply Hu; reflexivity | exact Hi]. }
  assert (Hfind : forall s, slot_inv (slots s) ->
    slot_inv (slots (snd (findslot s))) /\
    ((fst (findslot s) <? 0) = false ->
     slot_is_free (slots (snd (findslot s))) (fst (findslot s)) = false))
    by (intros s; apply findslot_slot_inv).
  destruct (Hfind st Hinv) as [Hi1 Hu1].
  destruct (findslot st) as [c1 st1]. unfold fst, snd in Hi1, Hu1.
  destruct (c1 <? 0) eqn:Hc1.
  - destruct (Hfind (checkAswap st1) (checkAswap_slot_inv st1 Hi1)) as [Hi2 Hu2].
    destruct (findslot (checkAswap st1)) as [c2 st2]. unfold fst, snd in Hi2, Hu2.
    destruct (c2 <? 0) eqn:Hc2.
    + destruct (Hfind (checkAswap st2) (checkAswap_slot_inv st2 Hi2)) as [Hi3 Hu3].
      apply (Hchild (findslot (checkAswap st2)) Hi3 Hu3).
    + apply (Hchild (c2, st2)); unfold fst, snd; [exact Hi2 | intros _; auto].
  - apply (Hchild (c1, st1)); unfold fst, snd; [exact Hi1 | intros _; auto].
Qed.

(** C10.  Every slot marked free has [page_perm] 0: this holds after
    [swapInit], and each of [findslot], [freeslot], [duplicateslot],
    [swappageout], [swappage_in] and [swapFree] leads from a slot table
    where it holds to one where it holds. *)
Theorem free_slots_have_no_perm (st : kstate) :
  length (slots st) = 800%nat ->
  slot_inv (slots (swapInit st)) /\
  (slot_inv (slots st) ->
   slot_inv (slots (snd (findslot st))) /\
   (forall i, slot_inv (slots (freeslot st i))) /\
   (forall parent_slot, slot_inv (slots (snd (duplicateslot st parent_slot)))) /\
   (forall pgdir va pa, slot_inv (slots (snd (swappageout st pgdir va pa)))) /\
   (forall pgdir va, slot_inv (slots (snd (swappage_in st pgdir va)))) /\
   (forall p, slot_inv (slots (swapFree st p)))).
Proof.
  intros Hlen. split; [apply swapInit_slot_inv; exact Hlen |].
  intros Hinv. split; [apply findslot_slot_inv; exact Hinv |].
  split; [intros i; apply slot_inv_freeslot; exact Hinv |].
  split; [intros p; apply duplicateslot_slot_inv; exact Hinv |].
  split.
  { intros pgdir va pa. eapply slot_inv_evolution; [| exact Hinv].
    apply swappageout_frame. }
  split; [intros pgdir va; apply swappage_in_slot_inv; exact Hinv |].
  intros p. apply swapFree_slot_inv. exact Hinv.
Qed.

End SlotInvariant.

Lemma free_slots_have_no_perm_witness :
  slot_inv (slots (swapInit mapped_state)) /\
  slot_inv (slots (snd (swappageout (mp := xv6_x86) mapped_state example_pgdir
                          0x5000 0x123000))).
Proof.
  destruct (free_slots_have_no_perm (mp := xv6_x86) mapped_state) as [Hinit Hops];
    [reflexivity |].
  split; [exact Hinit |].
  destruct Hops as (_ & _ & _ & Hout & _); [| apply Hout].
  intros i s Hs _. apply list_elem_of_lookup_2 in Hs.
  apply elem_of_replicate in Hs as [-> _]. reflexivity.
Defined.
(** ** Eviction followed by fault-in *)

Section PageCopy.
Context {mp : mmu_params}.

Lemma memread_length m a n : length (memread m a n) = n.
Proof. unfold memread. rewrite length_map. apply length_seq. Qed.

Lemma memread_nth m a n k :
  (k < n)%nat -> nth k (memread m a n) x00 = m (a + Z.of_nat k).
Proof.
  intros Hk. unfold memread.
  rewrite (nth_indep _ x00 (m (a + Z.of_nat 0))) by (rewrite length_map, length_seq; exact Hk).
  rewrite (map_nth (fun k => m (a + Z.of_nat k)) (seq 0 n) 0%nat k).
  rewrite seq_nth by exact Hk. reflexivity.
Qed.

Lemma memread_ext m m' a a' n :
  (forall k, 0 <= k < Z.of_nat n -> m (a + k) = m' (a' + k)) ->
  memread m a n = memread m' a' n.
Proof.
  intros H. unfold memread. apply map_ext_in. intros k Hk.
  apply in_seq in Hk. apply H. lia.
Qed.

Lemma block_div_mod d i :
  i * 512 <= d < (i + 1) * 512 -> d / 512 = i /\ d mod 512 = d - i * 512.
Proof.
  intros Hd.
  assert (Hq : d / 512 = i).
  { symmetry. apply (Z.div_unique d 512 i (d - i * 512)); lia. }
  split; [exact Hq |].
  pose proof (Z.div_mod d 512 ltac:(lia)) as Hdm. rewrite Hq in Hdm. lia.
Qed.

Lemma bread_length st b : length (bread st b) = 512%nat.
Proof. unfold bread. apply length_resize. Qed.

(** After the read loop the frame holds the 8 blocks, in order. *)
Lemma read_page_loop_mem fuel blockno mem : forall i st x,
  0 <= blockno -> blockno + 8 <= 2 ^ 32 ->
  0 <= i -> i + Z.of_nat fuel = 8 ->
  kmemory (read_page_loop fuel i blockno mem st) x
  = if (mem + i * 512 <=? x) && (x <? mem + 4096)
    then nth (Z.to_nat ((x - mem) mod 512))
           (bread st (blockno + (x - mem) / 512)) x00
    else kmemory st x.
Proof.
  induction fuel as [| fuel IH]; intros i st x Hb0 Hb8 Hi Hsum.
  - cbn [read_page_loop].
    destruct (Z.leb_spec (mem + i * 512) x); destruct (Z.ltb_spec x (mem + 4096));
      cbn [andb]; try reflexivity. lia.
  - cbn [read_page_loop]. destruct (Z.ltb_spec i 8) as [Hlt | Hge]; [| lia].
    rewrite IH by lia. unfold bread at 1. rewrite disk_with_kmemory.
    fold (bread st (blockno + (x - mem) / 512)).
    rewrite kmemory_with_kmemory. unfold memwrite. rewrite bread_length.
    rewrite (to_uint_id (blockno + i)) by lia. unfold BSIZE.
    destruct (Z.leb_spec (mem + (i + 1) * 512) x);
      destruct (Z.ltb_spec x (mem + 4096));
      destruct (Z.leb_spec (mem + i * 512) x);
      destruct (Z.ltb_spec x (mem + i * 512 + Z.of_nat 512));
      cbn [andb]; try reflexivity; try lia.
    destruct (block_div_mod (x - mem) i ltac:(lia)) as [-> ->].
    f_equal. lia.
Qed.

Lemma read_page_contents blockno mem src m0 st :
  0 <= blockno -> blockno + 8 <= 2 ^ 32 ->
  (forall i, 0 <= i < 8 ->
     disk st (blockno + i) = memread m0 (src + i * 512) 512) ->
  memread (kmemory (read_page_loop 8 0 blockno mem st)) mem 4096
  = memread m0 src 4096.
Proof.
  intros Hb0 Hb8 Hdisk. apply memread_ext. intros k Hk.
  rewrite read_page_loop_mem by lia.
  destruct (Z.leb_spec (mem + 0 * 512) (mem + k)); [| lia].
  destruct (Z.ltb_spec (mem + k) (mem + 4096)); [| lia]. cbn [andb].
  replace (mem + k - mem) with k by lia.
  assert (Hq : 0 <= k / 512 < 8).
  { split; [apply Z.div_pos; lia | apply Z.div_lt_upper_bound; lia]. }
  assert (Hr : 0 <= k mod 512 < 512) by (apply Z.mod_pos_bound; lia).
  unfold bread. rewrite Hdisk by exact Hq.
  rewrite resize_all_alt by (rewrite memread_length; reflexivity).
  rewrite memread_nth by lia. f_equal.
  rewrite Z2Nat.id by lia.
  pose proof (Z.div_mod k 512 ltac:(lia)). lia.
Qed.

End PageCopy.

Section RoundTrip.
Context {mp : mmu_params} {mp_ok : mmu_params_ok mp}.

Lemma land_low_id x : 0 <= x < 4096 -> Z.land x 0xFFF = x.
Proof.
  intros Hx. change 0xFFF with (Z.ones 12). rewrite Z.land_ones by lia.
  apply Z.mod_small. lia.
Qed.

Lemma lor_low a b : 0 <= a < 4096 -> 0 <= b < 4096 -> 0 <= Z.lor a b < 4096.
Proof.
  intros Ha Hb. rewrite <- (land_low_id a Ha), <- (land_low_id b Hb).
  rewrite <- Z.land_lor_distr_l. apply low12_range.
Qed.

Lemma land_lor_same x p : Z.land (Z.lor x p) p = p.
Proof.
  apply Z.bits_inj'. intros n Hn. rewrite Z.land_spec, Z.lor_spec.
  destruct (Z.testbit x n), (Z.testbit p n); reflexivity.
Qed.

Lemma land_lnot_low_aligned v : Z.land v 0xFFF = 0 -> Z.land v (Z.lnot 0xFFF) = v.
Proof. intros H. rewrite <- Z.sub_land_same_l, H. lia. Qed.

Lemma land_lnot_low_flags f : 0 <= f < 4096 -> Z.land f (Z.lnot 0xFFF) = 0.
Proof. intros H. rewrite <- Z.sub_land_same_l, (land_low_id f H). lia. Qed.

Lemma P2V_V2P a : 0 <= a < 2 ^ 32 -> P2V (V2P a) = a.
Proof.
  intros Ha. unfold P2V, V2P. rewrite !to_uint_mod.
  rewrite Zplus_mod_idemp_l.
  replace (a - KERNBASE + KERNBASE) with a by lia.
  apply Z.mod_small. exact Ha.
Qed.

(** The entry that [swappageout] leaves is not present. *)
Lemma evicted_entry_not_present r f :
  Z.land (Z.lor (Z.shiftl r 12) (Z.land f (Z.lnot PTE_P))) PTE_P = 0.
Proof.
  pose proof PTE_P_low as HP.
  rewrite Z.land_lor_distr_l.
  rewrite (shiftl12_land_low r PTE_P) by lia.
  rewrite <- Z.land_assoc, (Z.land_comm (Z.lnot PTE_P)), Z.land_lnot_diag.
  rewrite Z.land_0_r. reflexivity.
Qed.

(** The entry that [mappages] installs for a frame with flags [f]. *)
Lemma installed_entry v f :
  0 <= v -> Z.land v 0xFFF = 0 -> 0 <= f < 4096 ->
  let pte := Z.lor (Z.lor v (Z.lor f PTE_P)) PTE_P in
  Z.land pte PTE_P <> 0 /\
  Z.land pte 0xFFF = Z.lor f PTE_P /\
  PTE_ADDR pte = v.
Proof.
  intros Hv Hal Hf. cbv zeta. pose proof PTE_P_low as HP.
  assert (Hfp : 0 <= Z.lor f PTE_P < 4096) by (apply lor_low; lia).
  assert (Hpte : Z.lor (Z.lor v (Z.lor f PTE_P)) PTE_P = Z.lor v (Z.lor f PTE_P)).
  { rewrite <- !Z.lor_assoc, Z.lor_diag. reflexivity. }
  split; [rewrite land_lor_same; lia |].
  rewrite Hpte. split.
  - rewrite Z.land_lor_distr_l, Hal, Z.lor_0_l. apply land_low_id. exact Hfp.
  - unfold PTE_ADDR. rewrite Z.land_lor_distr_l.
    rewrite (land_lnot_low_aligned v Hal), (land_lnot_low_flags _ Hfp).
    apply Z.lor_0_r.
Qed.

Lemma kalloc_frame st :
  evict_frame st (snd (kalloc st)) /\
  (Forall frame_ok (freelist st) ->
   fst (kalloc st) = 0 \/ frame_ok (fst (kalloc st))).
Proof.
  unfold kalloc. destruct (freelist st) as [| a rest] eqn:Hfl; unfold fst, snd.
  - split; [apply evict_frame_refl | left; reflexivity].
  - split.
    + apply evict_frame_other; try reflexivity.
      rewrite freelist_with_freelist, Hfl. intros H.
      apply Forall_cons in H as [_ H]. exact H.
    + intros H. apply Forall_cons in H as [H _]. right. exact H.
Qed.

(** The frame that [swappage_in] gets, at once or after [checkAswap]. *)
Lemma swappage_in_alloc st :
  Forall frame_ok (freelist st) ->
  let res := (let '(m, s) := kalloc st in
              if m =? 0 then kalloc (checkAswap s) else (m, s)) in
  evict_frame st (snd res) /\ (fst res = 0 \/ frame_ok (fst res)).
Proof.
  intros Hfl. cbv zeta.
  destruct (kalloc_frame st) as [Hf1 Hm1]. specialize (Hm1 Hfl).
  destruct (kalloc st) as [m s]. unfold fst, snd in Hf1, Hm1.
  destruct (Z.eqb_spec m 0) as [-> | Hm].
  - destruct (kalloc_frame (checkAswap s)) as [Hf2 Hm2].
    assert (Hf : evict_frame st (checkAswap s)).
    { eapply evict_frame_trans; [exact Hf1 | apply checkAswap_frame]. }
    split.
    + eapply evict_frame_trans; [exact Hf | exact Hf2].
    + apply Hm2. destruct Hf as (_ & _ & _ & _ & Hfr). apply Hfr. exact Hfl.
  - unfold fst, snd. split; [exact Hf1 |]. destruct Hm1; [contradiction | right; assumption].
Qed.

(** [swappage_in] past its early returns. *)
Lemma swappage_in_swapped st pgdir va pte r :
  0 <= va < 2 ^ 32 ->
  walkpgdir st pgdir va = Some pte -> Z.land pte PTE_P = 0 ->
  slot_of pte = r -> 0 <= r < 800 -> slot_is_free (slots st) r = false ->
  swappage_in st pgdir va =
    (let '(mem, sa) := (let '(m, s) := kalloc st in
                        if m =? 0 then kalloc (checkAswap s) else (m, s)) in
     if mem =? 0 then (-1, sa)
     else
       let st_r := read_page_loop 8 0 (to_uint (2 + r * 8)) mem sa in
       let '(res, st4) :=
         mappages st_r pgdir (PGROUNDDOWN va) (V2P mem)
           (Z.lor (to_uint (slot_perm (slots st_r) r)) PTE_P) in
       if res <? 0 then (-1, kfree st4 mem)
       else (0, match cpu_proc (freeslot st4 r) with
                | Some p => set_rss (freeslot st4 r) p
                              (to_int (proc_rss (freeslot st4 r) p + 1))
                | None => freeslot st4 r
                end)).
Proof.
  intros Hva Hw HP Hslot Hr Hused. unfold swappage_in.
  rewrite (to_uint_id va) by exact Hva.
  rewrite walkpgdir_PGROUNDDOWN, Hw, HP. cbn [Z.eqb negb].
  fold (slot_of pte). rewrite Hslot, Hused.
  destruct (Z.ltb_spec r 0); [lia |]. destruct (Z.geb_spec r 800); [lia |].
  cbn [orb].
  destruct (kalloc st) as [m s].
  destruct (if m =? 0 then kalloc (checkAswap s) else (m, s)) as [mem sa].
  reflexivity.
Qed.

End RoundTrip.

Section RoundTripClaim.
Context {mp : mmu_params} {mp_ok : mmu_params_ok mp}.

(** The state that a successful [swappageout] leaves, as far as the
    fault-in depends on it. *)
Lemma swappageout_success st0 pgdir va pa pte0 :
  walkpgdir st0 pgdir va = Some pte0 ->
  fst (swappageout st0 pgdir va pa) = 0 ->
  let st1 := snd (swappageout st0 pgdir va pa) in
  let r := fst (findslot st0) in
  let F := Z.land pte0 0xFFF in
  let pte1 := Z.lor (Z.shiftl r 12) (Z.land F (Z.lnot PTE_P)) in
  0 <= r < 800 /\
  walkpgdir st1 pgdir va = Some pte1 /\
  slots st1 !! Z.to_nat r = Some (mk_slot F 0) /\
  (forall i, 0 <= i < 8 ->
     disk st1 (2 + r * 8 + i) = memread (kmemory st0) (P2V pa + i * 512) 512) /\
  freelist st1 = freelist st0.
Proof.
  intros Hw Hok. cbv zeta.
  destruct (swappageout_cases st0 pgdir va pa) as
    [(_ & Hout) | [(r & st01 & _ & _ & _ & _ & Hout)
                  | (r & st01 & pte & Hfs & Hrng & Hst01 & Hw' & HP & Hout)]];
    try (rewrite Hout in Hok; discriminate).
  rewrite Hw in Hw'. injection Hw' as <-. rewrite Hout, Hfs. unfold fst, snd.
  assert (Hfree : slot_is_free (slots st0) r = true).
  { destruct (findslot_cases st0) as [(E & _) | (r' & E & _ & Hf & _)];
      rewrite E in Hfs; injection Hfs as <- _; [lia | exact Hf]. }
  set (F := Z.land pte0 0xFFF).
  set (st2 := set_slot_perm st01 r F).
  set (st3 := write_page_loop 8 0 (to_uint (2 + r * 8)) pa st2).
  assert (Hst3 : st3 = with_disk st2 (disk st3))
    by exact (write_page_loop_shape 8 0 _ pa st2).
  assert (Hsl2 : slots st2
    = alter ((fun s => mk_slot F (is_free s)) ∘ mark_used) (Z.to_nat r) (slots st0)).
  { unfold st2, set_slot_perm. rewrite slots_with_slots, Hst01, slots_with_slots.
    apply list_alter_alter_eq. }
  assert (Hpg3 : pgdirs st3 = pgdirs st0).
  { rewrite Hst3, pgdirs_with_disk. unfold st2, set_slot_perm.
    rewrite pgdirs_with_slots, Hst01. apply pgdirs_with_slots. }
  split; [exact Hrng |]. split; [| split; [| split]].
  - rewrite (walkpgdir_ext _ _ pgdir va (pgdirs_emit _ _)).
    apply walkpgdir_set_pte_same.
    rewrite (walkpgdir_ext st0 st3) by exact Hpg3. rewrite Hw. eauto.
  - rewrite slots_emit. unfold set_pte. rewrite slots_with_pgdirs.
    rewrite Hst3, slots_with_disk, Hsl2, list_lookup_alter_eq.
    unfold slot_is_free in Hfree.
    destruct (slots st0 !! Z.to_nat r) as [s0 |]; [reflexivity | discriminate].
  - intros i Hi. rewrite disk_emit. unfold set_pte. rewrite disk_with_pgdirs.
    unfold st3. rewrite (to_uint_id (2 + r * 8)) by lia.
    rewrite write_page_loop_disk by lia.
    destruct (Z.leb_spec (2 + r * 8 + 0) (2 + r * 8 + i)); [| lia].
    destruct (Z.ltb_spec (2 + r * 8 + i) (2 + r * 8 + 8)); [| lia]. cbn [andb].
    replace (2 + r * 8 + i - (2 + r * 8)) with i by lia.
    unfold st2, set_slot_perm. rewrite kmemory_with_slots, Hst01, kmemory_with_slots.
    reflexivity.
  - rewrite freelist_emit. unfold set_pte. rewrite freelist_with_pgdirs.
    rewrite Hst3, freelist_with_disk. unfold st2, set_slot_perm.
    rewrite freelist_with_slots, Hst01. apply freelist_with_slots.
Qed.

(** A fault on an entry that names the slot [r] of a page with flags
    [F], when the 8 blocks of the slot hold the page at [src] of [m0]. *)
Lemma swappage_in_restores st1 pgdir va r F m0 src :
  Forall frame_ok (freelist st1) ->
  0 <= va < 2 ^ 32 -> 0 <= r < 800 -> 0 <= F < 4096 ->
  walkpgdir st1 pgdir va = Some (Z.lor (Z.shiftl r 12) (Z.land F (Z.lnot PTE_P))) ->
  slots st1 !! Z.to_nat r = Some (mk_slot F 0) ->
  (forall i, 0 <= i < 8 ->
     disk st1 (2 + r * 8 + i) = memread m0 (src + i * 512) 512) ->
  fst (swappage_in st1 pgdir va) = 0 ->
  let st2 := snd (swappage_in st1 pgdir va) in
  exists pte2,
    walkpgdir st2 pgdir va = Some pte2 /\ Z.land pte2 PTE_P <> 0 /\
    Z.land pte2 0xFFF = Z.lor F PTE_P /\
    memread (kmemory st2) (P2V (PTE_ADDR pte2)) 4096 = memread m0 src 4096 /\
    slot_is_free (slots st2) r = true.
Proof.
  intros Hfl Hva Hr HF Hw Hslot Hdisk Hin. cbv zeta.
  set (pte1 := Z.lor (Z.shiftl r 12) (Z.land F (Z.lnot PTE_P))) in *.
  assert (Hb : 0 <= Z.land F (Z.lnot PTE_P) < 4096).
  { rewrite <- (land_low_id F HF), <- Z.land_assoc, (Z.land_comm 0xFFF), Z.land_assoc.
    apply low12_range. }
  assert (Hpte1 : pte1 = r * 4096 + Z.land F (Z.lnot PTE_P)).
  { unfold pte1. apply shiftl12_lor_low. exact Hb. }
  assert (HP1 : Z.land pte1 PTE_P = 0) by apply evicted_entry_not_present.
  assert (Hdec : slot_of pte1 = r).
  { unfold slot_of. destruct (decode_slot_index pte1) as [-> _]; [rewrite Hpte1; lia |].
    rewrite Hpte1. apply shiftr12_slot. exact Hb. }
  assert (Hused : slot_is_free (slots st1) r = false).
  { unfold slot_is_free. rewrite Hslot. reflexivity. }
  rewrite (swappage_in_swapped st1 pgdir va pte1 r Hva Hw HP1 Hdec Hr Hused) in Hin |- *.
  destruct (swappage_in_alloc st1 Hfl) as [Hfr Hmem].
  destruct (let '(m, s) := kalloc st1 in
            if m =? 0 then kalloc (checkAswap s) else (m, s)) as [mem sa].
  unfold fst, snd in Hfr, Hmem.
  destruct (Z.eqb_spec mem 0) as [Hz | Hnz]; [discriminate |].
  destruct Hmem as [Hz | [Hmrng Hmal]]; [contradiction |].
  destruct Hfr as (Hev & Hdk & Hpt & _ & _).
  assert (Hwa : walkpgdir sa pgdir va = Some pte1) by (apply Hpt; assumption).
  assert (Hsa : slots sa !! Z.to_nat r = Some (mk_slot F 0)).
  { rewrite (alloc_evolution_perm _ _ r Hev Hused). exact Hslot. }
  assert (Hda : forall i, 0 <= i < 8 ->
            disk sa (2 + r * 8 + i) = memread m0 (src + i * 512) 512).
  { intros i Hi. rewrite Hdk by assumption. apply Hdisk. exact Hi. }
  cbv zeta in Hin |- *.
  rewrite (to_uint_id (2 + r * 8)) in Hin |- * by lia.
  set (st_r := read_page_loop 8 0 (2 + r * 8) mem sa) in *.
  assert (Hshape : st_r = with_kmemory sa (kmemory st_r))
    by exact (read_page_loop_shape 8 0 _ mem sa).
  assert (Hmemr : memread (kmemory st_r) mem 4096 = memread m0 src 4096).
  { unfold st_r. apply read_page_contents; [lia | lia | exact Hda]. }
  assert (Hslr : slots st_r = slots sa) by (rewrite Hshape; apply slots_with_kmemory).
  assert (Hpgr : pgdirs st_r = pgdirs sa) by (rewrite Hshape; apply pgdirs_with_kmemory).
  clearbody st_r.
  assert (Hperm : to_uint (slot_perm (slots st_r) r) = F).
  { unfold slot_perm. rewrite Hslr, Hsa. cbn [page_perm]. apply to_uint_id. lia. }
  rewrite Hperm in Hin |- *.
  assert (Hwr : walkpgdir st_r pgdir (PGROUNDDOWN va) = Some pte1).
  { rewrite walkpgdir_PGROUNDDOWN, (walkpgdir_ext sa st_r) by exact Hpgr. exact Hwa. }
  destruct (mappages_cases st_r pgdir (PGROUNDDOWN va) (V2P mem) (Z.lor F PTE_P))
    as [(_ & Hnone) | (Hmap & _)]; [rewrite Hnone in Hwr; discriminate |].
  rewrite Hmap in Hin |- *. cbn [Z.ltb Z.compare] in Hin |- *. unfold snd.
  set (pte2 := Z.lor (Z.lor (V2P mem) (Z.lor F PTE_P)) PTE_P).
  set (st4 := set_pte st_r pgdir (PGROUNDDOWN va) pte2).
  assert (Hw4 : walkpgdir st4 pgdir va = Some pte2).
  { rewrite <- walkpgdir_PGROUNDDOWN. apply walkpgdir_set_pte_same.
    rewrite Hwr. eauto. }
  assert (Hk4 : kmemory st4 = kmemory st_r) by apply kmemory_with_pgdirs.
  assert (Hs4 : slots st4 = slots st_r) by apply slots_with_pgdirs.
  clearbody st4.
  assert (Hfs : freeslot st4 r = with_slots st4 (<[Z.to_nat r := mk_slot 0 1]> (slots st4)))
    by (apply freeslot_in_range; exact Hr).
  set (st5 := freeslot st4 r) in *.
  assert (Hw5 : walkpgdir st5 pgdir va = Some pte2).
  { rewrite (walkpgdir_ext st4 st5); [exact Hw4 |]. rewrite Hfs. apply pgdirs_with_slots. }
  assert (Hk5 : kmemory st5 = kmemory st_r).
  { rewrite Hfs, kmemory_with_slots. exact Hk4. }
  assert (Hs5 : slot_is_free (slots st5) r = true).
  { rewrite Hfs, slots_with_slots. unfold slot_is_free.
    rewrite list_lookup_insert_eq; [reflexivity |].
    rewrite Hs4, Hslr. apply lookup_lt_Some in Hsa. exact Hsa. }
  clearbody st5.
  destruct (installed_entry (V2P mem) F) as (Hpres & Hflags & Haddr);
    [apply to_uint_range | exact Hmal | exact HF |].
  fold pte2 in Hpres, Hflags, Haddr.
  assert (Hfin : forall st6, pgdirs st6 = pgdirs st5 -> kmemory st6 = kmemory st5 ->
            slots st6 = slots st5 ->
            exists pte, walkpgdir st6 pgdir va = Some pte /\ Z.land pte PTE_P <> 0 /\
              Z.land pte 0xFFF = Z.lor F PTE_P /\
              memread (kmemory st6) (P2V (PTE_ADDR pte)) 4096 = memread m0 src 4096 /\
              slot_is_free (slots st6) r = true).
  { intros st6 Hp6 Hk6 Hs6. exists pte2.
    split; [rewrite (walkpgdir_ext st5 st6) by exact Hp6; exact Hw5 |].
    split; [exact Hpres |]. split; [exact Hflags |]. split.
    - rewrite Hk6, Hk5, Haddr, (P2V_V2P mem Hmrng). exact Hmemr.
    - rewrite Hs6. exact Hs5. }
  destruct (cpu_proc st5) as [p |].
  - apply Hfin; reflexivity.
  - apply Hfin; reflexivity.
Qed.

(** C5.  A page evicted by [swappageout] and then faulted back in by
    [swappage_in] (at any address of the page) is restored: the entry is
    present again, its low 12 bits are the flags F it had before the
    eviction with the present flag set, and the frame it now names holds
    the 4096 bytes that the evicted frame held.  The slot used in between
    is free again.  The free list is a list of page frames. *)
Theorem swap_round_trip (st0 : kstate) (pgdir va pa va' pte0 : Z) :
  Forall frame_ok (freelist st0) ->
  walkpgdir st0 pgdir va = Some pte0 ->
  0 <= va' < 2 ^ 32 -> Z.shiftr va' 12 = Z.shiftr va 12 ->
  fst (swappageout st0 pgdir va pa) = 0 ->
  fst (swappage_in (snd (swappageout st0 pgdir va pa)) pgdir va') = 0 ->
  let st2 := snd (swappage_in (snd (swappageout st0 pgdir va pa)) pgdir va') in
  exists pte2,
    walkpgdir st2 pgdir va = Some pte2 /\ Z.land pte2 PTE_P <> 0 /\
    Z.land pte2 0xFFF = Z.lor (Z.land pte0 0xFFF) PTE_P /\
    memread (kmemory st2) (P2V (PTE_ADDR pte2)) 4096
    = memread (kmemory st0) (P2V pa) 4096 /\
    slot_is_free (slots st2) (fst (findslot st0)) = true.
Proof.
  intros Hfl Hw0 Hva' Hvpn Hout Hin. cbv zeta.
  destruct (swappageout_success st0 pgdir va pa pte0 Hw0 Hout)
    as (Hr & Hw1 & Hslot & Hdisk & Hfl1).
  set (st1 := snd (swappageout st0 pgdir va pa)) in *. clearbody st1.
  set (r := fst (findslot st0)) in *. clearbody r.
  rewrite <- Hfl1 in Hfl.
  rewrite <- (walkpgdir_vpn st1 pgdir va' va Hvpn) in Hw1.
  destruct (swappage_in_restores st1 pgdir va' r (Z.land pte0 0xFFF)
              (kmemory st0) (P2V pa) Hfl Hva' Hr (low12_range pte0) Hw1 Hslot Hdisk Hin)
    as (pte2 & Hw2 & Hrest).
  exists pte2. split; [| exact Hrest].
  rewrite <- (walkpgdir_vpn _ pgdir va' va Hvpn). exact Hw2.
Qed.

End RoundTripClaim.

(** The round trip run on the code, with the x86 constants: page 5 goes
    to slot 0 and comes back on the frame at kernel address 0x8dffe000
    with its flags 0x067 and its bytes. *)
Example round_trip_run :
  let st1 := snd (swappageout (mp := xv6_x86) roundtrip_state example_pgdir
                    0x5000 0x123000) in
  let st2 := snd (swappage_in (mp := xv6_x86) st1 example_pgdir 0x5abc) in
  walkpgdir st1 example_pgdir 0x5000 = Some 0x066 /\
  walkpgdir st2 example_pgdir 0x5000 = Some 0x0dffe067 /\
  memread (kmemory st2) 0x8dffe000 4096
  = memread (kmemory roundtrip_state) 0x80123000 4096 /\
  slot_is_free (slots st2) 0 = true.
Proof. vm_compute. repeat split. Qed.

Lemma swap_round_trip_witness :
  let st2 := snd (swappage_in (mp := xv6_x86)
                    (snd (swappageout (mp := xv6_x86) roundtrip_state example_pgdir
                            0x5000 0x123000)) example_pgdir 0x5abc) in
  exists pte2,
    walkpgdir st2 example_pgdir 0x5000 = Some pte2 /\ Z.land pte2 0x001 <> 0 /\
    Z.land pte2 0xFFF = Z.lor (Z.land 0x123067 0xFFF) 0x001 /\
    memread (kmemory st2) (P2V (mp := xv6_x86) (PTE_ADDR pte2)) 4096
    = memread (kmemory roundtrip_state) (P2V (mp := xv6_x86) 0x123000) 4096 /\
    slot_is_free (slots st2) (fst (findslot roundtrip_state)) = true.
Proof.
  apply (swap_round_trip (mp := xv6_x86) (mp_ok := xv6_x86_ok) roundtrip_state
           example_pgdir 0x5000 0x123000 0x5abc 0x123067).
  - apply Forall_cons_2; [| apply Forall_nil_2].
    split; [vm_compute; split; [discriminate | reflexivity] | reflexivity].
  - reflexivity.
  - lia.
  - reflexivity.
  - vm_compute. reflexivity.
  - vm_compute. reflexivity.
Defined.

(** * Further properties *)

(** ** Allocation order of the slots *)

Lemma findslot_first st r :
  0 <= r < 800 -> slot_is_free (slots st) r = true ->
  (forall j, 0 <= j < r -> slot_is_free (slots st) j = false) ->
  findslot st = (r, with_slots st (alter mark_used (Z.to_nat r) (slots st))).
Proof.
  intros Hr Hfree Hbefore.
  destruct (findslot_cases st) as [(_ & Hall) | (r' & Hfs & Hr' & Hfree' & Hbefore')].
  - rewrite Hall in Hfree by exact Hr. discriminate.
  - destruct (Z.lt_trichotomy r' r) as [Hlt | [-> | Hgt]].
    + rewrite Hbefore in Hfree' by lia. discriminate.
    + exact Hfs.
    + rewrite Hbefore' in Hfree by lia. discriminate.
Qed.

Lemma slot_is_free_alter_other sl (f : swap_slot -> swap_slot) i j :
  0 <= i -> 0 <= j -> i <> j ->
  slot_is_free (alter f (Z.to_nat i) sl) j = slot_is_free sl j.
Proof.
  intros Hi Hj Hne. unfold slot_is_free.
  rewrite list_lookup_alter_ne by lia. reflexivity.
Qed.

Lemma slot_is_free_insert_free sl i j :
  0 <= i -> 0 <= j -> (Z.to_nat i < length sl)%nat ->
  slot_is_free (<[Z.to_nat i := mk_slot 0 1]> sl) j
  = if Z.eqb j i then true else slot_is_free sl j.
Proof.
  intros Hi Hj Hlen. unfold slot_is_free.
  destruct (Z.eqb_spec j i) as [-> | Hne].
  - rewrite list_lookup_insert_eq by exact Hlen. reflexivity.
  - rewrite list_lookup_insert_ne by lia. reflexivity.
Qed.

(** X1.  Two allocations in a row that both succeed hand out different
    slots, the second above the first: the second is the next slot that
    was free before the first call. *)
Theorem findslot_twice (st : kstate) :
  let r1 := fst (findslot st) in
  let st1 := snd (findslot st) in
  let r2 := fst (findslot st1) in
  r1 <> -1 -> r2 <> -1 ->
  r1 < r2 < 800 /\
  slot_is_free (slots st) r2 = true /\
  (forall j, r1 < j < r2 -> slot_is_free (slots st) j = false).
Proof.
  cbv zeta.
  destruct (findslot_cases st) as [(-> & _) | (r1 & -> & Hr1 & Hfree1 & Hbefore1)];
    unfold fst at 1 2 3 4, snd; [intros H; elim H; reflexivity |].
  set (st1 := with_slots st (alter mark_used (Z.to_nat r1) (slots st))).
  assert (Hsl : forall j, 0 <= j -> j <> r1 ->
            slot_is_free (slots st1) j = slot_is_free (slots st) j).
  { intros j Hj Hne. unfold st1. rewrite slots_with_slots.
    apply slot_is_free_alter_other; lia. }
  assert (Hused : slot_is_free (slots st1) r1 = false).
  { unfold st1. rewrite slots_with_slots. apply slot_is_free_alter_used. }
  destruct (findslot_cases st1) as [(-> & _) | (r2 & -> & Hr2 & Hfree2 & Hbefore2)];
    unfold fst; [intros _ H; elim H; reflexivity |].
  intros _ _.
  assert (Hne : r2 <> r1) by (intros ->; rewrite Hused in Hfree2; discriminate).
  assert (Hlt : r1 < r2).
  { destruct (Z.lt_ge_cases r1 r2) as [H | H]; [exact H |].
    rewrite Hsl in Hfree2 by lia.
    rewrite Hbefore1 in Hfree2 by lia. discriminate. }
  split; [lia |]. split.
  - rewrite <- Hsl by lia. exact Hfree2.
  - intros j Hj. rewrite <- Hsl by lia. apply Hbefore2. lia.
Qed.

Lemma findslot_twice_witness :
  fst (findslot boot) < fst (findslot (snd (findslot boot))) < 800.
Proof.
  destruct (findslot_twice boot) as [H _];
    [vm_compute; discriminate | vm_compute; discriminate | exact H].
Defined.

(** X2.  Taking a slot and releasing it again gives back the state as it
    was, when the slot was in the state in which [swapInit] and
    [freeslot] leave a free slot. *)
Theorem findslot_freeslot_round_trip (st : kstate) :
  fst (findslot st) <> -1 ->
  slots st !! Z.to_nat (fst (findslot st)) = Some (mk_slot 0 1) ->
  freeslot (snd (findslot st)) (fst (findslot st)) = st.
Proof.
  destruct (findslot_cases st) as [(-> & _) | (r & -> & Hr & _ & _)];
    unfold fst, snd; [intros H; elim H; reflexivity |].
  intros _ Hs. rewrite freeslot_in_range by exact Hr.
  rewrite slots_with_slots, with_slots_with_slots.
  transitivity (with_slots st (slots st)); [| apply with_slots_same].
  f_equal. apply list_eq. intros n. destruct (decide (n = Z.to_nat r)) as [-> | Hne].
  - rewrite list_lookup_insert_eq; [symmetry; exact Hs |].
    rewrite length_alter. apply lookup_lt_Some in Hs. exact Hs.
  - rewrite list_lookup_insert_ne, list_lookup_alter_ne by congruence. reflexivity.
Qed.

Lemma findslot_freeslot_round_trip_witness :
  freeslot (snd (findslot boot)) (fst (findslot boot)) = boot.
Proof.
  apply findslot_freeslot_round_trip; [vm_compute; discriminate | reflexivity].
Defined.

(** X3.  After slot [i] of the 800 is released, the next allocation
    returns [i], unless a slot below [i] was free already, which is then
    returned as it would have been without the release. *)
Theorem freeslot_then_findslot (st : kstate) (i : Z) :
  length (slots st) = 800%nat -> 0 <= i < 800 ->
  fst (findslot (freeslot st i))
  = if (0 <=? fst (findslot st)) && (fst (findslot st) <? i)
    then fst (findslot st) else i.
Proof.
  intros Hlen Hi. rewrite freeslot_in_range by exact Hi.
  set (st' := with_slots st (<[Z.to_nat i := mk_slot 0 1]> (slots st))).
  assert (Hsl : forall j, 0 <= j ->
            slot_is_free (slots st') j
            = if Z.eqb j i then true else slot_is_free (slots st) j).
  { intros j Hj. unfold st'. rewrite slots_with_slots.
    apply slot_is_free_insert_free; lia. }
  assert (Hgoal : forall r, 0 <= r < 800 -> slot_is_free (slots st') r = true ->
            (forall j, 0 <= j < r -> slot_is_free (slots st') j = false) ->
            fst (findslot st') = r).
  { intros r Hr Hf Hb. rewrite (findslot_first st' r Hr Hf Hb). reflexivity. }
  destruct (findslot_cases st) as [(-> & Hall) | (r & -> & Hr & Hfree & Hbefore)];
    unfold fst at 2 3 4.
  - cbn [Z.leb Z.compare andb]. apply Hgoal; [exact Hi | |].
    + rewrite Hsl, Z.eqb_refl by lia. reflexivity.
    + intros j Hj. rewrite Hsl by lia.
      destruct (Z.eqb_spec j i); [lia | apply Hall; lia].
  - destruct (Z.leb_spec 0 r); [| lia]. cbn [andb].
    destruct (Z.ltb_spec r i) as [Hlt | Hge].
    + apply Hgoal; [exact Hr | |].
      * rewrite Hsl by lia. destruct (Z.eqb_spec r i); [reflexivity | exact Hfree].
      * intros j Hj. rewrite Hsl by lia.
        destruct (Z.eqb_spec j i); [lia | apply Hbefore; lia].
    + apply Hgoal; [exact Hi | |].
      * rewrite Hsl, Z.eqb_refl by lia. reflexivity.
      * intros j Hj. rewrite Hsl by lia.
        destruct (Z.eqb_spec j i); [lia | apply Hbefore; lia].
Qed.

Lemma freeslot_then_findslot_witness :
  fst (findslot (freeslot exiting_state 11)) = 0 /\
  fst (findslot (freeslot (snd (findslot (snd (findslot boot)))) 0)) = 0.
Proof.
  split.
  - rewrite (freeslot_then_findslot exiting_state 11); [reflexivity | reflexivity | lia].
  - rewrite freeslot_then_findslot; [reflexivity | reflexivity | lia].
Defined.

(** X4.  [swapInit] on the 800-entry table leaves every slot free with
    no permissions, whatever the table held, and changes nothing else but
    the console; the first allocation after it returns slot 0. *)
Theorem swapInit_resets (st : kstate) :
  length (slots st) = 800%nat ->
  swapInit st
  = emit (with_slots st (replicate 800 (mk_slot 0 1))) PrintSwapInit /\
  fst (findslot (swapInit st)) = 0.
Proof.
  intros Hlen.
  assert (Hsl : swapInit_loop 800 0 (slots st) = replicate 800 (mk_slot 0 1)).
  { destruct (swapInit_loop_spec 800 0 (slots st)) as [Hl Hall]; [lia | lia |].
    apply list_eq. intros n.
    destruct (swapInit_loop 800 0 (slots st) !! n) as [s |] eqn:Hs.
    - destruct (Hall n s Hs) as [(Hn & _) | [(Hn & ->) | (Hn & Hsl)]]; [lia | |].
      + symmetry. apply lookup_replicate_2. lia.
      + apply lookup_lt_Some in Hsl. lia.
    - symmetry. apply lookup_replicate_None.
      apply lookup_ge_None in Hs. lia. }
  unfold swapInit. rewrite Hsl. split; [reflexivity |].
  set (st' := emit _ _).
  rewrite (findslot_first st' 0); [reflexivity | lia | reflexivity |].
  intros j Hj. lia.
Qed.

Lemma swapInit_resets_witness :
  slots (swapInit exiting_state) = replicate 800 (mk_slot 0 1).
Proof.
  destruct (swapInit_resets exiting_state) as [H _]; [reflexivity |].
  rewrite H. reflexivity.
Defined.

(** ** Duplicating a slot *)

Section Duplicate.
Context {mp : mmu_params}.

Lemma copy_slot_loop_disk fuel pb cb : forall i st b,
  0 <= pb -> pb + 8 <= 2 ^ 32 -> 0 <= cb -> cb + 8 <= 2 ^ 32 ->
  pb + 8 <= cb \/ cb + 8 <= pb ->
  0 <= i -> i + Z.of_nat fuel = 8 ->
  disk (copy_slot_loop fuel i pb cb st) b
  = if (cb + i <=? b) && (b <? cb + 8)
    then bread st (pb + (b - cb))
    else disk st b.
Proof.
  induction fuel as [| fuel IH]; intros i st b Hp0 Hp8 Hc0 Hc8 Hdisj Hi Hsum.
  - cbn [copy_slot_loop].
    destruct (Z.leb_spec (cb + i) b); destruct (Z.ltb_spec b (cb + 8));
      cbn [andb]; try reflexivity. lia.
  - cbn [copy_slot_loop]. destruct (Z.ltb_spec i 8) as [Hlt | Hge]; [| lia].
    rewrite IH by lia.
    rewrite (to_uint_id (cb + i)), (to_uint_id (pb + i)) by lia.
    unfold bwrite, bread. rewrite !disk_with_disk.
    destruct (Z.leb_spec (cb + (i + 1)) b); destruct (Z.ltb_spec b (cb + 8));
      destruct (Z.leb_spec (cb + i) b); cbn [andb]; try lia;
      repeat match goal with
             | |- context [Z.eqb ?x ?y] => destruct (Z.eqb_spec x y)
             end; try lia; try reflexivity.
    subst b. replace (cb + i - cb) with i by lia. reflexivity.
Qed.

(** [duplicateslot] with a parent slot that is in use: the evictions of
    the retries, if any, and then the last [findslot] decides. *)
Lemma duplicateslot_run st parent_slot :
  0 <= parent_slot < 800 -> slot_is_free (slots st) parent_slot = false ->
  exists s_pre, evict_frame st s_pre /\
    duplicateslot st parent_slot
    = (let '(c, s0) := findslot s_pre in
       if c <? 0 then (-1, s0)
       else (c, copy_slot_loop 8 0 (to_uint (2 + parent_slot * 8))
                  (to_uint (2 + c * 8))
                  (set_slot_perm s0 c (slot_perm (slots s0) parent_slot)))).
Proof.
  intros Hp Hused. unfold duplicateslot.
  destruct (Z.ltb_spec parent_slot 0); [lia |].
  destruct (Z.geb_spec parent_slot 800); [lia |].
  rewrite Hused. cbn [orb].
  destruct (findslot_cases st) as [(E1 & _) | (r1 & E1 & Hr1 & _)].
  - rewrite E1. cbn [Z.ltb Z.compare].
    destruct (findslot_cases (checkAswap st)) as [(E2 & _) | (r2 & E2 & Hr2 & _)].
    + rewrite E2. cbn [Z.ltb Z.compare].
      exists (checkAswap (checkAswap st)). split.
      * eapply evict_frame_trans; apply checkAswap_frame.
      * destruct (findslot (checkAswap (checkAswap st))) as [c s0]. reflexivity.
    + exists (checkAswap st). split; [apply checkAswap_frame |].
      assert (Hlt : (r2 <? 0) = false) by (apply Z.ltb_ge; lia).
      rewrite E2. cbv beta iota. rewrite ?Hlt. cbv beta iota. rewrite ?Hlt.
      reflexivity.
  - exists st. split; [apply evict_frame_refl |].
    assert (Hlt : (r1 <? 0) = false) by (apply Z.ltb_ge; lia).
    rewrite E1. cbv beta iota. rewrite ?Hlt. cbv beta iota. rewrite ?Hlt.
    reflexivity.
Qed.

(** X5.  When [duplicateslot] returns a slot, the parent slot was valid
    and in use, the child is another slot, now in use, with the
    permissions of the parent, its 8 blocks hold what the 8 blocks of the
    parent held, and the parent slot and its blocks are as they were. *)
Theorem duplicateslot_copies (st : kstate) (parent_slot : Z) :
  let c := fst (duplicateslot st parent_slot) in
  let st' := snd (duplicateslot st parent_slot) in
  c <> -1 ->
  0 <= parent_slot < 800 /\ slot_is_free (slots st) parent_slot = false /\
  0 <= c < 800 /\ c <> parent_slot /\
  slot_is_free (slots st') c = false /\
  slot_perm (slots st') c = slot_perm (slots st) parent_slot /\
  slots st' !! Z.to_nat parent_slot = slots st !! Z.to_nat parent_slot /\
  forall i, 0 <= i < 8 ->
    disk st' (2 + c * 8 + i) = bread st (2 + parent_slot * 8 + i) /\
    disk st' (2 + parent_slot * 8 + i) = disk st (2 + parent_slot * 8 + i).
Proof.
  cbv zeta. intros Hc.
  assert (Hvalid : 0 <= parent_slot < 800 /\ slot_is_free (slots st) parent_slot = false).
  { unfold duplicateslot in Hc.
    destruct (Z.ltb_spec parent_slot 0); [elim Hc; reflexivity |].
    destruct (Z.geb_spec parent_slot 800); [elim Hc; reflexivity |].
    destruct (slot_is_free (slots st) parent_slot); [elim Hc; reflexivity |].
    split; [lia | reflexivity]. }
  destruct Hvalid as [Hp Hused]. split; [exact Hp |]. split; [exact Hused |].
  destruct (duplicateslot_run st parent_slot Hp Hused) as (s_pre & Hfr & Hrun).
  rewrite Hrun in Hc |- *. clear Hrun.
  destruct Hfr as (Hev & Hdk & _).
  assert (Hused' : slot_is_free (slots s_pre) parent_slot = false)
    by (eapply alloc_evolution_used; eassumption).
  assert (Hpar : slots s_pre !! Z.to_nat parent_slot = slots st !! Z.to_nat parent_slot)
    by (apply alloc_evolution_perm; assumption).
  destruct (findslot_cases s_pre) as [(E & _) | (r & E & Hr & Hfree & _)];
    rewrite E in Hc |- *.
  { elim Hc. reflexivity. }
  destruct (Z.ltb_spec r 0); [lia |]. unfold fst, snd. clear Hc.
  assert (Hne : r <> parent_slot) by (intros ->; rewrite Hfree in Hused'; discriminate).
  set (s0 := with_slots s_pre (alter mark_used (Z.to_nat r) (slots s_pre))).
  set (s1 := set_slot_perm s0 r (slot_perm (slots s0) parent_slot)).
  rewrite (to_uint_id (2 + parent_slot * 8)), (to_uint_id (2 + r * 8)) by lia.
  set (s2 := copy_slot_loop 8 0 (2 + parent_slot * 8) (2 + r * 8) s1).
  assert (Hs2 : s2 = with_disk s1 (disk s2))
    by exact (copy_slot_loop_shape 8 0 _ _ s1).
  assert (Hperm0 : slot_perm (slots s0) parent_slot = slot_perm (slots st) parent_slot).
  { unfold slot_perm, s0. rewrite slots_with_slots.
    rewrite list_lookup_alter_ne by lia. rewrite Hpar. reflexivity. }
  assert (Hsl2 : slots s2
    = alter (fun s => mk_slot (slot_perm (slots st) parent_slot) (is_free s))
        (Z.to_nat r) (alter mark_used (Z.to_nat r) (slots s_pre))).
  { rewrite Hs2, slots_with_disk. unfold s1, set_slot_perm.
    rewrite slots_with_slots, Hperm0. unfold s0. rewrite slots_with_slots. reflexivity. }
  assert (Hsome : is_Some (slots s_pre !! Z.to_nat r)).
  { unfold slot_is_free in Hfree. destruct (slots s_pre !! Z.to_nat r); [eauto | discriminate]. }
  destruct Hsome as [sr Hsr].
  split; [exact Hr |]. split; [exact Hne |]. split; [| split; [| split]].
  - unfold slot_is_free. rewrite Hsl2, !list_lookup_alter_eq, Hsr. reflexivity.
  - unfold slot_perm at 1. rewrite Hsl2, !list_lookup_alter_eq, Hsr. reflexivity.
  - rewrite Hsl2, !list_lookup_alter_ne by lia. exact Hpar.
  - intros i Hi. unfold s2.
    rewrite !copy_slot_loop_disk by lia.
    assert (Hd1 : forall b, disk s1 b = disk s_pre b).
    { intros b. unfold s1, set_slot_perm. rewrite disk_with_slots. unfold s0.
      rewrite disk_with_slots. reflexivity. }
    split.
    + destruct (Z.leb_spec (2 + r * 8 + 0) (2 + r * 8 + i)); [| lia].
      destruct (Z.ltb_spec (2 + r * 8 + i) (2 + r * 8 + 8)); [| lia]. cbn [andb].
      replace (2 + r * 8 + i - (2 + r * 8)) with i by lia.
      unfold bread. rewrite Hd1, Hdk by assumption. reflexivity.
    + destruct (Z.leb_spec (2 + r * 8 + 0) (2 + parent_slot * 8 + i));
        destruct (Z.ltb_spec (2 + parent_slot * 8 + i) (2 + r * 8 + 8));
        cbn [andb]; try lia; rewrite Hd1; apply Hdk; assumption.
Qed.

(** X6.  [duplicateslot] returns -1 and changes nothing when the parent
    slot is out of range or free.  It also returns -1 when no slot is free:
    the two retries after [checkAswap] cannot help, since an eviction
    takes slots and never releases one. *)
Theorem duplicateslot_fails (st : kstate) (parent_slot : Z) :
  (~ (0 <= parent_slot < 800) \/ slot_is_free (slots st) parent_slot = true ->
   duplicateslot st parent_slot = (-1, st)) /\
  ((forall j, 0 <= j < 800 -> slot_is_free (slots st) j = false) ->
   fst (duplicateslot st parent_slot) = -1 /\
   forall j, 0 <= j < 800 ->
     slot_is_free (slots (snd (duplicateslot st parent_slot))) j = false).
Proof.
  split.
  - intros Hbad. unfold duplicateslot.
    destruct (Z.ltb_spec parent_slot 0); [reflexivity |].
    destruct (Z.geb_spec parent_slot 800); [reflexivity |].
    destruct Hbad as [Hr | Hf]; [lia |]. rewrite Hf. reflexivity.
  - intros Hfull.
    destruct (Z.lt_ge_cases parent_slot 0) as [Hneg | Hnn].
    { unfold duplicateslot. destruct (Z.ltb_spec parent_slot 0); [| lia].
      split; [reflexivity | exact Hfull]. }
    destruct (Z.lt_ge_cases parent_slot 800) as [Hlt | Hge].
    2:{ unfold duplicateslot. destruct (Z.ltb_spec parent_slot 0); [lia |].
        destruct (Z.geb_spec parent_slot 800); [| lia].
        split; [reflexivity | exact Hfull]. }
    assert (Hp : 0 <= parent_slot < 800) by lia.
    destruct (duplicateslot_run st parent_slot Hp (Hfull parent_slot Hp))
      as (s_pre & Hfr & ->).
    assert (Hfull' : forall j, 0 <= j < 800 -> slot_is_free (slots s_pre) j = false).
    { intros j Hj. destruct Hfr as (Hev & _).
      eapply alloc_evolution_used; [exact Hev | apply Hfull; exact Hj]. }
    destruct (findslot_cases s_pre) as [(-> & _) | (r & _ & Hr & Hfree & _)].
    + split; [reflexivity | exact Hfull'].
    + rewrite Hfull' in Hfree by exact Hr. discriminate.
Qed.

End Duplicate.

Lemma duplicateslot_copies_witness :
  fst (duplicateslot (mp := xv6_x86) exiting_state 10) = 0 /\
  slot_perm (slots (snd (duplicateslot (mp := xv6_x86) exiting_state 10))) 0 = 0x067.
Proof.
  destruct (duplicateslot_copies (mp := xv6_x86) exiting_state 10)
    as (_ & _ & _ & _ & _ & Hperm & _); [vm_compute; discriminate |].
  split; [vm_compute; reflexivity |].
  change (fst (duplicateslot (mp := xv6_x86) exiting_state 10)) with 0 in Hperm.
  rewrite Hperm. reflexivity.
Defined.

(** ** What a page leaves behind when it is evicted *)

Section EvictionEffects.
Context {mp : mmu_params}.

Lemma swappageout_effect (st : kstate) (pgdir va pa pte : Z) :
  walkpgdir st pgdir va = Some pte ->
  fst (swappageout st pgdir va pa) = 0 ->
  let r := fst (findslot st) in
  let st' := snd (swappageout st pgdir va pa) in
  slots st' = alter (fun _ => mk_slot (Z.land pte 0xFFF) 0) (Z.to_nat r) (slots st) /\
  (forall i, 0 <= i < 8 ->
     disk st' (2 + r * 8 + i) = memread (kmemory st) (P2V pa + i * 512) 512) /\
  (forall b, ~ (2 + r * 8 <= b < 2 + r * 8 + 8) -> disk st' b = disk st b) /\
  (forall pgdir' a, pgdir' <> pgdir \/ Z.shiftr a 12 <> Z.shiftr va 12 ->
     walkpgdir st' pgdir' a = walkpgdir st pgdir' a) /\
  kmemory st' = kmemory st /\ freelist st' = freelist st /\
  ptable st' = ptable st /\ tunables st' = tunables st /\
  trace st' = Lcr3 (V2P pgdir) :: trace st.
Proof.
  intros Hw Hok. cbv zeta.
  destruct (swappageout_cases st pgdir va pa) as
    [(_ & Hout) | [(r & st01 & _ & _ & _ & _ & Hout)
                  | (r & st01 & pte' & Hfs & Hrng & Hst01 & Hw' & HP & Hout)]];
    try (rewrite Hout in Hok; discriminate).
  rewrite Hw in Hw'. injection Hw' as <-. rewrite Hout, Hfs. unfold fst, snd.
  set (F := Z.land pte 0xFFF).
  set (st2 := set_slot_perm st01 r F).
  set (st3 := write_page_loop 8 0 (to_uint (2 + r * 8)) pa st2).
  assert (Hst3 : st3 = with_disk st2 (disk st3))
    by exact (write_page_loop_shape 8 0 _ pa st2).
  assert (Hst2 : st2 = with_slots st (slots st2)).
  { unfold st2, set_slot_perm. rewrite slots_with_slots, Hst01. reflexivity. }
  assert (Hdisk : forall b, disk st3 b
            = if (2 + r * 8 + 0 <=? b) && (b <? 2 + r * 8 + 8)
              then memread (kmemory st) (P2V pa + (b - (2 + r * 8)) * BSIZE)
                     (Z.to_nat BSIZE)
              else disk st b).
  { intros b. unfold st3. rewrite (to_uint_id (2 + r * 8)) by lia.
    rewrite write_page_loop_disk by lia. rewrite Hst2. reflexivity. }
  split; [| split; [| split; [| split]]].
  - rewrite slots_emit. unfold set_pte. rewrite slots_with_pgdirs.
    rewrite Hst3, slots_with_disk. unfold st2, set_slot_perm.
    rewrite slots_with_slots, Hst01, slots_with_slots.
    rewrite list_alter_alter_eq. reflexivity.
  - intros i Hi. rewrite disk_emit. unfold set_pte. rewrite disk_with_pgdirs, Hdisk.
    destruct (Z.leb_spec (2 + r * 8 + 0) (2 + r * 8 + i)); [| lia].
    destruct (Z.ltb_spec (2 + r * 8 + i) (2 + r * 8 + 8)); [| lia]. cbn [andb].
    replace (2 + r * 8 + i - (2 + r * 8)) with i by lia. reflexivity.
  - intros b Hb. rewrite disk_emit. unfold set_pte. rewrite disk_with_pgdirs, Hdisk.
    destruct (Z.leb_spec (2 + r * 8 + 0) b); destruct (Z.ltb_spec b (2 + r * 8 + 8));
      cbn [andb]; try reflexivity. lia.
  - intros pgdir' a Hor. rewrite (walkpgdir_ext _ _ pgdir' a (pgdirs_emit _ _)).
    rewrite walkpgdir_set_pte_other by exact Hor.
    apply walkpgdir_ext. rewrite Hst3, pgdirs_with_disk, Hst2. apply pgdirs_with_slots.
  - unfold set_pte. rewrite Hst3, Hst2. repeat split.
Qed.

(** X7.  A successful [swappageout] records the low 12 bits of the entry
    as the permissions of the slot it took, writes the 4096 bytes at the
    kernel address of [pa] to the 8 blocks of that slot, in order, and
    reloads the page directory base.  No other slot, no other block, no
    other entry, no byte of memory, nor the free list or the process table
    changes. *)
Theorem swappageout_stores_page (st : kstate) (pgdir va pa pte : Z) :
  walkpgdir st pgdir va = Some pte ->
  fst (swappageout st pgdir va pa) = 0 ->
  let r := fst (findslot st) in
  let st' := snd (swappageout st pgdir va pa) in
  slots st' = alter (fun _ => mk_slot (Z.land pte 0xFFF) 0) (Z.to_nat r) (slots st) /\
  (forall i, 0 <= i < 8 ->
     disk st' (2 + r * 8 + i) = memread (kmemory st) (P2V pa + i * 512) 512) /\
  (forall b, ~ (2 + r * 8 <= b < 2 + r * 8 + 8) -> disk st' b = disk st b) /\
  (forall pgdir' a, pgdir' <> pgdir \/ Z.shiftr a 12 <> Z.shiftr va 12 ->
     walkpgdir st' pgdir' a = walkpgdir st pgdir' a) /\
  kmemory st' = kmemory st /\ freelist st' = freelist st /\
  ptable st' = ptable st /\ tunables st' = tunables st /\
  trace st' = Lcr3 (V2P pgdir) :: trace st.
Proof. exact (swappageout_effect st pgdir va pa pte). Qed.

(** X8.  [swappageout] returns 0 exactly when some slot is free and the
    leaf entry of [va] exists and is present; otherwise it returns -1.
    When no slot is free it returns the state unchanged. *)
Theorem swappageout_outcomes (st : kstate) (pgdir va pa : Z) :
  (fst (swappageout st pgdir va pa) = 0 \/ fst (swappageout st pgdir va pa) = -1) /\
  (fst (swappageout st pgdir va pa) = 0 <->
   (exists r, 0 <= r < 800 /\ slot_is_free (slots st) r = true) /\
   (exists pte, walkpgdir st pgdir va = Some pte /\ Z.land pte PTE_P <> 0)) /\
  ((forall r, 0 <= r < 800 -> slot_is_free (slots st) r = false) ->
   swappageout st pgdir va pa = (-1, st)).
Proof.
  assert (Hfree : forall r st1, findslot st = (r, st1) -> 0 <= r < 800 ->
            slot_is_free (slots st) r = true).
  { intros r st1 Hfs Hr.
    destruct (findslot_cases st) as [(E & _) | (r' & E & _ & Hf & _)];
      rewrite E in Hfs; injection Hfs as <- _; [lia | exact Hf]. }
  destruct (swappageout_cases st pgdir va pa) as
    [(Hfs & Hout) | [(r & st1 & Hfs & Hr & _ & Hpte & Hout)
                    | (r & st1 & pte & Hfs & Hr & _ & Hw & HP & Hout)]];
    rewrite Hout; unfold fst.
  - split; [right; reflexivity |]. split; [| intros _; reflexivity].
    split; [discriminate |]. intros [(r & Hr & Hf) _].
    destruct (findslot_cases st) as [(_ & Hall) | (r' & E & Hr' & _)].
    + rewrite Hall in Hf by exact Hr. discriminate.
    + rewrite E in Hfs. injection Hfs as Hr1 _. lia.
  - split; [right; reflexivity |]. split.
    + split; [discriminate |]. intros [_ (pte & Hw & HP)].
      destruct Hpte as [Hn | (pte' & Hw' & HP')].
      * rewrite Hn in Hw. discriminate.
      * rewrite Hw' in Hw. injection Hw as ->. contradiction.
    + intros Hall. pose proof (Hfree r st1 Hfs Hr) as Hf.
      rewrite Hall in Hf by exact Hr. discriminate.
  - split; [left; reflexivity |]. split.
    + split; [| reflexivity]. intros _. split; [| eauto].
      exists r. split; [exact Hr | exact (Hfree r st1 Hfs Hr)].
    + intros Hall. pose proof (Hfree r st1 Hfs Hr) as Hf.
      rewrite Hall in Hf by exact Hr. discriminate.
Qed.

End EvictionEffects.

Lemma swappageout_stores_page_witness :
  slots (snd (swappageout (mp := xv6_x86) mapped_state example_pgdir 0x5000 0x123000))
    !! 0%nat = Some (mk_slot 0x067 0) /\
  trace (snd (swappageout (mp := xv6_x86) mapped_state example_pgdir 0x5000 0x123000))
  = [Lcr3 0x0dfbf000].
Proof.
  destruct (swappageout_stores_page (mp := xv6_x86) mapped_state example_pgdir
              0x5000 0x123000 0x123067) as (Hs & _ & _ & _ & _ & _ & _ & _ & Ht);
    [vm_compute; reflexivity | vm_compute; reflexivity |].
  split; [rewrite Hs | rewrite Ht]; vm_compute; reflexivity.
Defined.

(** ** The victim page and the eviction loop *)

Section EvictionLoop.
Context {mp : mmu_params} {mp_ok : mmu_params_ok mp}.

Lemma findpage_state st pgdir :
  snd (findpage st pgdir) = st \/
  exists pg, snd (findpage st pgdir) = emit (with_pgdirs st pg) (Lcr3 (V2P pgdir)).
Proof.
  destruct (findpage_cases st pgdir) as [(pa & va & E) | (res & E)];
    rewrite E; unfold snd.
  - left. reflexivity.
  - right. destruct (findpage_reset_spec st pgdir) as (Hs & _).
    exists (pgdirs (findpage_reset scan_fuel 0 st pgdir)).
    rewrite <- Hs. reflexivity.
Qed.

Lemma findpage_stored st pgdir :
  match fst (findpage st pgdir) with
  | (pa, Some va) =>
      exists k pte, va = 4096 * k /\ user_vpn k /\
        walkpgdir (snd (findpage st pgdir)) pgdir va = Some pte /\
        user_present pte = true /\ pa = PTE_ADDR pte
  | (pa, None) => pa = 0
  end.
Proof.
  unfold findpage. rewrite findpage_first_scan.
  pose proof (scan_find_spec (findpage_first_body st pgdir) scan_fuel 0
                (Z.le_refl 0) scan_fuel_enough) as H1.
  change (4096 * 0) with 0 in H1.
  destruct (scan_find (findpage_first_body st pgdir) scan_fuel 0) as [[pa va] |].
  - unfold fst, snd. destruct H1 as (k & Hk0 & HkK & Hb & _).
    rewrite findpage_first_body_spec in Hb.
    destruct (walkpgdir st pgdir (4096 * k)) as [pte |] eqn:Hw; [| discriminate].
    destruct (unreferenced pte) eqn:Hu; [| discriminate].
    injection Hb as <- <-. exists k, pte.
    unfold unreferenced in Hu. apply andb_prop in Hu as [Hup _].
    split; [reflexivity |]. split; [split; assumption |].
    split; [exact Hw |]. split; [exact Hup | reflexivity].
  - clear H1. cbv zeta.
    set (st2 := emit (findpage_reset scan_fuel 0 st pgdir) (Lcr3 (V2P pgdir))).
    rewrite findpage_second_scan.
    pose proof (scan_find_spec (findpage_second_body st2 pgdir) scan_fuel 0
                  (Z.le_refl 0) scan_fuel_enough) as H2.
    change (4096 * 0) with 0 in H2.
    destruct (scan_find (findpage_second_body st2 pgdir) scan_fuel 0) as [[pa va] |].
    + unfold fst, snd. destruct H2 as (k & Hk0 & HkK & Hb & _).
      rewrite findpage_second_body_spec in Hb.
      destruct (walkpgdir st2 pgdir (4096 * k)) as [pte |] eqn:Hw; [| discriminate].
      destruct (user_present pte) eqn:Hu; [| discriminate].
      injection Hb as <- <-. exists k, pte.
      split; [reflexivity |]. split; [split; assumption |].
      split; [exact Hw |]. split; [exact Hu | reflexivity].
    + reflexivity.
Qed.

(** X9.  Whenever [findpage] stores an address through [va], it is the
    address of a user page, page aligned, whose leaf entry in the state
    after the call is present and user, and the value returned is the frame
    of that entry.  When it stores nothing it returns 0, so the test
    [pa == 0] of [swapout] never lets an unwritten [va] through. *)
Theorem findpage_result (st : kstate) (pgdir : Z) :
  (forall va, snd (fst (findpage st pgdir)) = Some va ->
     exists k pte, va = 4096 * k /\ user_vpn k /\
       walkpgdir (snd (findpage st pgdir)) pgdir va = Some pte /\
       user_present pte = true /\
       fst (fst (findpage st pgdir)) = PTE_ADDR pte) /\
  (snd (fst (findpage st pgdir)) = None -> fst (fst (findpage st pgdir)) = 0).
Proof.
  pose proof (findpage_stored st pgdir) as H.
  destruct (fst (findpage st pgdir)) as [pa [va |]]; unfold fst, snd; split.
  - intros va' Hva. injection Hva as <-. exact H.
  - discriminate.
  - discriminate.
  - intros _. exact H.
Qed.

Lemma used_slots_alloc F sl : forall i s,
  sl !! i = Some s -> is_free s <> 0 ->
  used_slots (alter (fun _ => mk_slot F 0) i sl) = used_slots sl + 1.
Proof.
  unfold used_slots. induction sl as [| x l IH]; intros [| i] s Hl Hf.
  - discriminate.
  - discriminate.
  - injection Hl as ->. cbn [alter list_alter].
    rewrite filter_cons_True by reflexivity.
    rewrite filter_cons_False by exact Hf. cbn [length]. lia.
  - cbn [alter list_alter]. rewrite !filter_cons.
    specialize (IH i s Hl Hf).
    destruct (decide (is_free x = 0)); cbn [length]; lia.
Qed.

Lemma to_int_to_int_add a b : to_int (to_int a + b) = to_int (a + b).
Proof.
  assert (Hu : to_uint (to_int a + b) = to_uint (a + b)).
  { rewrite !to_uint_mod. unfold to_int. rewrite to_uint_mod.
    destruct (a mod 2 ^ 32 <? 0x80000000).
    - rewrite Zplus_mod_idemp_l. reflexivity.
    - replace (a mod 2 ^ 32 - 0x100000000 + b)
        with (a mod 2 ^ 32 + b + (-1) * 2 ^ 32) by lia.
      rewrite Z_mod_plus_full, Zplus_mod_idemp_l. reflexivity. }
  unfold to_int at 1 3. rewrite Hu. reflexivity.
Qed.

(** One turn of the loop of [swapout]: it takes no slot and frees no
    frame, or it evicts one page. *)
Lemma swapout_body_effect victim swapped st :
  let res := swapout_body victim swapped st in
  let st' := snd res in
  tunables st' = tunables st /\
  ((snd (fst res) = swapped /\ slots st' = slots st /\
    freelist st' = freelist st /\ ptable st' = ptable st)
   \/
   (fst (fst res) = true /\ snd (fst res) = to_int (swapped + 1) /\
    exists r pa F s, slots st !! r = Some s /\ is_free s <> 0 /\
      slots st' = alter (fun _ => mk_slot F 0) r (slots st) /\
      freelist st' = P2V pa :: freelist st /\
      ptable st' = alter (fun p => mk_proc (state p) (pid p) (to_int (rss p - 1)) (pgdir p))
                     victim (ptable st))).
Proof.
  cbv zeta. split; [apply swapout_body_tunables |].
  pose proof (findpage_stored st (proc_pgdir st victim)) as Hst.
  assert (Hfields : slots (snd (findpage st (proc_pgdir st victim))) = slots st /\
                    freelist (snd (findpage st (proc_pgdir st victim))) = freelist st /\
                    ptable (snd (findpage st (proc_pgdir st victim))) = ptable st).
  { destruct (findpage_state st (proc_pgdir st victim)) as [-> | (pg & ->)];
      repeat split. }
  unfold swapout_body.
  destruct (findpage st (proc_pgdir st victim)) as [[pa va_out] st1].
  unfold fst, snd in Hst, Hfields. destruct Hfields as (Hsl & Hfl & Hpt).
  cbv beta iota.
  destruct (pa =? 0); [left; unfold fst, snd; auto |].
  destruct va_out as [va |]; [| left; unfold fst, snd; auto].
  destruct Hst as (k & pte & _ & _ & Hw & Hup & _).
  assert (Hpg : proc_pgdir st1 victim = proc_pgdir st victim).
  { unfold proc_pgdir. rewrite Hpt. reflexivity. }
  rewrite Hpg. set (pd := proc_pgdir st victim) in *.
  assert (Hfree : forall r st2, findslot st1 = (r, st2) -> 0 <= r < 800 ->
            exists s, slots st !! Z.to_nat r = Some s /\ is_free s <> 0).
  { intros r st2 Hfs Hr.
    destruct (findslot_cases st1) as [(E & _) | (r' & E & _ & Hf & _)];
      rewrite E in Hfs; injection Hfs as <- _; [lia |].
    unfold slot_is_free in Hf. rewrite Hsl in Hf.
    destruct (slots st !! Z.to_nat r') as [s |]; [| discriminate].
    exists s. split; [reflexivity |].
    destruct (Z.eqb_spec (is_free s) 0); [discriminate | assumption]. }
  destruct (swappageout_cases st1 pd va pa) as
    [(_ & Hout) | [(r & st2 & _ & _ & _ & [Hn | (pte' & Hw' & HP')] & _)
                  | (r & st2 & pte' & Hfs & Hr & _ & Hw' & HP & Hout)]].
  - rewrite Hout. cbv beta iota. change (-1 =? 0) with false. cbv iota.
    left. unfold fst, snd. auto.
  - rewrite Hn in Hw. discriminate.
  - rewrite Hw' in Hw. injection Hw as ->.
    apply user_present_P in Hup. contradiction.
  - assert (E0 : fst (swappageout st1 pd va pa) = 0) by (rewrite Hout; reflexivity).
    destruct (swappageout_effect st1 pd va pa pte' Hw' E0)
      as (Es & _ & _ & _ & _ & Ef & Ep & _).
    rewrite Hfs in Es. unfold fst in Es.
    destruct (swappageout st1 pd va pa) as [res st3].
    unfold fst in E0. unfold snd in Es, Ef, Ep. subst res.
    cbv beta iota. change (0 =? 0) with true. cbv iota.
    right. unfold fst, snd. split; [reflexivity |]. split; [reflexivity |].
    destruct (Hfree r st2 Hfs Hr) as (s & Hs & Hsf).
    exists (Z.to_nat r), pa, (Z.land pte' 0xFFF), s.
    split; [exact Hs |]. split; [exact Hsf |].
    split; [| split].
    + unfold kfree, set_rss.
      rewrite slots_with_freelist, slots_with_kmemory, slots_with_ptable.
      rewrite Es, Hsl. reflexivity.
    + unfold kfree, set_rss. rewrite freelist_with_freelist.
      change (P2V pa :: freelist st3 = P2V pa :: freelist st).
      rewrite Ef, Hfl. reflexivity.
    + unfold kfree, set_rss.
      change (alter (fun p => mk_proc (state p) (pid p)
                       (to_int (proc_rss st3 victim - 1)) (pgdir p)) victim (ptable st3)
              = alter (fun p => mk_proc (state p) (pid p) (to_int (rss p - 1)) (pgdir p))
                  victim (ptable st)).
      rewrite <- Hpt, <- Ep. apply list_alter_ext; [| reflexivity].
      intros x Hx. unfold proc_rss. rewrite Hx. reflexivity.
Qed.

Lemma swapout_loop_accounting fuel : forall victim swapped attempts st,
  npages_to_swap st < 2 ^ 31 -> - 2 ^ 31 <= swapped ->
  let st' := swapout_loop fuel victim swapped attempts st in
  exists k, 0 <= k /\ (k = 0 \/ swapped + k <= npages_to_swap st) /\
    Z.of_nat (length (freelist st')) = Z.of_nat (length (freelist st)) + k /\
    used_slots (slots st') = used_slots (slots st) + k /\
    ptable st' = if k =? 0 then ptable st
                 else alter (fun p => mk_proc (state p) (pid p) (to_int (rss p - k)) (pgdir p))
                        victim (ptable st).
Proof.
  induction fuel as [| fuel IH]; intros victim swapped attempts st Hn Hs; cbv zeta.
  - cbn [swapout_loop]. exists 0. change (0 =? 0) with true. cbv iota.
    split; [lia |]. split; [left; reflexivity |].
    split; [lia |]. split; [lia | reflexivity].
  - cbn [swapout_loop].
    destruct ((swapped <? npages_to_swap st)
              && (attempts <? to_int (npages_to_swap st * 2))) eqn:Hc.
    2:{ exists 0. change (0 =? 0) with true. cbv iota.
        split; [lia |]. split; [left; reflexivity |].
        split; [lia |]. split; [lia | reflexivity]. }
    apply andb_prop in Hc as [Hc1 _]. apply Z.ltb_lt in Hc1.
    destruct (swapout_body_effect victim swapped st) as (Ht & Hcase).
    destruct (swapout_body victim swapped st) as [[go sw'] st1].
    unfold fst, snd in Ht, Hcase.
    apply tunables_inv in Ht as (_ & Hnp & _).
    destruct Hcase as [(-> & Hsl & Hfl & Hpt)
                      | (-> & -> & r & pa & F & s & Hs1 & Hsf & Hsl & Hfl & Hpt)].
    + destruct go.
      * destruct (IH victim swapped (to_int (attempts + 1)) st1)
          as (k & Hk0 & Hk & Hfl' & Hus' & Hpt'); [rewrite Hnp; exact Hn | exact Hs |].
        exists k. rewrite Hnp in Hk. rewrite Hsl in Hus'. rewrite Hfl in Hfl'.
        rewrite Hpt in Hpt'. auto.
      * exists 0. change (0 =? 0) with true. cbv iota.
        split; [lia |]. split; [left; reflexivity |].
        rewrite Hsl, Hfl, Hpt. split; [lia |]. split; [lia | reflexivity].
    + rewrite (to_int_id (swapped + 1)) by lia.
      destruct (IH victim (swapped + 1) (to_int (attempts + 1)) st1)
        as (k & Hk0 & Hk & Hfl' & Hus' & Hpt'); [rewrite Hnp; exact Hn | lia |].
      exists (k + 1). rewrite Hnp in Hk.
      split; [lia |]. split; [right; lia |].
      split; [rewrite Hfl', Hfl; cbn [length]; lia |].
      split; [rewrite Hus', Hsl, (used_slots_alloc F _ r s Hs1 Hsf); lia |].
      rewrite Hpt'.
      destruct (Z.eqb_spec (k + 1) 0) as [Hk1 | _]; [lia |].
      destruct (Z.eqb_spec k 0) as [-> | Hk0'].
      * rewrite Hpt. reflexivity.
      * rewrite Hpt, list_alter_alter_eq. apply list_alter_ext; [| reflexivity].
        intros x _. unfold compose. cbn [rss state pid pgdir].
        change (to_int (rss x - 1) - k) with (to_int (rss x - 1) + - k).
        rewrite to_int_to_int_add.
        replace (rss x - 1 + - k) with (rss x - (k + 1)) by lia. reflexivity.
Qed.

(** X10.  [swapout] evicts some number [k] of pages of the victim, at most
    [npages_to_swap]: the free list grows by [k] frames, [k] more slots are
    in use, and the [rss] of the victim falls by [k]; no other process is
    touched.  In particular no slot is taken for a page that was not
    evicted. *)
Theorem swapout_accounting (st : kstate) :
  npages_to_swap st < 2 ^ 31 ->
  exists k, 0 <= k <= Z.max 0 (npages_to_swap st) /\
    Z.of_nat (length (freelist (swapout st))) = Z.of_nat (length (freelist st)) + k /\
    used_slots (slots (swapout st)) = used_slots (slots st) + k /\
    ptable (swapout st) =
      match findproc st with
      | Some victim =>
          if k =? 0 then ptable st
          else alter (fun p => mk_proc (state p) (pid p) (to_int (rss p - k)) (pgdir p))
                 victim (ptable st)
      | None => ptable st
      end.
Proof.
  intros Hn. unfold swapout. destruct (findproc st) as [victim |].
  - destruct (swapout_loop_accounting (Z.to_nat (to_int (npages_to_swap st * 2)))
                victim 0 0 st Hn) as (k & Hk0 & Hk & Hfl & Hus & Hpt); [lia |].
    exists k. split; [lia |]. auto.
  - exists 0. split; [lia |]. split; [lia |]. split; [lia | reflexivity].
Qed.

Lemma swapout_loop_fuel fuel : forall extra victim swapped attempts st,
  to_int (npages_to_swap st * 2) - attempts <= Z.of_nat fuel ->
  - 2 ^ 31 <= attempts ->
  swapout_loop (fuel + extra) victim swapped attempts st
  = swapout_loop fuel victim swapped attempts st.
Proof.
  induction fuel as [| fuel IH]; intros extra victim swapped attempts st Hb Ha.
  - cbn [Nat.add swapout_loop]. destruct extra as [| extra]; [reflexivity |].
    cbn [swapout_loop].
    destruct (Z.ltb_spec attempts (to_int (npages_to_swap st * 2))); [lia |].
    rewrite andb_false_r. reflexivity.
  - cbn [Nat.add swapout_loop].
    destruct ((swapped <? npages_to_swap st)
              && (attempts <? to_int (npages_to_swap st * 2))) eqn:Hc;
      [| reflexivity].
    apply andb_prop in Hc as [_ Hc2]. apply Z.ltb_lt in Hc2.
    pose proof (swapout_body_tunables victim swapped st) as Ht.
    destruct (swapout_body victim swapped st) as [[go sw'] st1]. unfold snd in Ht.
    apply tunables_inv in Ht as (_ & Hnp & _).
    destruct go; [| reflexivity].
    pose proof (to_int_range (npages_to_swap st * 2)) as Hr.
    apply IH.
    + rewrite Hnp, (to_int_id (attempts + 1)) by lia. lia.
    + rewrite (to_int_id (attempts + 1)) by lia. lia.
Qed.

(** X11.  The loop of [swapout] makes at most [2 * npages_to_swap] turns
    (as a 32-bit product): allowing it more turns changes nothing. *)
Theorem swapout_loop_bound (st : kstate) (victim : nat) (extra : nat) :
  swapout_loop (Z.to_nat (to_int (npages_to_swap st * 2)) + extra) victim 0 0 st
  = swapout_loop (Z.to_nat (to_int (npages_to_swap st * 2))) victim 0 0 st.
Proof. apply swapout_loop_fuel; lia. Qed.

End EvictionLoop.

Lemma findpage_result_witness :
  (forall va,
     snd (fst (findpage (mp := xv6_x86) ten_pages_state example_pgdir)) = Some va ->
     exists k pte, va = 4096 * k /\ user_vpn (mp := xv6_x86) k /\
       walkpgdir (snd (findpage (mp := xv6_x86) ten_pages_state example_pgdir))
         example_pgdir va = Some pte /\
       user_present (mp := xv6_x86) pte = true /\
       fst (fst (findpage (mp := xv6_x86) ten_pages_state example_pgdir)) = PTE_ADDR pte) /\
  (snd (fst (findpage (mp := xv6_x86) ten_pages_state example_pgdir)) = None ->
   fst (fst (findpage (mp := xv6_x86) ten_pages_state example_pgdir)) = 0).
Proof.
  exact (findpage_result (mp_ok := xv6_x86_ok) ten_pages_state example_pgdir).
Defined.

Lemma swapout_accounting_witness :
  Z.of_nat (length (freelist (swapout (mp := xv6_x86) evicting_state))) <= 4.
Proof.
  destruct (swapout_accounting (mp_ok := xv6_x86_ok) evicting_state) as (k & Hk & Hfl & _);
    [vm_compute; reflexivity |].
  rewrite Hfl. change (npages_to_swap evicting_state) with 4 in Hk.
  change (freelist evicting_state) with (@nil Z). cbn [length]. lia.
Defined.

(** ** The controller *)

Section ControllerBounds.
Context {mp : mmu_params}.

(** X12.  A call of [checkAswap] with more free frames than [threshold]
    changes nothing.  Any other call leaves [threshold] at 1 or more and
    [npages_to_swap] at [limit] or less, whatever the values before and
    whatever the 32-bit products did. *)
Theorem checkAswap_clamps (st : kstate) :
  (threshold st < countpages st -> checkAswap st = st) /\
  (countpages st <= threshold st ->
   1 <= threshold (checkAswap st) < 2 ^ 31 /\
   npages_to_swap (checkAswap st) <= limit (checkAswap st) /\
   limit (checkAswap st) = limit st).
Proof.
  split.
  - intros H. unfold checkAswap.
    destruct (Z.leb_spec (countpages st) (threshold st)); [lia | reflexivity].
  - intros H. destruct (checkAswap_triggered st H) as (Ht & Hn & _ & _ & Hl).
    cbv zeta in Ht, Hn. rewrite Ht, Hn, Hl. clear Ht Hn Hl.
    pose proof (to_int_range
      (threshold st - Z.quot (to_int (threshold st * beta st)) 100)) as Hr.
    split; [| split; [| reflexivity]].
    + destruct (Z.ltb_spec
        (to_int (threshold st - Z.quot (to_int (threshold st * beta st)) 100)) 1);
        lia.
    + destruct (Z.gtb_spec
        (to_int (npages_to_swap st
                 + Z.quot (to_int (npages_to_swap st * alpha st)) 100)) (limit st));
        lia.
Qed.

(** X13.  [checkAswap], with the evictions it starts, never releases a
    slot in use nor changes its permissions or its 8 blocks on disk, never
    changes an entry that is not present, and never changes the size of
    the slot table or the current process. *)
Theorem checkAswap_keeps_swapped_pages (st : kstate) :
  let st' := checkAswap st in
  (forall s, slot_is_free (slots st) s = false ->
     slot_is_free (slots st') s = false /\
     slots st' !! Z.to_nat s = slots st !! Z.to_nat s) /\
  (forall s i, 0 <= s < 800 -> 0 <= i < 8 -> slot_is_free (slots st) s = false ->
     disk st' (2 + s * 8 + i) = disk st (2 + s * 8 + i)) /\
  (forall pgdir a pte, walkpgdir st pgdir a = Some pte -> Z.land pte PTE_P = 0 ->
     walkpgdir st' pgdir a = Some pte) /\
  length (slots st') = length (slots st) /\
  cpu_proc st' = cpu_proc st.
Proof.
  cbv zeta. destruct (checkAswap_frame st) as (Hev & Hdisk & Hpte & Hcpu & _).
  split; [| split; [| split; [| split]]].
  - intros s Hs. split.
    + exact (alloc_evolution_used _ _ s Hev Hs).
    + exact (alloc_evolution_perm _ _ s Hev Hs).
  - exact Hdisk.
  - exact Hpte.
  - exact (proj1 Hev).
  - exact Hcpu.
Qed.

End ControllerBounds.

(** ** The entry of an evicted page *)

Section EvictedEntry.
Context {mp : mmu_params} {mp_ok : mmu_params_ok mp}.

Lemma evicted_entry_shape st pgdir va pa pte :
  walkpgdir st pgdir va = Some pte ->
  fst (swappageout st pgdir va pa) = 0 ->
  exists pte',
    walkpgdir (snd (swappageout st pgdir va pa)) pgdir va = Some pte' /\
    Z.land pte' PTE_P = 0 /\
    slot_of pte' = fst (findslot st) /\
    0 <= slot_of pte' < 800 /\
    Z.land pte' 0xFFF = Z.land (Z.land pte 0xFFF) (Z.lnot PTE_P) /\
    (pte' = 0 <-> fst (findslot st) = 0 /\ Z.land (Z.land pte 0xFFF) (Z.lnot PTE_P) = 0) /\
    (0 <= PTE_U < 4096 -> Z.land PTE_U PTE_P = 0 -> Z.land pte PTE_U <> 0 ->
     swapped_entry pte').
Proof.
  intros Hw Hok.
  destruct (swappageout_success st pgdir va pa pte Hw Hok) as (Hr & Hw' & _).
  set (r := fst (findslot st)) in *. clearbody r.
  set (F := Z.land pte 0xFFF) in *.
  assert (HF : 0 <= F < 4096) by apply low12_range.
  set (b := Z.land F (Z.lnot PTE_P)) in *.
  assert (Hb : 0 <= b < 4096).
  { unfold b. rewrite <- (land_low_id F HF), <- Z.land_assoc, (Z.land_comm 0xFFF),
      Z.land_assoc. apply low12_range. }
  assert (HP : Z.land (Z.lor (Z.shiftl r 12) b) PTE_P = 0)
    by apply evicted_entry_not_present.
  rewrite (shiftl12_lor_low r b Hb) in Hw', HP.
  assert (Hdec : slot_of (r * 4096 + b) = r).
  { unfold slot_of. destruct (decode_slot_index (r * 4096 + b)) as [-> _]; [lia |].
    apply shiftr12_slot. exact Hb. }
  exists (r * 4096 + b).
  split; [exact Hw' |]. split; [exact HP |]. split; [exact Hdec |].
  split; [rewrite Hdec; exact Hr |]. split; [apply low12_slot; exact Hb |].
  split; [lia |].
  intros HU HUP HpU. split; [exact HP |].
  assert (HbU : Z.land b PTE_U = Z.land pte PTE_U).
  { unfold b, F. rewrite <- !Z.land_assoc.
    rewrite (land_lnot_disjoint PTE_P PTE_U) by (rewrite Z.land_comm; exact HUP).
    rewrite (Z.land_comm 0xFFF), (land_low_id PTE_U HU). reflexivity. }
  intros E0. assert (b = 0) by lia. rewrite H in HbU.
  rewrite Z.land_0_l in HbU. congruence.
Qed.

(** X14.  The entry [swappageout] leaves behind is not present, and the
    slot index that [swappage_in] and [swapFree] read from it is the slot
    the page was written to.  It is zero, which [swapFree] takes for an
    entry that was never used, exactly when the slot is slot 0 and no flag
    other than the present flag was set; an evicted user page therefore
    always reads as swapped. *)
Theorem evicted_entry_decodes (st : kstate) (pgdir va pa pte : Z) :
  walkpgdir st pgdir va = Some pte ->
  fst (swappageout st pgdir va pa) = 0 ->
  exists pte',
    walkpgdir (snd (swappageout st pgdir va pa)) pgdir va = Some pte' /\
    Z.land pte' PTE_P = 0 /\
    slot_of pte' = fst (findslot st) /\
    0 <= slot_of pte' < 800 /\
    Z.land pte' 0xFFF = Z.land (Z.land pte 0xFFF) (Z.lnot PTE_P) /\
    (pte' = 0 <-> fst (findslot st) = 0 /\ Z.land (Z.land pte 0xFFF) (Z.lnot PTE_P) = 0) /\
    (0 <= PTE_U < 4096 -> Z.land PTE_U PTE_P = 0 -> Z.land pte PTE_U <> 0 ->
     swapped_entry pte').
Proof. exact (evicted_entry_shape st pgdir va pa pte). Qed.

End EvictedEntry.

Lemma evicted_entry_decodes_witness :
  exists pte',
    walkpgdir (snd (swappageout (mp := xv6_x86) mapped_state example_pgdir 0x5000 0x123000))
      example_pgdir 0x5000 = Some pte' /\ slot_of pte' = 0.
Proof.
  destruct (evicted_entry_decodes (mp_ok := xv6_x86_ok) mapped_state example_pgdir
              0x5000 0x123000 0x123067) as (pte' & Hw & _ & Hs & _);
    [vm_compute; reflexivity | vm_compute; reflexivity |].
  exists pte'. split; [exact Hw | exact Hs].
Defined.

(** ** Cleaning up twice *)

Section ExitCleanupAgain.
Context {mp : mmu_params} {mp_ok : mmu_params_ok mp}.

Lemma swapFree_loop_again st st' pgdir kend :
  length (slots st) = 800%nat ->
  KERNBASE <= 4096 * kend ->
  swapFree_inv st pgdir kend st' ->
  swapFree_loop scan_fuel 0 st' pgdir = st'.
Proof.
  intros Hlen Hk (Hs1 & Hl1 & Hfreed1 & _).
  assert (Hlen' : length (slots st') = 800%nat) by (rewrite Hl1; exact Hlen).
  destruct (swapFree_loop_spec st' pgdir Hlen') as (k2 & _ & Hs2 & _ & _ & Hall2).
  set (st2 := swapFree_loop scan_fuel 0 st' pgdir) in *. clearbody st2.
  assert (Hpg : pgdirs st' = pgdirs st) by (rewrite Hs1; apply pgdirs_with_slots).
  assert (Hsl : slots st2 = slots st').
  { apply list_eq. intros n.
    destruct (Hall2 n) as [E | (E & j & pte & Hj & HjK & Hw & Hsw & Hr & ->)];
      [exact E |].
    rewrite E. symmetry. apply (Hfreed1 j pte).
    - lia.
    - rewrite <- Hw. symmetry. apply walkpgdir_ext. exact Hpg.
    - exact Hsw.
    - exact Hr. }
  rewrite Hs2, Hsl. apply with_slots_same.
Qed.

(** X15.  [swapFree] is idempotent: called again for the same process, it
    finds every slot it would release already free and changes nothing. *)
Theorem swapFree_idempotent (st : kstate) (p : option nat) :
  length (slots st) = 800%nat ->
  swapFree (swapFree st p) p = swapFree st p.
Proof.
  intros Hlen. destruct p as [i |]; [| reflexivity].
  unfold swapFree. destruct (ptable st !! i) as [pr |] eqn:Hp.
  2:{ rewrite Hp. reflexivity. }
  destruct (pgdir pr =? 0) eqn:E.
  { rewrite Hp, E. reflexivity. }
  destruct (swapFree_loop_spec st (pgdir pr) Hlen) as (kend & Hk & Hinv).
  set (st' := swapFree_loop scan_fuel 0 st (pgdir pr)) in *. clearbody st'.
  assert (Hpt : ptable st' = ptable st).
  { destruct Hinv as (Hs1 & _). rewrite Hs1. reflexivity. }
  rewrite Hpt, Hp, E.
  exact (swapFree_loop_again st st' (pgdir pr) kend Hlen Hk Hinv).
Qed.

End ExitCleanupAgain.

Lemma swapFree_idempotent_witness :
  swapFree (mp := xv6_x86) (swapFree (mp := xv6_x86) exiting_state (Some 0%nat)) (Some 0%nat)
  = swapFree (mp := xv6_x86) exiting_state (Some 0%nat).
Proof.
  apply (swapFree_idempotent (mp_ok := xv6_x86_ok) exiting_state (Some 0%nat)).
  reflexivity.
Defined.

(** ** Fault-in: with and without a frame *)

Section FaultIn.
Context {mp : mmu_params}.

Lemma swappage_in_alloc_frame st :
  evict_frame st (snd (let '(m, s) := kalloc st in
                       if m =? 0 then kalloc (checkAswap s) else (m, s))).
Proof.
  pose proof (proj1 (kalloc_frame st)) as H1.
  destruct (kalloc st) as [m s]. unfold snd in H1.
  destruct (m =? 0); [| exact H1].
  apply (evict_frame_trans st s); [exact H1 |].
  apply (evict_frame_trans s (checkAswap s)); [apply checkAswap_frame |].
  exact (proj1 (kalloc_frame (checkAswap s))).
Qed.

(** X16.  [swappage_in] on an entry that names a slot in use returns 0 or
    -1, and -1 only when no frame could be had, even after [checkAswap].
    It then leaves the entry, the slot and its 8 blocks as they were, so
    the fault can be taken again. *)
Theorem swappage_in_failure_keeps_page (st : kstate) (pgdir va pte r : Z) :
  0 <= va < 2 ^ 32 ->
  walkpgdir st pgdir va = Some pte -> Z.land pte PTE_P = 0 ->
  slot_of pte = r -> 0 <= r < 800 -> slot_is_free (slots st) r = false ->
  let res := swappage_in st pgdir va in
  (fst res = 0 \/ fst res = -1) /\
  (fst res = -1 ->
   fst (kalloc st) = 0 /\ fst (kalloc (checkAswap (snd (kalloc st)))) = 0 /\
   walkpgdir (snd res) pgdir va = Some pte /\
   slots (snd res) !! Z.to_nat r = slots st !! Z.to_nat r /\
   forall i, 0 <= i < 8 -> disk (snd res) (2 + r * 8 + i) = disk st (2 + r * 8 + i)).
Proof.
  intros Hva Hw HP Hslot Hr Hused. cbv zeta.
  rewrite (swappage_in_swapped st pgdir va pte r Hva Hw HP Hslot Hr Hused).
  pose proof (swappage_in_alloc_frame st) as Hfr.
  assert (Hmem : fst (let '(m, s) := kalloc st in
                      if m =? 0 then kalloc (checkAswap s) else (m, s)) = 0 ->
                 fst (kalloc st) = 0 /\ fst (kalloc (checkAswap (snd (kalloc st)))) = 0).
  { destruct (kalloc st) as [m s]. unfold fst at 2 3, snd.
    destruct (Z.eqb_spec m 0) as [-> | Hm].
    - intros E. split; [reflexivity | exact E].
    - unfold fst. intros E. contradiction. }
  destruct (let '(m, s) := kalloc st in
            if m =? 0 then kalloc (checkAswap s) else (m, s)) as [mem sa].
  unfold fst in Hmem. unfold snd in Hfr.
  destruct Hfr as (Hev & Hdisk & Hpte & _).
  destruct (Z.eqb_spec mem 0) as [E | Hm].
  - unfold fst, snd. split; [right; reflexivity |]. intros _.
    destruct (Hmem E) as [E1 E2].
    split; [exact E1 |]. split; [exact E2 |].
    split; [exact (Hpte pgdir va pte Hw HP) |].
    split; [exact (alloc_evolution_perm _ _ r Hev Hused) |].
    intros i Hi. exact (Hdisk r i Hr Hi Hused).
  - set (st_r := read_page_loop 8 0 (to_uint (2 + r * 8)) mem sa).
    assert (Hwr : walkpgdir st_r pgdir (PGROUNDDOWN va) = Some pte).
    { rewrite walkpgdir_PGROUNDDOWN.
      rewrite (walkpgdir_ext sa st_r pgdir va).
      - exact (Hpte pgdir va pte Hw HP).
      - unfold st_r. rewrite read_page_loop_shape. apply pgdirs_with_kmemory. }
    cbv zeta.
    destruct (mappages_cases st_r pgdir (PGROUNDDOWN va) (V2P mem)
                (Z.lor (to_uint (slot_perm (slots st_r) r)) PTE_P))
      as [(_ & Hn) | (Hm4 & _)].
    + rewrite Hn in Hwr. discriminate.
    + rewrite Hm4. cbv beta iota. change (0 <? 0) with false. cbv iota.
      unfold fst. split; [left; reflexivity | discriminate].
Qed.

Lemma swappage_in_frame_run st pd va pte r mem rest :
  0 <= va < 2 ^ 32 ->
  walkpgdir st pd va = Some pte -> Z.land pte PTE_P = 0 ->
  slot_of pte = r -> 0 <= r < 800 -> slot_is_free (slots st) r = false ->
  freelist st = mem :: rest -> mem <> 0 ->
  swappage_in st pd va =
    (0, let sa := with_freelist st rest in
        let st_r := with_kmemory sa
                      (kmemory (read_page_loop 8 0 (to_uint (2 + r * 8)) mem sa)) in
        let st5 :=
          with_slots
            (set_pte st_r pd (PGROUNDDOWN va)
               (Z.lor (Z.lor (V2P mem) (Z.lor (to_uint (slot_perm (slots st) r)) PTE_P))
                  PTE_P))
            (<[Z.to_nat r := mk_slot 0 1]> (slots st)) in
        match cpu_proc st with
        | Some p => set_rss st5 p (to_int (proc_rss st p + 1))
        | None => st5
        end).
Proof.
  intros Hva Hw HP Hslot Hr Hused Hfl Hmem. cbv zeta.
  rewrite (swappage_in_swapped st pd va pte r Hva Hw HP Hslot Hr Hused).
  assert (Hk : kalloc st = (mem, with_freelist st rest)).
  { unfold kalloc. rewrite Hfl. reflexivity. }
  rewrite Hk. destruct (Z.eqb_spec mem 0) as [E | _]; [contradiction |].
  destruct (Z.eqb_spec mem 0) as [E | _]; [contradiction |].
  set (sa := with_freelist st rest).
  rewrite (read_page_loop_shape 8 0 (to_uint (2 + r * 8)) mem sa).
  generalize (kmemory (read_page_loop 8 0 (to_uint (2 + r * 8)) mem sa)).
  intros km. cbv zeta.
  destruct (mappages_cases (with_kmemory sa km) pd (PGROUNDDOWN va) (V2P mem)
              (Z.lor (to_uint (slot_perm (slots (with_kmemory sa km)) r)) PTE_P))
    as [(_ & Hn) | (Hm4 & _)].
  { rewrite walkpgdir_PGROUNDDOWN in Hn.
    rewrite (walkpgdir_ext st (with_kmemory sa km) pd va) in Hn by reflexivity.
    rewrite Hn in Hw. discriminate. }
  rewrite Hm4. destruct (Z.ltb_spec 0 0); [lia |].
  unfold freeslot. destruct (Z.ltb_spec r 0); [lia |].
  destruct (Z.geb_spec r 800); [lia |]. cbn [orb].
  reflexivity.
Qed.

(** X17.  With a frame at the head of the free list, [swappage_in] on an
    entry that names a slot in use succeeds without calling [checkAswap]:
    it takes that frame, maps the page to it with the recorded permissions
    and the present flag, releases the slot and adds one to the [rss] of
    the current process.  Memory outside the frame, the disk, the other
    entries, the other slots and the tunables are as they were. *)
Theorem swappage_in_with_frame (st : kstate) (pd va pte r mem : Z) (rest : list Z) :
  0 <= va < 2 ^ 32 ->
  walkpgdir st pd va = Some pte -> Z.land pte PTE_P = 0 ->
  slot_of pte = r -> 0 <= r < 800 -> slot_is_free (slots st) r = false ->
  freelist st = mem :: rest -> mem <> 0 ->
  let res := swappage_in st pd va in
  let st' := snd res in
  fst res = 0 /\
  freelist st' = rest /\
  slots st' = <[Z.to_nat r := mk_slot 0 1]> (slots st) /\
  walkpgdir st' pd va
  = Some (Z.lor (Z.lor (V2P mem) (Z.lor (to_uint (slot_perm (slots st) r)) PTE_P)) PTE_P) /\
  (forall pd' a, pd' <> pd \/ Z.shiftr a 12 <> Z.shiftr va 12 ->
     walkpgdir st' pd' a = walkpgdir st pd' a) /\
  ptable st' =
    match cpu_proc st with
    | Some p => alter (fun q => mk_proc (state q) (pid q) (to_int (rss q + 1)) (pgdir q))
                  p (ptable st)
    | None => ptable st
    end /\
  (forall x, ~ (mem <= x < mem + 4096) -> kmemory st' x = kmemory st x) /\
  disk st' = disk st /\ tunables st' = tunables st /\ trace st' = trace st.
Proof.
  intros Hva Hw HP Hslot Hr Hused Hfl Hmem. cbv zeta.
  rewrite (swappage_in_frame_run st pd va pte r mem rest Hva Hw HP Hslot Hr Hused Hfl Hmem).
  unfold fst, snd.
  set (sa := with_freelist st rest).
  assert (Hkm : forall x, ~ (mem <= x < mem + 4096) ->
            kmemory (read_page_loop 8 0 (to_uint (2 + r * 8)) mem sa) x = kmemory st x).
  { intros x Hx. rewrite (to_uint_id (2 + r * 8)) by lia.
    rewrite read_page_loop_mem by lia.
    destruct (Z.leb_spec (mem + 0 * 512) x); destruct (Z.ltb_spec x (mem + 4096));
      cbn [andb]; try reflexivity. lia. }
  revert Hkm. generalize (kmemory (read_page_loop 8 0 (to_uint (2 + r * 8)) mem sa)).
  intros km Hkm.
  set (v := Z.lor (Z.lor (V2P mem) (Z.lor (to_uint (slot_perm (slots st) r)) PTE_P)) PTE_P).
  set (st4 := set_pte (with_kmemory sa km) pd (PGROUNDDOWN va) v).
  set (st5 := with_slots st4 (<[Z.to_nat r := mk_slot 0 1]> (slots st))).
  assert (Hfinal : forall st6, pgdirs st6 = pgdirs st4 ->
            walkpgdir st6 pd va = Some v /\
            (forall pd' a, pd' <> pd \/ Z.shiftr a 12 <> Z.shiftr va 12 ->
               walkpgdir st6 pd' a = walkpgdir st pd' a)).
  { intros st6 Hpg6. split.
    - rewrite (walkpgdir_ext st4 st6 pd va Hpg6).
      rewrite <- (walkpgdir_PGROUNDDOWN st4 pd va).
      apply walkpgdir_set_pte_same. rewrite walkpgdir_PGROUNDDOWN.
      rewrite (walkpgdir_ext st (with_kmemory sa km) pd va) by reflexivity.
      rewrite Hw. eauto.
    - intros pd' a Hor.
      rewrite (walkpgdir_ext st4 st6 pd' a Hpg6).
      unfold st4. rewrite walkpgdir_set_pte_other.
      + apply walkpgdir_ext. reflexivity.
      + destruct Hor as [Hd | Hd]; [left; exact Hd | right].
        unfold PGROUNDDOWN. change (PGSIZE - 1) with 0xFFF.
        rewrite shiftr12_PTE_ADDR. exact Hd. }
  cbv zeta. split; [reflexivity |].
  destruct (cpu_proc st) as [p |].
  - destruct (Hfinal (set_rss st5 p (to_int (proc_rss st p + 1)))) as (H3 & H4);
      [reflexivity |].
    split; [reflexivity |]. split; [reflexivity |].
    split; [exact H3 |]. split; [exact H4 |].
    split; [| split; [exact Hkm | repeat split]].
    unfold set_rss.
    change (alter (fun p0 => mk_proc (state p0) (pid p0) (to_int (proc_rss st p + 1))
                     (pgdir p0)) p (ptable st)
            = alter (fun q => mk_proc (state q) (pid q) (to_int (rss q + 1)) (pgdir q))
                p (ptable st)).
    apply list_alter_ext; [| reflexivity].
    intros x Hx. unfold proc_rss. rewrite Hx. reflexivity.
  - destruct (Hfinal st5) as (H3 & H4); [reflexivity |].
    split; [reflexivity |]. split; [reflexivity |].
    split; [exact H3 |]. split; [exact H4 |].
    split; [reflexivity |]. split; [exact Hkm | repeat split].
Qed.

End FaultIn.

Lemma swappage_in_failure_keeps_page_witness :
  fst (swappage_in (mp := xv6_x86) exiting_state example_pgdir 0x2000) = 0 \/
  fst (swappage_in (mp := xv6_x86) exiting_state example_pgdir 0x2000) = -1.
Proof.
  apply (swappage_in_failure_keeps_page (mp := xv6_x86) exiting_state
           example_pgdir 0x2000 0xA066 10);
    try (vm_compute; reflexivity); lia.
Defined.

Lemma swappage_in_with_frame_witness :
  fst (swappage_in (mp := xv6_x86) faulting_state example_pgdir 0x2000) = 0 /\
  freelist (snd (swappage_in (mp := xv6_x86) faulting_state example_pgdir 0x2000)) = [].
Proof.
  destruct (swappage_in_with_frame (mp := xv6_x86) faulting_state
              example_pgdir 0x2000 0xA066 10 0x8dffe000 [])
    as (H1 & H2 & _);
    try (vm_compute; reflexivity); try lia; try discriminate.
  split; [exact H1 | exact H2].
Defined.

(** ** From eviction to exit *)

Section EvictionThenExit.
Context {mp : mmu_params} {mp_ok : mmu_params_ok mp}.

(** X18.  A user page that was evicted and is not brought back has its
    slot released when its process exits: after a successful
    [swappageout] of a page of the process, [swapFree] leaves the slot the
    page was written to free, with no permissions. *)
Theorem evicted_page_released_at_exit (st : kstate) (p : nat) (pr : proc)
    (va pa pte : Z) :
  length (slots st) = 800%nat ->
  ptable st !! p = Some pr -> pgdir pr <> 0 ->
  0 <= va < KERNBASE ->
  walkpgdir st (pgdir pr) va = Some pte ->
  0 <= PTE_U < 4096 -> Z.land PTE_U PTE_P = 0 -> Z.land pte PTE_U <> 0 ->
  fst (swappageout st (pgdir pr) va pa) = 0 ->
  let st1 := snd (swappageout st (pgdir pr) va pa) in
  slots (swapFree st1 (Some p)) !! Z.to_nat (fst (findslot st)) = Some (mk_slot 0 1).
Proof.
  intros Hlen Hp Hpg Hva Hw HU HUP HpU Hok. cbv zeta.
  destruct (evicted_entry_shape st (pgdir pr) va pa pte Hw Hok)
    as (pte' & Hw' & _ & Hdec & Hrng & _ & _ & Hsw).
  specialize (Hsw HU HUP HpU).
  destruct (swappageout_effect st (pgdir pr) va pa pte Hw Hok)
    as (Hsl & _ & _ & _ & _ & _ & Hpt & _).
  revert Hw' Hsl Hpt. generalize (snd (swappageout st (pgdir pr) va pa)).
  intros st1 Hw' Hsl Hpt.
  assert (Hlen1 : length (slots st1) = 800%nat).
  { rewrite Hsl, length_alter. exact Hlen. }
  unfold swapFree. rewrite Hpt, Hp.
  destruct (Z.eqb_spec (pgdir pr) 0) as [E | _]; [contradiction |].
  destruct (swapFree_loop_spec st1 (pgdir pr) Hlen1) as (kend & Hk & _ & _ & Hfreed & _).
  rewrite <- Hdec.
  apply (Hfreed (Z.shiftr va 12) pte').
  - rewrite Z.shiftr_div_pow2 by lia. change (2 ^ 12) with 4096.
    pose proof (Z.div_mod va 4096) as Hdm.
    pose proof (Z.mod_pos_bound va 4096) as Hmb.
    assert (0 <= va / 4096) by (apply Z.div_pos; lia). lia.
  - rewrite <- Hw'. apply walkpgdir_vpn.
    rewrite !Z.shiftr_div_pow2 by lia. change (2 ^ 12) with 4096.
    rewrite Z.mul_comm, Z.div_mul by lia. reflexivity.
  - exact Hsw.
  - exact Hrng.
Qed.

End EvictionThenExit.

Lemma evicted_page_released_at_exit_witness :
  slots (swapFree (mp := xv6_x86)
           (snd (swappageout (mp := xv6_x86) evicting_state example_pgdir 0x5000 0x105000))
           (Some 0%nat)) !! 0%nat = Some (mk_slot 0 1).
Proof.
  apply (evicted_page_released_at_exit (mp_ok := xv6_x86_ok) evicting_state 0%nat
           (mk_proc RUNNING 3 10 example_pgdir) 0x5000 0x105000 0x105027);
    try (vm_compute; reflexivity); try discriminate;
    try (vm_compute; split; [discriminate | reflexivity]).
Defined.
